(** * easymd-horus: the MD simulation launcher and its worker script

    A shallow embedding of [Include/easymd.py] (the Horus plugin block,
    function [runMDSimulation]) and of [Include/run_md_simulation.py]
    (the worker, function [main]), with the properties the specification
    states about them.

    Python text is a sequence of Unicode code points, so a [str] is a
    list of code points ([N]).  Dictionaries with literal keys are
    [gmap string _].  Code that prints, touches the file system, starts
    a process or raises is written in a state-and-exception monad whose
    state carries the file system and a chronological trace of events. *)

From Stdlib Require Import ZArith NArith List String Ascii Bool Lia.
From Stdlib Require Import DecimalString.
From stdpp Require Import gmap strings list.

Import ListNotations.
Local Open Scope N_scope.

(** ** Python text *)

Abbreviation pystr := (list N).

(** A literal of the source, as code points. *)
Definition lit (s : string) : pystr :=
  map N_of_ascii (list_ascii_of_string s).

Arguments lit _%_string : simpl never.

Definition pystr_eqb (a b : pystr) : bool := bool_decide (a = b).

Definition is_empty (s : pystr) : bool :=
  match s with [] => true | _ => false end.

(** [str.isspace] for one character: the code points Python treats as
    white space in [strip], [rstrip] and [lstrip] without argument. *)
Definition isspace (c : N) : bool :=
  ((9 <=? c) && (c <=? 13)) || ((28 <=? c) && (c <=? 32))
  || (c =? 133) || (c =? 160) || (c =? 5760)
  || ((8192 <=? c) && (c <=? 8202))
  || (c =? 8232) || (c =? 8233) || (c =? 8239) || (c =? 8287)
  || (c =? 12288).

Fixpoint lstrip (s : pystr) : pystr :=
  match s with
  | c :: s' => if isspace c then lstrip s' else s
  | [] => []
  end.

Definition rstrip (s : pystr) : pystr := rev (lstrip (rev s)).

Definition strip (s : pystr) : pystr := rstrip (lstrip s).

Fixpoint startswith (prefix s : pystr) : bool :=
  match prefix, s with
  | [], _ => true
  | p :: prefix', c :: s' => (p =? c) && startswith prefix' s'
  | _ :: _, [] => false
  end.

(** [p] without the prefix [prefix], when it starts with it. *)
Fixpoint strip_prefix (prefix p : pystr) : option pystr :=
  match prefix, p with
  | [], _ => Some p
  | a :: prefix', c :: p' =>
      if a =? c then strip_prefix prefix' p' else None
  | _ :: _, [] => None
  end.

(** [s.partition(sep)] for a one-character separator: the text before
    the first [sep] and, when there is one, the text after it. *)
Fixpoint partition1 (sep : N) (s : pystr) : pystr * option pystr :=
  match s with
  | [] => ([], None)
  | c :: s' =>
      if c =? sep then ([], Some s')
      else let '(h, t) := partition1 sep s' in (c :: h, t)
  end.

(** [s.split(sep, 1)]: at most one cut, at the first [sep]. *)
Definition split1 (sep : N) (s : pystr) : list pystr :=
  match partition1 sep s with
  | (h, None) => [h]
  | (h, Some t) => [h; t]
  end.

(** [sep.join(items)] *)
Fixpoint join (sep : pystr) (items : list pystr) : pystr :=
  match items with
  | [] => []
  | [x] => x
  | x :: rest => x ++ sep ++ join sep rest
  end.

Definition colon : N := 58.
Definition slash : N := 47.
Definition quote : N := 39.

(** [str(n)] and ["%d" % n] for an integer. *)
Definition str_of_Z (z : Z) : pystr :=
  lit (NilZero.string_of_int (Z.to_int z)).

(** ** Exceptions, and the monad of effects *)

(** The exceptions the two programs distinguish in their [except]
    clauses; every other subclass of [Exception] is [OtherError] with the
    name of its class and its [str()].  [KeyboardInterrupt] and
    [SystemExit] are not subclasses of [Exception]: no [except] clause
    of the two programs catches them. *)
Inductive exn :=
| CalledProcessError (returncode : Z) (cmd : list pystr)
                     (stderr : option pystr)
| FileNotFoundError (text : pystr)
| OtherError (cls : string) (text : pystr)
| KeyboardInterrupt
| SystemExit (code : Z).

(** [isinstance(e, Exception)] *)
Definition is_Exception (e : exn) : bool :=
  match e with
  | KeyboardInterrupt | SystemExit _ => false
  | _ => true
  end.

(** A computation over a state [S]: the state it leaves, and either the
    exception it raised or its value.  A raise keeps the state changes
    made before it. *)
Definition M (S A : Type) : Type := S -> S * (exn + A).

Definition ret {S A} (a : A) : M S A := fun s => (s, inr a).

Definition raise {S A} (e : exn) : M S A := fun s => (s, inl e).

Definition bind {S A B} (m : M S A) (k : A -> M S B) : M S B :=
  fun s =>
    match m s with
    | (s', inr a) => k a s'
    | (s', inl e) => (s', inl e)
    end.

(** [try: body except Exception as e: handler e], the handler standing
    for the [except] clauses of the statement, all of them for
    subclasses of [Exception]: any other exception leaves the statement
    as it came, and there is no [finally]. *)
Definition try_except {S A} (body : M S A) (handler : exn -> M S A)
  : M S A :=
  fun s =>
    match body s with
    | (s', inl e) => if is_Exception e then handler e s' else (s', inl e)
    | r => r
    end.

Definition gets {S A} (f : S -> A) : M S A := fun s => (s, inr (f s)).

Definition modify {S} (f : S -> S) : M S unit := fun s => (f s, inr tt).

Notation "x <- c ;; k" := (bind c (fun x => k))
  (at level 100, c at next level, right associativity).
Notation "c ;; k" := (bind c (fun _ => k))
  (at level 100, right associativity).

(** [seq[i]], raising [IndexError] out of range. *)
Definition index {S} (items : list pystr) (i : nat) : M S pystr :=
  match items !! i with
  | Some v => ret v
  | None => raise (OtherError "IndexError" (lit "list index out of range"))
  end.

(** [repr(s)] of a [str].  Beyond Latin-1 the separators that
    [str.isprintable] rejects are escaped; format characters and
    unassigned code points up there are not told apart from printable
    ones. *)
Definition hex_digit (d : N) : N := if d <? 10 then 48 + d else 87 + d.

Fixpoint hex (width : nat) (n : N) : pystr :=
  match width with
  | O => []
  | S w => hex w (n / 16) ++ [hex_digit (n mod 16)]
  end.

Definition isprintable (c : N) : bool :=
  if c <? 127 then 32 <=? c
  else if c <? 161 then false
  else negb (c =? 173) && negb (isspace c).

Definition repr_char (q c : N) : pystr :=
  if (c =? q) || (c =? 92) then [92; c]
  else if c =? 9 then lit "\t"
  else if c =? 10 then lit "\n"
  else if c =? 13 then lit "\r"
  else if isprintable c then [c]
  else if c <? 256 then lit "\x" ++ hex 2 c
  else if c <? 65536 then lit "\u" ++ hex 4 c
  else lit "\U" ++ hex 8 c.

Definition repr_str (s : pystr) : pystr :=
  let q := if existsb (N.eqb 39) s && negb (existsb (N.eqb 34) s)
           then 34 else 39 in
  [q] ++ concat (map (repr_char q) s) ++ [q].

(** [str(items)] of a list of [str]. *)
Definition str_of_list (items : list pystr) : pystr :=
  lit "[" ++ join (lit ", ") (map repr_str items) ++ lit "]".

(** ** Paths and the file system *)

Definition isabs (p : pystr) : bool := startswith [slash] p.

Definition endswith_slash (p : pystr) : bool :=
  match last p with Some c => c =? slash | None => false end.

(** [os.path.join(a, b)] *)
Definition path_join (a b : pystr) : pystr :=
  if isabs b then b
  else if is_empty a || endswith_slash a then a ++ b
  else a ++ [slash] ++ b.

(** [os.path.abspath(p)] in the working directory [cwd].  The paths of
    this development have no empty, [.] or [..] component, on which
    [normpath] changes nothing; it is left out. *)
Definition abspath (cwd p : pystr) : pystr := path_join cwd p.

Fixpoint rstrip_slash_rev (r : pystr) : pystr :=
  match r with
  | c :: r' => if c =? slash then rstrip_slash_rev r' else r
  | [] => []
  end.

Fixpoint split_rev (r : pystr) : pystr * pystr :=
  match r with
  | [] => ([], [])
  | c :: r' =>
      if c =? slash then (r, [])
      else let '(head, tail) := split_rev r' in (head, c :: tail)
  end.

(** [os.path.split(p)]: the text up to the last slash, without its
    trailing slashes unless it is nothing but slashes, and the text after
    the last slash. *)
Definition path_split (p : pystr) : pystr * pystr :=
  let '(head_rev, tail_rev) := split_rev (rev p) in
  let head := rev head_rev in
  ((if forallb (N.eqb slash) head then head
    else rev (rstrip_slash_rev head_rev)),
   rev tail_rev).

Definition dirname (p : pystr) : pystr := fst (path_split p).

(** The file system: the absolute paths that exist, in the order a
    directory scan lists them. *)
Abbreviation FS := (list pystr).

(** [os.path.exists(p)] *)
Definition os_path_exists (cwd : pystr) (fs : FS) (p : pystr) : bool :=
  negb (is_empty p) && bool_decide (abspath cwd p ∈ fs).

Definition fs_create (cwd : pystr) (fs : FS) (p : pystr) : FS :=
  if bool_decide (abspath cwd p ∈ fs) then fs else fs ++ [abspath cwd p].

Definition fs_remove (cwd : pystr) (fs : FS) (p : pystr) : FS :=
  filter (fun q => q <> abspath cwd p) fs.

(** * The launcher: [easymd.py] *)

(** ** Values and the plugin block *)

(** The values the host hands over in [block.inputs] and
    [block.variables]: [None], booleans, integers and texts; values of
    the other types [json] encodes (a [float], or a [list] or [dict] of
    values it encodes), with the name of the type and their [str()];
    and instances of any other class, which [json] does not encode. *)
Inductive pyval :=
| PyNone
| PyBool (b : bool)
| PyInt (z : Z)
| PyStr (s : pystr)
| PyObject (cls : string) (shown : pystr)
| PyEncoded (cls : string) (shown : pystr).

Definition is_None (v : pyval) : bool :=
  match v with PyNone => true | _ => false end.

(** [str(v)], as an f-string shows [v]. *)
Definition py_str (v : pyval) : pystr :=
  match v with
  | PyNone => lit "None"
  | PyBool true => lit "True"
  | PyBool false => lit "False"
  | PyInt z => str_of_Z z
  | PyStr s => s
  | PyObject _ shown => shown
  | PyEncoded _ shown => shown
  end.

Definition type_name (v : pyval) : string :=
  match v with
  | PyNone => "NoneType"
  | PyBool _ => "bool"
  | PyInt _ => "int"
  | PyStr _ => "str"
  | PyObject cls _ => cls
  | PyEncoded cls _ => cls
  end.

Record Block := {
  inputs : gmap string pyval;
  variables : gmap string pyval
}.

(** [d.get(key, default)] *)
Definition dict_get (d : gmap string pyval) (key : string)
                    (default : pyval) : pyval :=
  match d !! key with Some v => v | None => default end.

(** ** The host: what the operating system answers during one call *)

(** The child process as the launcher sees it: the lines its merged
    output yields, the error that ends the reading early if one does
    (with the lines read before it), its exit code, and what the child,
    and whatever else runs beside the launcher from then on, makes of
    the file system. *)
Record Child := {
  child_stdout : list pystr;
  read_error : option exn;
  child_returncode : Z;
  meanwhile : FS -> FS
}.

Record Host := {
  (** [os.getcwd()] without its leading slash *)
  cwd_rest : pystr;
  (** [__file__] of the plugin module *)
  module_file : pystr;
  (** [tempfile.NamedTemporaryFile]: the absolute name of the file it
      creates, without its leading slash, or the error it raises *)
  tempfile_rest : exn + pystr;
  (** what [subprocess.Popen] gives for a command line *)
  spawn : list pystr -> exn + Child;
  (** [signal.Signals]: the name of a signal number on this platform *)
  signal_name : Z -> option string
}.

Definition getcwd (h : Host) : pystr := slash :: cwd_rest h.

(** ** State and events of one call *)

Inductive event :=
| Print (line : pystr)
| Created (path : pystr)
| Spawned (cmd : list pystr)
| Waited (returncode : Z)
| Unlinked (path : pystr)
| SetOutput (key : string) (value : pystr).

(** [files]: the file system; [param_file_path]: the local variable of
    that name, [None] while it is unbound; [trace]: what happened so far,
    oldest first. *)
Record LState := {
  files : FS;
  param_file_path : option pystr;
  trace : list event
}.

Definition emit (e : event) (s : LState) : LState :=
  {| files := files s; param_file_path := param_file_path s;
     trace := trace s ++ [e] |}.

Definition set_files (fs : FS) (s : LState) : LState :=
  {| files := fs; param_file_path := param_file_path s;
     trace := trace s |}.

Definition set_param_file_path (p : pystr) (s : LState) : LState :=
  {| files := files s; param_file_path := Some p; trace := trace s |}.

Definition print (line : pystr) : M LState unit := modify (emit (Print line)).

Definition lift {S A} (r : exn + A) : M S A :=
  match r with inl e => raise e | inr a => ret a end.

(** [str(e)] *)
Definition str_of_exn (signals : Z -> option string) (e : exn) : pystr :=
  match e with
  | CalledProcessError rc cmd _ =>
      if (rc <? 0)%Z then
        match signals (- rc)%Z with
        | Some name =>
            lit "Command '" ++ str_of_list cmd ++ lit "' died with <Signals."
            ++ lit name ++ lit ": " ++ str_of_Z (- rc) ++ lit ">."
        | None =>
            lit "Command '" ++ str_of_list cmd
            ++ lit "' died with unknown signal " ++ str_of_Z (- rc) ++ lit "."
        end
      else
        lit "Command '" ++ str_of_list cmd
        ++ lit "' returned non-zero exit status " ++ str_of_Z rc ++ lit "."
  | FileNotFoundError text => text
  | OtherError _ text => text
  | KeyboardInterrupt => []
  | SystemExit code => str_of_Z code
  end.

(** [tempfile.NamedTemporaryFile(mode="w", suffix=".json", delete=False)]:
    the file exists from here on, and closing it does not delete it. *)
Definition NamedTemporaryFile (h : Host) : M LState pystr :=
  rest <- lift (tempfile_rest h) ;;
  let name := slash :: rest in
  modify (fun s => emit (Created name)
                     (set_files (fs_create (getcwd h) (files s) name) s)) ;;
  ret name.

(** [json.dump(params, param_file, indent=2)]: the items are encoded in
    the order of the dictionary, and the first value [json] has no
    encoding for raises [TypeError].  The text written is not part of the
    state. *)
Fixpoint json_dump {S} (params : list (string * pyval)) : M S unit :=
  match params with
  | [] => ret tt
  | (_, PyObject cls _) :: _ =>
      raise (OtherError "TypeError"
               (lit "Object of type " ++ lit cls
                ++ lit " is not JSON serializable"))
  | _ :: rest => json_dump rest
  end.

(** The items of [' '.join(cmd)]: [TypeError] at the first one that is
    not a [str]. *)
Fixpoint str_items (i : nat) (cmd : list pyval) : exn + list pystr :=
  match cmd with
  | [] => inr []
  | PyStr s :: rest =>
      match str_items (S i) rest with
      | inr items => inr (s :: items)
      | inl e => inl e
      end
  | v :: _ =>
      inl (OtherError "TypeError"
             (lit "sequence item " ++ str_of_Z (Z.of_nat i)
              ++ lit ": expected str instance, " ++ lit (type_name v)
              ++ lit " found"))
  end.

(** [subprocess.Popen(cmd, stdout=PIPE, stderr=STDOUT, text=True, ...)] *)
Definition Popen (h : Host) (cmd : list pystr) : M LState Child :=
  p <- lift (spawn h cmd) ;;
  modify (fun s => emit (Spawned cmd) (set_files (meanwhile p (files s)) s)) ;;
  ret p.

(** [p.wait()] *)
Definition wait (p : Child) : M LState Z :=
  modify (emit (Waited (child_returncode p))) ;;
  ret (child_returncode p).

(** [os.unlink(path)] *)
Definition os_unlink (h : Host) (path : pystr) : M LState unit :=
  exists_ <- gets (fun s => os_path_exists (getcwd h) (files s) path) ;;
  if exists_ : bool then
    modify (fun s => emit (Unlinked path)
                       (set_files (fs_remove (getcwd h) (files s) path) s))
  else
    raise (FileNotFoundError
             (lit "[Errno 2] No such file or directory: " ++ repr_str path)).

(** [block.setOutput(key, value)] *)
Definition setOutput (key : string) (value : pystr) : M LState unit :=
  modify (emit (SetOutput key value)).

(** ** The reading loop *)

(** The body of [for line in p.stdout], on the pair
    [(topology_file, trajectory_file)]. *)
Definition read_line (line : pystr) (found : pystr * pystr)
  : M LState (pystr * pystr) :=
  let line := rstrip line in
  print line ;;
  if startswith (lit "TOPOLOGY_FILE:") line then
    value <- index (split1 colon line) 1 ;;
    ret (strip value, snd found)
  else if startswith (lit "TRAJECTORY_FILE:") line then
    value <- index (split1 colon line) 1 ;;
    ret (fst found, strip value)
  else ret found.

Fixpoint read_lines (lines : list pystr) (found : pystr * pystr)
  : M LState (pystr * pystr) :=
  match lines with
  | [] => ret found
  | line :: rest =>
      found' <- read_line line found ;;
      read_lines rest found'
  end.

(** The loop over [p.stdout]: the lines read, then the error of the
    stream if it ends in one. *)
Definition read_stdout (p : Child) : M LState (pystr * pystr) :=
  found <- read_lines (child_stdout p) ([], []) ;;
  match read_error p with
  | Some e => raise e
  | None => ret found
  end.

(** ** [runMDSimulation] *)

(** The cleanup of both handlers:
    [if "param_file_path" in locals() and os.path.exists(param_file_path):
       os.unlink(param_file_path)] *)
Definition cleanup (h : Host) : M LState unit :=
  bound <- gets param_file_path ;;
  match bound with
  | Some path =>
      exists_ <- gets (fun s => os_path_exists (getcwd h) (files s) path) ;;
      if exists_ : bool then os_unlink h path else ret tt
  | None => ret tt
  end.

(** [except subprocess.CalledProcessError as e] and
    [except Exception as e] *)
Definition handler (h : Host) (e : exn) : M LState unit :=
  match e with
  | CalledProcessError _ _ stderr =>
      let error_msg :=
        lit "Error running MD simulation script: " ++ str_of_exn (signal_name h) e in
      let error_msg :=
        match stderr with
        | Some text =>
            if is_empty text then error_msg
            else error_msg ++ [10] ++ lit "Script error output: " ++ text
        | None => error_msg
        end in
      print error_msg ;;
      cleanup h ;;
      raise (OtherError "Exception" error_msg)
  | _ =>
      let error_msg :=
        lit "Error during MD simulation setup: " ++ str_of_exn (signal_name h) e in
      print error_msg ;;
      cleanup h ;;
      raise (OtherError "Exception" error_msg)
  end.

Definition runMDSimulation (h : Host) (block : Block) : M LState unit :=
  let protein_path := dict_get (inputs block) "protein_file" PyNone in
  let ligand_path := dict_get (inputs block) "ligand_file" PyNone in
  if is_None protein_path then
    raise (OtherError "Exception" (lit "Protein file path is required."))
  else if is_None ligand_path then
    raise (OtherError "Exception" (lit "Ligand file path is required."))
  else
  let md_steps := dict_get (variables block) "md_steps" (PyInt 1000) in
  let md_save_interval :=
    dict_get (variables block) "md_save_interval" (PyInt 10) in
  let platform_name :=
    dict_get (variables block) "platform_name" (PyStr (lit "CPU")) in
  let platform_precision :=
    dict_get (variables block) "platform_precision" (PyStr (lit "mixed")) in
  let starting_state_path :=
    dict_get (variables block) "starting_state_path" (PyStr []) in
  let conda_env :=
    dict_get (variables block) "conda_env" (PyStr (lit "easymd")) in
  let params :=
    [ ("protein_file", protein_path);
      ("ligand_file", ligand_path);
      ("md_steps", md_steps);
      ("md_save_interval", md_save_interval);
      ("platform_name", platform_name);
      ("platform_precision", platform_precision);
      ("starting_state_path", starting_state_path) ]%string in
  try_except
    ( param_file <- NamedTemporaryFile h ;;
      json_dump params ;;
      modify (set_param_file_path param_file) ;;
      print (lit "Created configuration for protein: "
             ++ py_str protein_path) ;;
      print (lit "Ligand: " ++ py_str ligand_path) ;;
      print (lit "MD Steps: " ++ py_str md_steps
             ++ lit ", Save Interval: " ++ py_str md_save_interval) ;;
      print (lit "Platform: " ++ py_str platform_name
             ++ lit ", Precision: " ++ py_str platform_precision) ;;
      print (lit "Using conda environment: " ++ py_str conda_env) ;;
      let script_dir := dirname (abspath (getcwd h) (module_file h)) in
      let script_path :=
        path_join script_dir (lit "run_md_simulation.py") in
      let cmd :=
        [ PyStr (lit "/opt/homebrew/bin/micromamba");
          PyStr (lit "run");
          PyStr (lit "-n");
          conda_env;
          PyStr (lit "python");
          PyStr (lit "-u");
          PyStr script_path;
          PyStr param_file ] in
      print (lit "Starting MD simulation...") ;;
      cmd <- lift (str_items 0 cmd) ;;
      print (lit "Command: " ++ join (lit " ") cmd) ;;
      p <- Popen h cmd ;;
      found <- read_stdout p ;;
      let '(topology_file, trajectory_file) := found in
      return_code <- wait p ;;
      if negb (return_code =? 0)%Z then
        raise (CalledProcessError return_code cmd None)
      else
      os_unlink h param_file ;;
      setOutput "topology_output" topology_file ;;
      setOutput "trajectory_output" trajectory_file ;;
      print (lit "MD simulation completed!") ;;
      print (lit "Topology file: " ++ topology_file) ;;
      print (lit "Trajectory file: " ++ trajectory_file) )
    (handler h).

(** One call of the launcher on the file system [fs]. *)
Definition start (fs : FS) : LState :=
  {| files := fs; param_file_path := None; trace := [] |}.

Definition launch (h : Host) (block : Block) (fs : FS)
  : LState * (exn + unit) :=
  runMDSimulation h block (start fs).

(** * The worker: [run_md_simulation.py] *)

(** ** [glob] *)

Definition star : N := 42.

(** [fnmatch.fnmatchcase(name, pat)] for the patterns of the worker:
    [*] stands for any text and [?] for any one character; the patterns
    have no bracket expression, and a bracket is read as itself. *)
Fixpoint fnmatch (pat name : pystr) : bool :=
  match pat with
  | [] => is_empty name
  | p :: pat' =>
      if p =? star then
        (fix any (name : pystr) : bool :=
           fnmatch pat' name
           || match name with [] => false | _ :: name' => any name' end)
          name
      else
        match name with
        | [] => false
        | c :: name' => ((p =? 63) || (p =? c)) && fnmatch pat' name'
        end
  end.

Definition has_magic (p : pystr) : bool :=
  existsb (fun c => (c =? star) || (c =? 63) || (c =? 91)) p.

(** The names a scan of the directory [dir] yields ([dir] empty: the
    working directory), in the order of the file system. *)
Definition listdir (cwd : pystr) (fs : FS) (dir : pystr) : list pystr :=
  let dir := path_join cwd dir in
  let prefix := if endswith_slash dir then dir else dir ++ [slash] in
  omap (fun p =>
          match strip_prefix prefix p with
          | Some name =>
              if is_empty name || existsb (N.eqb slash) name then None
              else Some name
          | None => None
          end) fs.

Definition ishidden (name : pystr) : bool := startswith (lit ".") name.

(** [glob._glob1(dirname, pattern)] *)
Definition glob1 (cwd : pystr) (fs : FS) (dirname pattern : pystr)
  : list pystr :=
  let names := listdir cwd fs dirname in
  let names :=
    if ishidden pattern then names
    else filter (fun x => ishidden x = false) names in
  filter (fun x => fnmatch pattern x = true) names.

(** [glob.glob(pathname)] for a pathname whose directory part has no
    wildcard and whose last component is not empty, as every pattern of
    the worker is. *)
Definition glob (cwd : pystr) (fs : FS) (pathname : pystr) : list pystr :=
  let '(dirname, basename) := path_split pathname in
  if negb (has_magic pathname) then
    if os_path_exists cwd fs pathname then [pathname] else []
  else if is_empty dirname then glob1 cwd fs [] basename
  else map (path_join dirname) (glob1 cwd fs dirname basename).

(** ** The parameter file, the toolkit and the machine *)

(** The parameter document, with the seven keys and the types the
    launcher's defaults have. *)
Record Params := {
  protein_file : pystr;
  ligand_file : pystr;
  md_steps : Z;
  md_save_interval : Z;
  platform_name : pystr;
  platform_precision : pystr;
  starting_state_path : pystr
}.

(** The calls into [easy_md]. *)
Inductive Stage :=
| create_config (protein_file ligand_file : pystr)
                (md_steps md_save_interval : Z)
                (platform_name platform_precision : pystr)
| add_water
| forcefield_parameterization
| energy_minimization
| run_simulation (starting_state_path : option pystr).

Record Machine := {
  (** [sys.argv] *)
  argv : list pystr;
  (** [os.getcwd()] without its leading slash *)
  wcwd_rest : pystr;
  (** [open(params_file)] and [json.load]: the document or the error *)
  load_params : pystr -> exn + Params;
  (** a call into the toolkit on a file system: what it prints, and the
      file system it leaves or the error it raises; after a call that
      raises the worker looks at no file, and the files are taken as
      they were before it *)
  toolkit : Stage -> FS -> list pystr * (exn + FS);
  wsignal_name : Z -> option string
}.

Definition wgetcwd (m : Machine) : pystr := slash :: wcwd_rest m.

Inductive wevent :=
| Out (line : pystr)
| Call (stage : Stage)
| Return (stage : Stage)
| Traceback (e : exn).

Record WState := {
  wfiles : FS;
  wtrace : list wevent
}.

Definition wemit (e : wevent) (s : WState) : WState :=
  {| wfiles := wfiles s; wtrace := wtrace s ++ [e] |}.

Definition wemits (es : list wevent) (s : WState) : WState :=
  {| wfiles := wfiles s; wtrace := wtrace s ++ es |}.

Definition set_wfiles (fs : FS) (s : WState) : WState :=
  {| wfiles := fs; wtrace := wtrace s |}.

Definition out (line : pystr) : M WState unit := modify (wemit (Out line)).

Definition exists_ (m : Machine) (p : pystr) : M WState bool :=
  gets (fun s => os_path_exists (wgetcwd m) (wfiles s) p).

(** One call into the toolkit. *)
Definition call (m : Machine) (stage : Stage) : M WState unit :=
  modify (wemit (Call stage)) ;;
  fs <- gets wfiles ;;
  let '(lines, result) := toolkit m stage fs in
  modify (wemits (map Out lines)) ;;
  fs' <- lift result ;;
  modify (set_wfiles fs') ;;
  modify (wemit (Return stage)).

(** ** Output resolution *)

Definition alt_topo_files : list pystr :=
  [ lit "output/emin.pdb"; lit "emin.pdb";
    lit "output/system.pdb"; lit "system.pdb" ].

Definition traj_patterns : list pystr :=
  [ lit "output/md_trajectory_id_*.dcd";
    lit "output/md_trajectory*.dcd";
    lit "output/trajectory*.dcd";
    lit "md_trajectory_id_*.dcd";
    lit "trajectory.dcd" ].

(** [for alt_file in alt_topo_files: ...], from [topology_file = ""]. *)
Fixpoint search_topology (m : Machine) (alts : list pystr)
  : M WState pystr :=
  match alts with
  | [] => ret []
  | alt_file :: rest =>
      found <- exists_ m alt_file ;;
      if found : bool then
        let topology_file := abspath (wgetcwd m) alt_file in
        out (lit "Found topology file at: " ++ topology_file) ;;
        ret topology_file
      else search_topology m rest
  end.

(** [for pattern in traj_patterns: ...], from [trajectory_file = ""]. *)
Fixpoint search_trajectory (m : Machine) (patterns : list pystr)
  : M WState pystr :=
  match patterns with
  | [] => ret []
  | pattern :: rest =>
      matches <- gets (fun s => glob (wgetcwd m) (wfiles s) pattern) ;;
      match matches with
      | first :: _ =>
          let trajectory_file := abspath (wgetcwd m) first in
          out (lit "Found trajectory file at: " ++ trajectory_file) ;;
          ret trajectory_file
      | [] => search_trajectory m rest
      end
  end.

Definition resolve_topology (m : Machine) : M WState pystr :=
  let topology_file := abspath (wgetcwd m) (lit "output/emin.pdb") in
  found <- exists_ m topology_file ;;
  if found : bool then ret topology_file
  else
    out (lit "Warning: Expected topology file not found at "
         ++ topology_file) ;;
    search_topology m alt_topo_files.

Definition resolve_trajectory (m : Machine) : M WState pystr :=
  let trajectory_file :=
    abspath (wgetcwd m) (lit "output/md_trajetory_id_0.dcd") in
  found <- exists_ m trajectory_file ;;
  if found : bool then ret trajectory_file
  else
    out (lit "Warning: Expected trajectory file not found at "
         ++ trajectory_file) ;;
    search_trajectory m traj_patterns.

(** The two lines for the launcher. *)
Definition report (m : Machine) (topology_file trajectory_file : pystr)
  : M WState unit :=
  found <- exists_ m topology_file ;;
  (if negb (is_empty topology_file) && found
   then out (lit "TOPOLOGY_FILE:" ++ topology_file)
   else out (lit "TOPOLOGY_FILE:Not found - expected at output/emin.pdb")) ;;
  found <- exists_ m trajectory_file ;;
  if negb (is_empty trajectory_file) && found
  then out (lit "TRAJECTORY_FILE:" ++ trajectory_file)
  else out (lit "TRAJECTORY_FILE:Not found - expected at output/md_trajectory_id_0.dcd").

(** ** [main] *)

Definition rule : pystr := replicate 50 61.
Definition check_mark : N := 10003.

(** The validation of the input files. *)
Definition validate (m : Machine) (params : Params) : M WState unit :=
  found <- exists_ m (protein_file params) ;;
  if negb found then
    raise (FileNotFoundError
             (lit "Protein file not found: " ++ protein_file params))
  else
  found <- exists_ m (ligand_file params) ;;
  if negb found then
    raise (FileNotFoundError
             (lit "Ligand file not found: " ++ ligand_file params))
  else
  found <- exists_ m (starting_state_path params) ;;
  if negb (is_empty (starting_state_path params)) && negb found then
    raise (FileNotFoundError
             (lit "Starting state file not found: "
              ++ starting_state_path params))
  else ret tt.

(** The five calls into the toolkit. *)
Definition pipeline (m : Machine) (params : Params) : M WState unit :=
  out (lit "Step 1: Creating configuration...") ;;
  call m (create_config (protein_file params) (ligand_file params)
            (md_steps params) (md_save_interval params)
            (platform_name params) (platform_precision params)) ;;
  out (check_mark :: lit " Configuration created successfully") ;;
  out (10 :: lit "Step 2: Adding water (solvation)...") ;;
  call m add_water ;;
  out (check_mark :: lit " Solvation completed successfully") ;;
  out (10 :: lit "Step 3: Running force field parameterization...") ;;
  call m forcefield_parameterization ;;
  out (check_mark
       :: lit " Force field parameterization completed successfully") ;;
  out (10 :: lit "Step 4: Running energy minimization...") ;;
  call m energy_minimization ;;
  out (check_mark :: lit " Energy minimization completed successfully") ;;
  out (10 :: lit "Step 5: Running MD simulation...") ;;
  if negb (is_empty (starting_state_path params)) then
    call m (run_simulation (Some (starting_state_path params))) ;;
    out (check_mark
         :: lit " Simulation completed successfully with initial state: "
         ++ starting_state_path params)
  else
    call m (run_simulation None) ;;
    out (check_mark
         :: lit " Simulation completed successfully from minimized structure").

(** The prints that follow the loading of the parameters. *)
Definition announce (params_file : pystr) (params : Params)
  : M WState unit :=
  out (lit "MD Simulation Script Started") ;;
  out rule ;;
  out (lit "Parameters loaded from: " ++ params_file) ;;
  out (lit "Protein file: " ++ protein_file params) ;;
  out (lit "Ligand file: " ++ ligand_file params) ;;
  out (lit "MD steps: " ++ str_of_Z (md_steps params)) ;;
  out (lit "Save interval: " ++ str_of_Z (md_save_interval params)) ;;
  out (lit "Platform: " ++ platform_name params) ;;
  out (lit "Precision: " ++ platform_precision params) ;;
  (if negb (is_empty (starting_state_path params))
   then out (lit "Starting state: " ++ starting_state_path params)
   else ret tt) ;;
  out rule.

(** From [# Get output file paths from the expected locations] to the
    end of the [try]. *)
Definition conclude (m : Machine) : M WState unit :=
  topology_file <- resolve_topology m ;;
  trajectory_file <- resolve_trajectory m ;;
  out (10 :: rule) ;;
  out (lit "MD SIMULATION SETUP COMPLETED SUCCESSFULLY!") ;;
  out rule ;;
  report m topology_file trajectory_file.

(** The body of the [try] of [main]. *)
Definition main_try (m : Machine) (params_file : pystr) : M WState unit :=
  params <- lift (load_params m params_file) ;;
  announce params_file params ;;
  validate m params ;;
  pipeline m params ;;
  conclude m.

(** [except FileNotFoundError as e] and [except Exception as e], with
    the exit code as value. *)
Definition main_except (m : Machine) (e : exn) : M WState Z :=
  match e with
  | FileNotFoundError _ =>
      out (lit "ERROR: " ++ str_of_exn (wsignal_name m) e) ;;
      ret 1%Z
  | _ =>
      out (lit "ERROR during MD simulation: "
           ++ str_of_exn (wsignal_name m) e) ;;
      modify (wemit (Traceback e)) ;;
      ret 1%Z
  end.

(** [main], with the exit code of the process as its value: 1 from
    the [sys.exit(1)] of the usage message and of the two handlers, 0 at
    the end of the [try].  What is raised and is no [Exception] (a
    [sys.exit] or an interrupt inside a stage) leaves [main] as raised. *)
Definition main (m : Machine) : M WState Z :=
  match argv m with
  | [_; params_file] =>
      try_except (main_try m params_file ;; ret 0%Z) (main_except m)
  | _ =>
      out (lit "Usage: python run_md_simulation.py <params_json_file>") ;;
      ret 1%Z
  end.

(** One run of the worker on the file system [fs]. *)
Definition run_worker (m : Machine) (fs : FS) : WState * (exn + Z) :=
  main m {| wfiles := fs; wtrace := [] |}.

(** * Properties *)

(** ** What a run shows *)

Definition raised {S A} (r : S * (exn + A)) : option exn :=
  match snd r with inl e => Some e | inr _ => None end.

(** The call was left by something that is no [Exception] (an
    interrupt, [sys.exit]), which no [except Exception] clause sees. *)
Definition interrupted {S A} (r : S * (exn + A)) : bool :=
  match snd r with inl e => negb (is_Exception e) | inr _ => false end.

(** The outputs of the block after the events [tr]. *)
Definition outputs (tr : list event) : gmap string pystr :=
  foldl (fun o e => match e with SetOutput k v => <[k:=v]> o | _ => o end)
        ∅ tr.

(** The exit code [p.wait()] returned, if the call got that far. *)
Definition exit_status (tr : list event) : option Z :=
  head (omap (fun e => match e with Waited rc => Some rc | _ => None end) tr).

Definition is_spawn (e : event) : bool :=
  match e with Spawned _ => true | _ => false end.

Definition is_created (e : event) : bool :=
  match e with Created _ => true | _ => false end.

Definition is_set_output (e : event) : bool :=
  match e with SetOutput _ _ => true | _ => false end.

Definition emits (es : list event) (s : LState) : LState :=
  {| files := files s; param_file_path := param_file_path s;
     trace := trace s ++ es |}.

(** ** Text *)

Lemma strip_prefix_app (prefix rest : pystr) :
  strip_prefix prefix (prefix ++ rest) = Some rest.
Proof.
  induction prefix as [|a prefix IH]; simpl; [reflexivity|].
  rewrite N.eqb_refl. exact IH.
Qed.

Lemma strip_prefix_Some (prefix s rest : pystr) :
  strip_prefix prefix s = Some rest -> s = prefix ++ rest.
Proof.
  revert s. induction prefix as [|a prefix IH]; intros s; simpl.
  - intros [= ->]. reflexivity.
  - destruct s as [|c s]; [discriminate|].
    destruct (N.eqb_spec a c) as [->|]; [|discriminate].
    intros H. rewrite (IH _ H). reflexivity.
Qed.

Lemma startswith_strip_prefix (prefix s : pystr) :
  startswith prefix s
  = match strip_prefix prefix s with Some _ => true | None => false end.
Proof.
  revert s. induction prefix as [|a prefix IH]; intros s; simpl.
  - reflexivity.
  - destruct s as [|c s]; [reflexivity|].
    destruct (a =? c); simpl; [apply IH | reflexivity].
Qed.

Lemma partition1_first (sep : N) (before after : pystr) :
  forallb (fun c => negb (c =? sep)) before = true ->
  partition1 sep (before ++ sep :: after) = (before, Some after).
Proof.
  induction before as [|c before IH]; simpl.
  - intros _. rewrite N.eqb_refl. reflexivity.
  - intros [Hc Hb]%andb_prop.
    destruct (c =? sep); [discriminate|].
    rewrite (IH Hb). reflexivity.
Qed.

(** ** The reading loop of the launcher *)

(** The value a line carries for the sentinel [key]: the text after the
    key, trimmed, when the line without its trailing white space starts
    with the key. *)
Definition sentinel_value (key line : pystr) : option pystr :=
  match strip_prefix key (rstrip line) with
  | Some rest => Some (strip rest)
  | None => None
  end.

(** The value of the last line of [lines] that carries one for [key],
    or [previous] when none does. *)
Definition last_value (key previous : pystr) (lines : list pystr) : pystr :=
  default previous (last (omap (sentinel_value key) lines)).

Lemma split1_key (key rest : pystr) :
  forallb (fun c => negb (c =? colon)) key = true ->
  split1 colon (key ++ colon :: rest) !! 1%nat = Some rest.
Proof.
  intros H. unfold split1. rewrite (partition1_first _ _ _ H). reflexivity.
Qed.

Lemma read_line_run (line : pystr) (found : pystr * pystr) (s : LState) :
  read_line line found s
  = (emit (Print (rstrip line)) s,
     inr (default (fst found) (sentinel_value (lit "TOPOLOGY_FILE:") line),
          default (snd found)
            (sentinel_value (lit "TRAJECTORY_FILE:") line))).
Proof.
  destruct found as [topology_file trajectory_file].
  unfold read_line, sentinel_value.
  rewrite !startswith_strip_prefix.
  destruct (strip_prefix (lit "TOPOLOGY_FILE:") (rstrip line))
    as [rest|] eqn:Htopo.
  - apply strip_prefix_Some in Htopo. rewrite Htopo.
    replace (strip_prefix (lit "TRAJECTORY_FILE:")
               (lit "TOPOLOGY_FILE:" ++ rest)) with (@None pystr)
      by reflexivity.
    change (lit "TOPOLOGY_FILE:" ++ rest)
      with (lit "TOPOLOGY_FILE" ++ colon :: rest).
    unfold bind, print, modify, index.
    rewrite split1_key by reflexivity. reflexivity.
  - destruct (strip_prefix (lit "TRAJECTORY_FILE:") (rstrip line))
      as [rest|] eqn:Htraj.
    + apply strip_prefix_Some in Htraj. rewrite Htraj.
      change (lit "TRAJECTORY_FILE:" ++ rest)
        with (lit "TRAJECTORY_FILE" ++ colon :: rest).
      unfold bind, print, modify, index.
      rewrite split1_key by reflexivity. reflexivity.
    + reflexivity.
Qed.

Lemma last_value_cons (key previous line : pystr) (lines : list pystr) :
  last_value key (default previous (sentinel_value key line)) lines
  = last_value key previous (line :: lines).
Proof.
  unfold last_value. simpl.
  destruct (sentinel_value key line) as [v|]; simpl; [|reflexivity].
  rewrite last_cons.
  destruct (last _); reflexivity.
Qed.

Lemma emits_emit (e : event) (es : list event) (s : LState) :
  emits es (emit e s) = emits (e :: es) s.
Proof.
  unfold emits, emit. simpl. rewrite <- app_assoc. reflexivity.
Qed.

Lemma emits_nil (s : LState) : emits [] s = s.
Proof. destruct s. unfold emits. simpl. rewrite app_nil_r. reflexivity. Qed.

Lemma read_lines_run
    (lines : list pystr) (found : pystr * pystr) (s : LState) :
  read_lines lines found s
  = (emits (map (fun line => Print (rstrip line)) lines) s,
     inr (last_value (lit "TOPOLOGY_FILE:") (fst found) lines,
          last_value (lit "TRAJECTORY_FILE:") (snd found) lines)).
Proof.
  revert found s.
  induction lines as [|line lines IH]; intros found s.
  - simpl. rewrite emits_nil. destruct found. reflexivity.
  - simpl. unfold bind. rewrite read_line_run, IH. simpl.
    rewrite emits_emit, !last_value_cons. reflexivity.
Qed.

Lemma omap_none {A B} (f : A -> option B) (l : list A) :
  Forall (fun x => f x = None) l -> omap f l = [].
Proof.
  induction 1 as [|x l Hx _ IH]; [reflexivity|].
  cbn [omap list_omap]. rewrite Hx. exact IH.
Qed.

Lemma last_value_last (key previous : pystr) (before : list pystr)
      (line : pystr) (rest : list pystr) (v : pystr) :
  sentinel_value key line = Some v ->
  Forall (fun l => sentinel_value key l = None) rest ->
  last_value key previous (before ++ line :: rest) = v.
Proof.
  intros Hline Hrest. unfold last_value.
  rewrite omap_app. cbn [omap list_omap].
  rewrite Hline, (omap_none _ _ Hrest), last_snoc. reflexivity.
Qed.

Lemma last_value_none (key previous : pystr) (lines : list pystr) :
  Forall (fun l => sentinel_value key l = None) lines ->
  last_value key previous lines = previous.
Proof.
  intros H. unfold last_value. rewrite (omap_none _ _ H). reflexivity.
Qed.

(** C2: the loop echoes every line without its trailing white space and
    changes nothing else; it returns, for each of the two keys, the value
    of the last line that carries one, the text after the key, trimmed,
    whatever lines for that key came before it, and the value it started
    with when no line carries the key. *)
Theorem read_lines_last_wins
    (lines : list pystr) (found : pystr * pystr) (s : LState) :
  read_lines lines found s
  = (emits (map (fun line => Print (rstrip line)) lines) s,
     inr (last_value (lit "TOPOLOGY_FILE:") (fst found) lines,
          last_value (lit "TRAJECTORY_FILE:") (snd found) lines))
  /\ (forall key previous before line rest rest_of_line,
         lines = before ++ line :: rest ->
         rstrip line = key ++ rest_of_line ->
         Forall (fun l => sentinel_value key l = None) rest ->
         last_value key previous lines = strip rest_of_line)
  /\ (forall key previous,
         Forall (fun l => sentinel_value key l = None) lines ->
         last_value key previous lines = previous).
Proof.
  split; [apply read_lines_run|]. split.
  - intros key previous before line rest rest_of_line -> Hline Hrest.
    apply last_value_last; [|exact Hrest].
    unfold sentinel_value. rewrite Hline, strip_prefix_app. reflexivity.
  - intros key previous. apply last_value_none.
Qed.

(** ** The file system *)

Lemma exists_after_remove (cwd : pystr) (fs : FS) (p : pystr) :
  os_path_exists cwd (fs_remove cwd fs p) p = false.
Proof.
  unfold os_path_exists, fs_remove.
  apply andb_false_iff. right. apply bool_decide_eq_false.
  rewrite list_elem_of_filter. intros [H _]. apply H. reflexivity.
Qed.

Lemma exists_after_create (cwd : pystr) (fs : FS) (p : pystr) :
  is_empty p = false ->
  os_path_exists cwd (fs_create cwd fs p) p = true.
Proof.
  intros Hp. unfold os_path_exists, fs_create. rewrite Hp. simpl.
  apply bool_decide_eq_true.
  case_bool_decide; [assumption|].
  apply elem_of_app. right. apply list_elem_of_singleton. reflexivity.
Qed.

(** ** The handlers of the launcher *)

(** The state the cleanup of a handler leaves. *)
Definition cleaned (h : Host) (s : LState) : LState :=
  match param_file_path s with
  | Some path =>
      if os_path_exists (getcwd h) (files s) path
      then emit (Unlinked path)
             (set_files (fs_remove (getcwd h) (files s) path) s)
      else s
  | None => s
  end.

(** The message a handler builds for the exception it caught. *)
Definition error_message (h : Host) (e : exn) : pystr :=
  match e with
  | CalledProcessError _ _ (Some text) =>
      if is_empty text
      then lit "Error running MD simulation script: "
           ++ str_of_exn (signal_name h) e
      else (lit "Error running MD simulation script: "
            ++ str_of_exn (signal_name h) e)
           ++ [10] ++ lit "Script error output: " ++ text
  | CalledProcessError _ _ None =>
      lit "Error running MD simulation script: "
      ++ str_of_exn (signal_name h) e
  | _ => lit "Error during MD simulation setup: "
         ++ str_of_exn (signal_name h) e
  end.

Lemma cleanup_run (h : Host) (s : LState) :
  cleanup h s = (cleaned h s, inr tt).
Proof.
  unfold cleanup, cleaned, bind, gets.
  destruct (param_file_path s) as [path|]; [|reflexivity].
  destruct (os_path_exists (getcwd h) (files s) path) eqn:He;
    [|reflexivity].
  unfold os_unlink, bind, gets. rewrite He. reflexivity.
Qed.

Lemma handler_run (h : Host) (e : exn) (s : LState) :
  handler h e s
  = (cleaned h (emit (Print (error_message h e)) s),
     inl (OtherError "Exception" (error_message h e))).
Proof.
  destruct e as [rc cmd [text|]|text|cls text| |code];
    unfold handler, error_message, bind, print, modify;
    try destruct (is_empty text);
    rewrite cleanup_run; reflexivity.
Qed.

Lemma cleaned_param_file_path (h : Host) (s : LState) :
  param_file_path (cleaned h s) = param_file_path s.
Proof.
  unfold cleaned. destruct (param_file_path s) as [path|] eqn:Hb;
    [|exact Hb].
  destruct (os_path_exists _ _ _); exact Hb.
Qed.

(** After the cleanup of a handler the file the local variable names
    does not exist, whether or not it existed before. *)
Lemma cleaned_gone (h : Host) (s : LState) (path : pystr) :
  param_file_path s = Some path ->
  os_path_exists (getcwd h) (files (cleaned h s)) path = false.
Proof.
  intros Hb. unfold cleaned. rewrite Hb.
  destruct (os_path_exists (getcwd h) (files s) path) eqn:He;
    [|exact He].
  simpl. apply exists_after_remove.
Qed.

Lemma json_dump_cases {S} (params : list (string * pyval)) (s : S) :
  json_dump params s = (s, inr tt)
  \/ exists text, json_dump params s = (s, inl (OtherError "TypeError" text)).
Proof.
  induction params as [|[k v] params IH]; simpl.
  - left. reflexivity.
  - destruct v; try exact IH. right. eexists. reflexivity.
Qed.

(** ** The outcomes of one call of the launcher *)

Lemma bind_ok {S A B} (m : M S A) (k : A -> M S B) (s s' : S) (a : A) :
  m s = (s', inr a) -> bind m k s = k a s'.
Proof. intros H. unfold bind. rewrite H. reflexivity. Qed.

Lemma bind_err {S A B} (m : M S A) (k : A -> M S B) (s s' : S) (e : exn) :
  m s = (s', inl e) -> bind m k s = (s', inl e).
Proof. intros H. unfold bind. rewrite H. reflexivity. Qed.

(** The events before the exit code is known: everything but [Waited]
    and [SetOutput]. *)
Definition quiet (e : event) : bool :=
  match e with Waited _ | SetOutput _ _ => false | _ => true end.

Lemma exit_status_quiet (tr : list event) :
  Forall (fun e => quiet e = true) tr -> exit_status tr = None.
Proof.
  unfold exit_status. induction 1 as [|e tr He _ IH]; [reflexivity|].
  destruct e; try discriminate; exact IH.
Qed.

Lemma exit_status_waited (pre post : list event) (rc : Z) :
  Forall (fun e => quiet e = true) pre ->
  exit_status (pre ++ Waited rc :: post) = Some rc.
Proof.
  unfold exit_status. induction 1 as [|e tr He _ IH]; [reflexivity|].
  destruct e; try discriminate; exact IH.
Qed.

Lemma outputs_app_quiet (pre rest : list event) :
  Forall (fun e => quiet e = true) pre ->
  outputs (pre ++ rest) = outputs rest.
Proof.
  intros H. unfold outputs. generalize (∅ : gmap string pystr).
  induction H as [|e tr He _ IH]; intros o; [reflexivity|].
  destruct e; try discriminate; apply IH.
Qed.

Lemma outputs_quiet (tr : list event) :
  Forall (fun e => quiet e = true) tr -> outputs tr = ∅.
Proof.
  intros H. rewrite <- (app_nil_r tr). rewrite (outputs_app_quiet _ _ H).
  reflexivity.
Qed.

Lemma quiet_prints (lines : list pystr) (f : pystr -> pystr) :
  Forall (fun e => quiet e = true) (map (fun line => Print (f line)) lines).
Proof. induction lines; constructor; [reflexivity | assumption]. Qed.

(** The cleanup of a handler adds at most an [Unlinked] event. *)
Lemma cleaned_trace (h : Host) (s : LState) :
  exists tail, trace (cleaned h s) = trace s ++ tail
               /\ Forall (fun e => quiet e = true) tail.
Proof.
  unfold cleaned. destruct (param_file_path s) as [path|].
  - destruct (os_path_exists _ _ _).
    + eexists [_]. split; [reflexivity|]. repeat constructor.
    + exists []. rewrite app_nil_r. split; [reflexivity | constructor].
  - exists []. rewrite app_nil_r. split; [reflexivity | constructor].
Qed.

Lemma read_stdout_run (p : Child) (s : LState) :
  read_stdout p s
  = (emits (map (fun line => Print (rstrip line)) (child_stdout p)) s,
     match read_error p with
     | Some e => inl e
     | None =>
         inr (last_value (lit "TOPOLOGY_FILE:") [] (child_stdout p),
              last_value (lit "TRAJECTORY_FILE:") [] (child_stdout p))
     end).
Proof.
  unfold read_stdout.
  rewrite (bind_ok _ _ _ _ _ (read_lines_run _ _ s)).
  destruct (read_error p); reflexivity.
Qed.

(** The two mandatory inputs, as [runMDSimulation] reads them. *)
Definition protein_path (block : Block) : pyval :=
  dict_get (inputs block) "protein_file" PyNone.

Definition ligand_path (block : Block) : pyval :=
  dict_get (inputs block) "ligand_file" PyNone.

(** The ways a call ends. *)
Inductive Outcome (h : Host) (block : Block) (fs : FS)
                  (r : LState * (exn + unit)) : Prop :=
| absent_input (msg : pystr) :
    is_None (protein_path block) || is_None (ligand_path block) = true ->
    r = (start fs, inl (OtherError "Exception" msg)) ->
    Outcome h block fs r
| setup_failed (msg : pystr) (s : LState) :
    is_None (protein_path block) || is_None (ligand_path block) = false ->
    r = (s, inl (OtherError "Exception" msg)) ->
    trace s <> [] ->
    Forall (fun e => quiet e = true) (trace s) ->
    (forall path, param_file_path s = Some path ->
                  os_path_exists (getcwd h) (files s) path = false) ->
    Outcome h block fs r
| escaped (e : exn) (s : LState) :
    is_None (protein_path block) || is_None (ligand_path block) = false ->
    is_Exception e = false ->
    r = (s, inl e) ->
    Forall (fun e => quiet e = true) (trace s) ->
    Outcome h block fs r
| child_failed (rest : pystr) (cmd : list pystr) (p : Child) (s : LState)
               (pre post : list event) :
    is_None (protein_path block) || is_None (ligand_path block) = false ->
    tempfile_rest h = inr rest ->
    spawn h cmd = inr p ->
    child_returncode p <> 0%Z ->
    r = (s, inl (OtherError "Exception"
                   (error_message h
                      (CalledProcessError (child_returncode p) cmd None)))) ->
    trace s = pre ++ Waited (child_returncode p) :: post ->
    Forall (fun e => quiet e = true) pre ->
    Forall (fun e => quiet e = true) post ->
    param_file_path s = Some (slash :: rest) ->
    os_path_exists (getcwd h) (files s) (slash :: rest) = false ->
    Outcome h block fs r
| unlink_failed (rest : pystr) (cmd : list pystr) (p : Child) (s : LState)
                (pre : list event) :
    is_None (protein_path block) || is_None (ligand_path block) = false ->
    tempfile_rest h = inr rest ->
    spawn h cmd = inr p ->
    read_error p = None ->
    child_returncode p = 0%Z ->
    os_path_exists (getcwd h)
      (meanwhile p (fs_create (getcwd h) fs (slash :: rest)))
      (slash :: rest) = false ->
    r = (s, inl (OtherError "Exception"
                   (error_message h
                      (FileNotFoundError
                         (lit "[Errno 2] No such file or directory: "
                          ++ repr_str (slash :: rest)))))) ->
    trace s
    = pre ++ [ Waited 0;
               Print (error_message h
                        (FileNotFoundError
                           (lit "[Errno 2] No such file or directory: "
                            ++ repr_str (slash :: rest)))) ] ->
    Forall (fun e => quiet e = true) pre ->
    param_file_path s = Some (slash :: rest) ->
    os_path_exists (getcwd h) (files s) (slash :: rest) = false ->
    Outcome h block fs r
| succeeded (rest : pystr) (cmd : list pystr) (p : Child) (s : LState)
            (pre : list event) :
    is_None (protein_path block) || is_None (ligand_path block) = false ->
    tempfile_rest h = inr rest ->
    spawn h cmd = inr p ->
    read_error p = None ->
    child_returncode p = 0%Z ->
    os_path_exists (getcwd h)
      (meanwhile p (fs_create (getcwd h) fs (slash :: rest)))
      (slash :: rest) = true ->
    r = (s, inr tt) ->
    (let topology_file :=
       last_value (lit "TOPOLOGY_FILE:") [] (child_stdout p) in
     let trajectory_file :=
       last_value (lit "TRAJECTORY_FILE:") [] (child_stdout p) in
     trace s
     = pre ++ [ Waited 0; Unlinked (slash :: rest);
                SetOutput "topology_output" topology_file;
                SetOutput "trajectory_output" trajectory_file;
                Print (lit "MD simulation completed!");
                Print (lit "Topology file: " ++ topology_file);
                Print (lit "Trajectory file: " ++ trajectory_file) ]) ->
    Forall (fun e => quiet e = true) pre ->
    param_file_path s = Some (slash :: rest) ->
    os_path_exists (getcwd h) (files s) (slash :: rest) = false ->
    Outcome h block fs r.

Ltac step :=
  cbn [bind ret raise modify gets lift print try_except fst snd
       NamedTemporaryFile Popen wait setOutput read_stdout].
Ltac flat :=
  cbn [trace files param_file_path emit emits set_files
       set_param_file_path start].

Lemma snoc_app {A} (l : list A) (a : A) (l' : list A) :
  (l ++ [a]) ++ l' = l ++ a :: l'.
Proof. rewrite <- app_assoc. reflexivity. Qed.

Lemma os_unlink_run (h : Host) (path : pystr) (s : LState) :
  os_path_exists (getcwd h) (files s) path = true ->
  os_unlink h path s
  = (emit (Unlinked path)
       (set_files (fs_remove (getcwd h) (files s) path) s), inr tt).
Proof. intros H. unfold os_unlink, bind, gets. rewrite H. reflexivity. Qed.

Lemma os_unlink_gone (h : Host) (path : pystr) (s : LState) :
  os_path_exists (getcwd h) (files s) path = false ->
  os_unlink h path s
  = (s, inl (FileNotFoundError
               (lit "[Errno 2] No such file or directory: "
                ++ repr_str path))).
Proof. intros H. unfold os_unlink, bind, gets. rewrite H. reflexivity. Qed.

Lemma cleaned_absent (h : Host) (s : LState) (path : pystr) :
  param_file_path s = Some path ->
  os_path_exists (getcwd h) (files s) path = false ->
  cleaned h s = s.
Proof. intros Hb He. unfold cleaned. rewrite Hb, He. reflexivity. Qed.

Ltac quiet_tac :=
  repeat first
    [ assumption
    | apply quiet_prints
    | apply List.Forall_nil
    | apply List.Forall_cons; [reflexivity|]
    | apply Forall_app_2 ].
Ltac nonempty :=
  let E := fresh in
  intros E; apply (f_equal length) in E; rewrite ?length_app in E;
  simpl in E; lia.
Ltac failed :=
  rewrite handler_run;
  match goal with
  | |- Outcome _ _ _ (cleaned ?h ?s, _) =>
      let tail := fresh "tail" in
      let Ht := fresh "Ht" in
      let Hq := fresh "Hq" in
      destruct (cleaned_trace h s) as (tail & Ht & Hq);
      eapply setup_failed;
      [ assumption | reflexivity
      | rewrite Ht; flat; nonempty
      | rewrite Ht; flat; quiet_tac
      | let path := fresh "path" in
        let Hb := fresh "Hb" in
        intros path Hb; rewrite cleaned_param_file_path in Hb;
        exact (cleaned_gone h s path Hb) ]
  end.
(** The exception [e] reaches the [except] clauses: caught when it is
    an [Exception], passed on otherwise. *)
Ltac reaches e :=
  let Hexc := fresh "Hexc" in
  destruct (is_Exception e) eqn:Hexc;
  [ failed
  | eapply escaped; [assumption | exact Hexc | reflexivity | flat; quiet_tac] ].

Lemma launch_outcome (h : Host) (block : Block) (fs : FS) :
  Outcome h block fs (launch h block fs).
Proof.
  unfold launch, runMDSimulation.
  fold (protein_path block) (ligand_path block).
  destruct (is_None (protein_path block)) eqn:Hp.
  { eapply absent_input; [rewrite Hp|]; reflexivity. }
  destruct (is_None (ligand_path block)) eqn:Hl.
  { eapply absent_input; [rewrite Hp, Hl|]; reflexivity. }
  assert (Hin : is_None (protein_path block) || is_None (ligand_path block)
                = false)
    by (rewrite Hp, Hl; reflexivity).
  unfold try_except, NamedTemporaryFile.
  destruct (tempfile_rest h) as [e|rest] eqn:Ht.
  { step. reaches e. }
  step.
  match goal with |- context [bind (json_dump ?p) ?k ?s] =>
    destruct (json_dump_cases p s) as [Hj|[text Hj]];
    [rewrite (bind_ok _ _ _ _ _ Hj) | rewrite (bind_err _ _ _ _ _ Hj)]
  end.
  2:{ cbn [is_Exception]. failed. }
  step.
  match goal with |- context [str_items ?i ?c] =>
    destruct (str_items i c) as [e|cmd] eqn:Hc
  end.
  { step.
    assert (He : is_Exception e = true).
    { revert Hc.
      match goal with |- str_items ?i ?c = _ -> _ =>
        generalize i; generalize c
      end.
      intros c. induction c as [|v c IH]; intros i; cbn [str_items].
      - discriminate.
      - destruct v; try (intros [= <-]; reflexivity).
        destruct (str_items (S i) c) eqn:E; [|discriminate].
        intros [= <-]. exact (IH _ E). }
    rewrite He. failed. }
  step.
  unfold Popen.
  destruct (spawn h cmd) as [e|p] eqn:Hs.
  { step. reaches e. }
  step.
  match goal with |- context [bind (read_stdout p) ?k ?s] =>
    pose proof (read_stdout_run p s) as Hrd end.
  destruct (read_error p) as [e|] eqn:Hr.
  { rewrite (bind_err _ _ _ _ _ Hrd). reaches e. }
  rewrite (bind_ok _ _ _ _ _ Hrd). clear Hrd.
  step.
  destruct (Z.eqb_spec (child_returncode p) 0) as [Hrc|Hrc].
  - cbn [negb].
    match goal with |- context [bind (os_unlink ?h' ?path) ?k ?s] =>
      destruct (os_path_exists (getcwd h') (files s) path) eqn:Hu;
      [ rewrite (bind_ok _ _ _ _ _ (os_unlink_run h' path s Hu))
      | rewrite (bind_err _ _ _ _ _ (os_unlink_gone h' path s Hu)) ]
    end.
    + step.
      match goal with |- Outcome _ _ _ (?s, _) =>
        assert (exists pre,
                  trace s
                  = pre ++ [ Waited 0; Unlinked (slash :: rest);
                             SetOutput "topology_output"
                               (last_value (lit "TOPOLOGY_FILE:") []
                                  (child_stdout p));
                             SetOutput "trajectory_output"
                               (last_value (lit "TRAJECTORY_FILE:") []
                                  (child_stdout p));
                             Print (lit "MD simulation completed!");
                             Print (lit "Topology file: "
                                    ++ last_value (lit "TOPOLOGY_FILE:") []
                                         (child_stdout p));
                             Print (lit "Trajectory file: "
                                    ++ last_value (lit "TRAJECTORY_FILE:") []
                                         (child_stdout p)) ]
                  /\ Forall (fun e => quiet e = true) pre)
          as (pre & Htr & Hq)
          by (flat; rewrite Hrc, !snoc_app; eexists; split;
              [reflexivity | quiet_tac]);
        assert (Hb : param_file_path s = Some (slash :: rest))
          by reflexivity;
        assert (Hex : os_path_exists (getcwd h) (files s) (slash :: rest)
                      = false)
          by (flat; apply exists_after_remove)
      end.
      exact (succeeded _ _ _ _ rest cmd p _ pre Hin Ht Hs Hr Hrc Hu eq_refl
               Htr Hq Hb Hex).
    + cbn [is_Exception]. rewrite handler_run.
      match goal with |- Outcome _ _ _ (cleaned ?h' ?s, _) =>
        rewrite (cleaned_absent h' s (slash :: rest) eq_refl Hu)
      end.
      match goal with |- Outcome _ _ _ (?s, _) =>
        assert (exists pre,
                  trace s
                  = pre ++ [ Waited 0;
                             Print (error_message h
                                      (FileNotFoundError
                                         (lit "[Errno 2] No such file or directory: "
                                          ++ repr_str (slash :: rest)))) ]
                  /\ Forall (fun e => quiet e = true) pre)
          as (pre & Htr & Hq)
          by (flat; rewrite Hrc, !snoc_app; eexists; split;
              [reflexivity | quiet_tac])
      end.
      exact (unlink_failed _ _ _ _ rest cmd p _ pre Hin Ht Hs Hr Hrc Hu
               eq_refl Htr Hq eq_refl Hu).
  - cbn [negb]. step. cbn [is_Exception]. rewrite handler_run.
    match goal with |- Outcome _ _ _ (cleaned ?h' ?s, _) =>
      destruct (cleaned_trace h' s) as (tail & Htl & Hqt);
      assert (exists pre post,
                trace (cleaned h' s)
                = pre ++ Waited (child_returncode p) :: post
                /\ Forall (fun e => quiet e = true) pre
                /\ Forall (fun e => quiet e = true) post)
        as (pre & post & Htr & Hq & Hq')
        by (rewrite Htl; flat;
            rewrite <- (app_assoc _ [Print _] tail),
              (snoc_app _ (Waited (child_returncode p)));
            eexists; eexists; split;
            [reflexivity | split; quiet_tac]);
      assert (Hb : param_file_path (cleaned h' s) = Some (slash :: rest))
        by (rewrite cleaned_param_file_path; reflexivity);
      assert (Hex : os_path_exists (getcwd h) (files (cleaned h' s))
                      (slash :: rest) = false)
        by (apply cleaned_gone; reflexivity)
    end.
    exact (child_failed _ _ _ _ rest cmd p _ pre post Hin Ht Hs Hrc eq_refl
             Htr Hq Hq' Hb Hex).
Qed.

(** ** Concrete runs of the launcher *)

(** A host on which the temporary file is [/tmp/tmpk3x9ab.json] and the
    command starts the given child. *)
Definition plugin_host (child : Child) : Host :=
  {| cwd_rest := lit "home/user";
     module_file := lit "/plugins/easy-md/Include/easymd.py";
     tempfile_rest := inr (lit "tmp/tmpk3x9ab.json");
     spawn := fun _ => inr child;
     signal_name := fun _ => None |}.

Definition block_of (protein ligand : pyval) : Block :=
  {| inputs := {[ "protein_file"%string := protein;
                  "ligand_file"%string := ligand ]};
     variables := ∅ |}.

Definition plain_block : Block :=
  block_of (PyStr (lit "/data/protein.pdb")) (PyStr (lit "/data/ligand.sdf")).

(** A worker that reports both paths and exits 0. *)
Definition good_child : Child :=
  {| child_stdout :=
       [ lit "MD Simulation Script Started" ++ [10];
         lit "TOPOLOGY_FILE:/a/emin.pdb" ++ [10];
         lit "Step 5: Running MD simulation..." ++ [10];
         lit "TRAJECTORY_FILE:/a/md_trajetory_id_0.dcd" ++ [10] ];
     read_error := None;
     child_returncode := 0;
     meanwhile := fun fs => fs |}.

(** A worker that fails on a missing protein file and exits 1. *)
Definition failing_child : Child :=
  {| child_stdout :=
       [ lit "MD Simulation Script Started" ++ [10];
         lit "ERROR: Protein file not found: /data/protein.pdb" ++ [10] ];
     read_error := None;
     child_returncode := 1;
     meanwhile := fun fs => fs |}.

(** A worker that reports both paths, removes its parameter file and
    exits 0. *)
Definition sweeping_child : Child :=
  {| child_stdout :=
       [ lit "MD Simulation Script Started" ++ [10];
         lit "TOPOLOGY_FILE:/a/emin.pdb" ++ [10];
         lit "Step 5: Running MD simulation..." ++ [10];
         lit "TRAJECTORY_FILE:/a/md_trajetory_id_0.dcd" ++ [10] ];
     read_error := None;
     child_returncode := 0;
     meanwhile := fun fs => fs_remove [slash] fs (lit "/tmp/tmpk3x9ab.json") |}.

(** [needle in hay] *)
Fixpoint contains (needle hay : pystr) : bool :=
  startswith needle hay
  || match hay with [] => false | _ :: hay' => contains needle hay' end.

(** ** The launcher: success *)

(** When the child process has exited with code 0, the launcher removes
    the temporary parameter file without testing that it is still
    there.  If it is, the launcher returns without raising, the file
    has been unlinked and no longer exists, and the outputs of the block
    are exactly the two captured values, topology and trajectory,
    whatever they are (the empty text included).  If it is not, the
    removal raises, the launcher raises with the message of that error
    and no output is set. *)
Theorem exit_zero_reports_captured (h : Host) (block : Block) (fs : FS) :
  exit_status (trace (fst (launch h block fs))) = Some 0%Z ->
  exists rest cmd p,
    tempfile_rest h = inr rest
    /\ spawn h cmd = inr p
    /\ (os_path_exists (getcwd h)
          (meanwhile p (fs_create (getcwd h) fs (slash :: rest)))
          (slash :: rest) = true ->
        raised (launch h block fs) = None
        /\ In (Unlinked (slash :: rest)) (trace (fst (launch h block fs)))
        /\ os_path_exists (getcwd h) (files (fst (launch h block fs)))
             (slash :: rest) = false
        /\ outputs (trace (fst (launch h block fs)))
           = <["trajectory_output"%string :=
                 last_value (lit "TRAJECTORY_FILE:") [] (child_stdout p)]>
               (<["topology_output"%string :=
                    last_value (lit "TOPOLOGY_FILE:") [] (child_stdout p)]>
                  ∅))
    /\ (os_path_exists (getcwd h)
          (meanwhile p (fs_create (getcwd h) fs (slash :: rest)))
          (slash :: rest) = false ->
        raised (launch h block fs)
        = Some (OtherError "Exception"
                  (error_message h
                     (FileNotFoundError
                        (lit "[Errno 2] No such file or directory: "
                         ++ repr_str (slash :: rest)))))
        /\ outputs (trace (fst (launch h block fs))) = ∅).
Proof.
  intros Hexit.
  destruct (launch_outcome h block fs)
    as [msg _ Hr | msg s _ Hr _ Hq _
       | e s _ _ Hr Hq
       | rest cmd p s pre post _ _ _ Hrc Hr Htr Hq _ _ _
       | rest cmd p s pre _ Ht Hs _ _ Hgone Hr Htr Hq _ _
       | rest cmd p s pre _ Ht Hs _ _ Hthere Hr Htr Hq _ Hex];
    rewrite Hr in *; cbn [fst] in *.
  - discriminate.
  - rewrite (exit_status_quiet _ Hq) in Hexit. discriminate.
  - rewrite (exit_status_quiet _ Hq) in Hexit. discriminate.
  - rewrite Htr, (exit_status_waited _ _ _ Hq) in Hexit.
    injection Hexit as Hexit. contradiction.
  - exists rest, cmd, p. split; [exact Ht|]. split; [exact Hs|].
    split; [rewrite Hgone; discriminate|].
    intros _. split; [reflexivity|].
    rewrite Htr, (outputs_app_quiet _ _ Hq). reflexivity.
  - exists rest, cmd, p. split; [exact Ht|]. split; [exact Hs|].
    split; [|rewrite Hthere; discriminate].
    intros _. repeat split; try assumption.
    + cbv zeta in Htr. rewrite Htr. apply in_or_app. right.
      right. left. reflexivity.
    + cbv zeta in Htr. rewrite Htr, (outputs_app_quiet _ _ Hq).
      reflexivity.
Qed.

(** The run of the specification's example: the worker prints the two
    sentinel lines among others and exits 0; exactly those two paths are
    reported. *)
Lemma exit_zero_reports_captured_witness :
  exit_status (trace (fst (launch (plugin_host good_child) plain_block [])))
  = Some 0%Z
  /\ outputs (trace (fst (launch (plugin_host good_child) plain_block [])))
     = <["trajectory_output"%string := lit "/a/md_trajetory_id_0.dcd"]>
         (<["topology_output"%string := lit "/a/emin.pdb"]> ∅).
Proof.
  split; [vm_compute; reflexivity|].
  destruct (exit_zero_reports_captured (plugin_host good_child) plain_block []
              ltac:(vm_compute; reflexivity))
    as (rest & cmd & p & Ht & Hs & Hthere & _).
  injection Ht as <-. injection Hs as <-.
  destruct Hthere as (_ & _ & _ & Hout); [vm_compute; reflexivity|].
  rewrite Hout. vm_compute. reflexivity.
Defined.

(** C3, on a run where it breaks.  The child prints both sentinel lines
    and exits with code 0, and the temporary parameter file is gone by
    then (here the child removed it).  [os.unlink] stands in the [try]
    without the test the handlers make, so it raises; the launcher
    raises in turn and no output of the block has been set, although the
    child succeeded and both values were captured. *)
Theorem vanished_file_blocks_outputs :
  let r := launch (plugin_host sweeping_child) plain_block [] in
  exit_status (trace (fst r)) = Some 0%Z
  /\ In (Print (lit "TOPOLOGY_FILE:/a/emin.pdb")) (trace (fst r))
  /\ In (Print (lit "TRAJECTORY_FILE:/a/md_trajetory_id_0.dcd"))
        (trace (fst r))
  /\ raised r
     = Some (OtherError "Exception"
               (lit "Error during MD simulation setup: [Errno 2] No such file or directory: '/tmp/tmpk3x9ab.json'"))
  /\ outputs (trace (fst r)) = ∅
  /\ Forall (fun e => is_set_output e = false) (trace (fst r)).
Proof.
  vm_compute. split; [reflexivity|].
  split; [do 10 right; left; reflexivity|].
  split; [do 12 right; left; reflexivity|].
  split; [reflexivity|]. split; [reflexivity|].
  repeat constructor.
Qed.

(** ** The launcher: the mandatory inputs *)

(** C4, as the code has it. When the protein path or the ligand path is
    absent ([None]), the launcher raises at once: nothing has happened
    (no temporary file created, no child process spawned, no output set)
    and the file system is untouched. Conversely, whenever the launcher
    does anything at all, both paths are present, that is, not [None];
    the check does not look at their contents. *)
Theorem inputs_checked_first (h : Host) (block : Block) (fs : FS) :
  (protein_path block = PyNone \/ ligand_path block = PyNone ->
   exists msg,
     launch h block fs = (start fs, inl (OtherError "Exception" msg))
     /\ (msg = lit "Protein file path is required."
         \/ msg = lit "Ligand file path is required."))
  /\ (trace (fst (launch h block fs)) <> [] ->
      protein_path block <> PyNone /\ ligand_path block <> PyNone).
Proof.
  unfold launch, runMDSimulation.
  fold (protein_path block) (ligand_path block).
  destruct (is_None (protein_path block)) eqn:Hp.
  { split.
    - intros _. eexists. split; [reflexivity | left; reflexivity].
    - intros Hne. exfalso. apply Hne. reflexivity. }
  destruct (is_None (ligand_path block)) eqn:Hl.
  { split.
    - intros _. eexists. split; [reflexivity | right; reflexivity].
    - intros Hne. exfalso. apply Hne. reflexivity. }
  split.
  - intros [H|H]; rewrite H in *; discriminate.
  - intros _. split; intros H; rewrite H in *; discriminate.
Qed.

Lemma inputs_checked_first_witness :
  (exists msg,
     launch (plugin_host good_child)
            (block_of PyNone (PyStr (lit "/data/ligand.sdf"))) []
     = (start [], inl (OtherError "Exception" msg))
     /\ (msg = lit "Protein file path is required."
         \/ msg = lit "Ligand file path is required."))
  /\ (protein_path plain_block <> PyNone
      /\ ligand_path plain_block <> PyNone).
Proof.
  split.
  - apply (proj1 (inputs_checked_first (plugin_host good_child)
                    (block_of PyNone (PyStr (lit "/data/ligand.sdf"))) [])).
    left. vm_compute. reflexivity.
  - apply (proj2 (inputs_checked_first (plugin_host good_child)
                    plain_block [])).
    vm_compute. discriminate.
Defined.

(** The sentence of C4 on contents: a launcher that spawns a child has
    two non-empty mandatory paths in its parameter record. *)
Definition paths_nonempty_when_spawned : Prop :=
  forall (h : Host) (block : Block) (fs : FS),
    (exists cmd, In (Spawned cmd) (trace (fst (launch h block fs)))) ->
    protein_path block <> PyStr [] /\ ligand_path block <> PyStr [].

(** With the empty text for both paths the launcher goes ahead: it
    creates the parameter file, spawns the child and returns normally. *)
Lemma empty_paths_are_accepted : ~ paths_nonempty_when_spawned.
Proof.
  intros H.
  destruct (H (plugin_host good_child) (block_of (PyStr []) (PyStr [])) [])
    as [Hp _].
  - eexists. vm_compute. do 8 right. left. reflexivity.
  - apply Hp. vm_compute. reflexivity.
Qed.

(** ** The launcher: failures *)

Lemma quiet_not_set_output (tr : list event) :
  Forall (fun e => quiet e = true) tr ->
  Forall (fun e => is_set_output e = false) tr.
Proof.
  intros H. eapply Forall_impl; [exact H|].
  intros e He. destruct e; try reflexivity; discriminate.
Qed.

Lemma quiet_has_no_set_output (tr : list event) (k : string) (v : pystr) :
  Forall (fun e => quiet e = true) tr -> ~ In (SetOutput k v) tr.
Proof.
  intros Hq Hin. rewrite Forall_forall in Hq.
  apply list_elem_of_In, Hq in Hin. discriminate Hin.
Qed.

(** C10. When the launcher raises, whatever the cause (a missing input,
    a failure while preparing, launching or reading, or a child that
    exits with a non-zero code), no output of the block has been set; and
    in any run, a [setOutput] comes only after [p.wait()] has returned
    0. *)
Theorem outputs_only_after_exit_zero (h : Host) (block : Block) (fs : FS) :
  (raised (launch h block fs) <> None ->
   outputs (trace (fst (launch h block fs))) = ∅
   /\ Forall (fun e => is_set_output e = false)
        (trace (fst (launch h block fs))))
  /\ (forall pre k v post,
        trace (fst (launch h block fs)) = pre ++ SetOutput k v :: post ->
        In (Waited 0) pre).
Proof.
  destruct (launch_outcome h block fs)
    as [msg _ Hr | msg s _ Hr _ Hq _
       | e s _ _ Hr Hq
       | rest cmd p s pre0 post0 _ _ _ Hrc Hr Htr Hq Hq' _ _
       | rest cmd p s pre0 _ _ _ _ _ _ Hr Htr Hq _ _
       | rest cmd p s pre0 _ _ _ _ _ _ Hr Htr Hq _ _];
    rewrite Hr; cbn [fst]; split.
  - intros _. split; [reflexivity | constructor].
  - intros pre k v post E. destruct pre; discriminate E.
  - intros _. split; [apply outputs_quiet | apply quiet_not_set_output];
      assumption.
  - intros pre k v post E. exfalso.
    apply (quiet_has_no_set_output _ k v Hq).
    rewrite E. apply in_or_app. right. left. reflexivity.
  - intros _. split; [apply outputs_quiet | apply quiet_not_set_output];
      assumption.
  - intros pre k v post E. exfalso.
    apply (quiet_has_no_set_output _ k v Hq).
    rewrite E. apply in_or_app. right. left. reflexivity.
  - intros _. rewrite Htr. split.
    + rewrite (outputs_app_quiet _ _ Hq).
      change (outputs post0 = ∅). apply outputs_quiet. assumption.
    + apply Forall_app. split; [apply quiet_not_set_output; assumption|].
      constructor; [reflexivity | apply quiet_not_set_output; assumption].
  - intros pre k v post E. exfalso.
    assert (Hin : In (SetOutput k v)
                    (pre0 ++ Waited (child_returncode p) :: post0))
      by (rewrite <- Htr, E; apply in_or_app; right; left; reflexivity).
    apply in_app_or in Hin as [Hin|[Hin|Hin]].
    + exact (quiet_has_no_set_output _ k v Hq Hin).
    + discriminate Hin.
    + exact (quiet_has_no_set_output _ k v Hq' Hin).
  - intros _. rewrite Htr. split.
    + rewrite (outputs_app_quiet _ _ Hq). reflexivity.
    + apply Forall_app. split; [apply quiet_not_set_output; assumption|].
      repeat constructor.
  - intros pre k v post E. exfalso.
    assert (Hin : In (SetOutput k v) (trace s))
      by (rewrite E; apply in_or_app; right; left; reflexivity).
    rewrite Htr in Hin.
    apply in_app_or in Hin as [Hin|[Hin|[Hin|[]]]].
    + exact (quiet_has_no_set_output _ k v Hq Hin).
    + discriminate Hin.
    + discriminate Hin.
  - intros Hraise. exfalso. apply Hraise. reflexivity.
  - intros pre k v post E. cbv zeta in Htr. rewrite Htr in E.
    apply app_eq_inv in E as [(mid & Hpre & Hmid)|(mid & Hpre & Hmid)].
    + exfalso. destruct mid as [|e mid].
      * discriminate Hmid.
      * injection Hmid as <- _.
        apply (quiet_has_no_set_output _ k v Hq).
        rewrite Hpre. apply in_or_app. right. left. reflexivity.
    + destruct mid as [|e mid].
      * discriminate Hmid.
      * injection Hmid as <- _.
        rewrite Hpre. apply in_or_app. right. left. reflexivity.
Qed.

Lemma outputs_only_after_exit_zero_witness :
  (outputs (trace (fst (launch (plugin_host failing_child) plain_block [])))
   = ∅
   /\ Forall (fun e => is_set_output e = false)
        (trace (fst (launch (plugin_host failing_child) plain_block []))))
  /\ exists pre k v post,
       trace (fst (launch (plugin_host good_child) plain_block []))
       = pre ++ SetOutput k v :: post
       /\ In (Waited 0) pre.
Proof.
  split.
  - apply (proj1 (outputs_only_after_exit_zero
                    (plugin_host failing_child) plain_block [])).
    vm_compute. discriminate.
  - assert (E : exists pre k v post,
                trace (fst (launch (plugin_host good_child) plain_block []))
                = pre ++ SetOutput k v :: post).
    { eexists (firstn 15 (trace (fst (launch (plugin_host good_child)
                                        plain_block [])))),
              _, _, _.
      vm_compute. reflexivity. }
    destruct E as (pre & k & v & post & E).
    exists pre, k, v, post. split; [exact E|].
    exact (proj2 (outputs_only_after_exit_zero
                    (plugin_host good_child) plain_block [])
             pre k v post E).
Defined.

(** What holds of the cleanup on every path that ends in a return or
    in an [Exception]: at the end of such a call, the file that the
    local variable [param_file_path] names, if the call got as far as
    binding it, does not exist.  The cleanup stands in the [except]
    clauses only: an exception that is no [Exception] passes them. *)
Lemma recorded_file_is_removed (h : Host) (block : Block) (fs : FS)
    (path : pystr) :
  param_file_path (fst (launch h block fs)) = Some path ->
  interrupted (launch h block fs) = false ->
  os_path_exists (getcwd h) (files (fst (launch h block fs))) path = false.
Proof.
  destruct (launch_outcome h block fs)
    as [msg _ Hr | msg s _ Hr _ _ Hgone
       | e s _ Hexc Hr _
       | rest cmd p s pre post _ _ _ _ Hr _ _ _ Hb Hex
       | rest cmd p s pre _ _ _ _ _ _ Hr _ _ Hb Hex
       | rest cmd p s pre _ _ _ _ _ _ Hr _ _ Hb Hex];
    rewrite Hr; cbn [fst].
  - discriminate.
  - intros Hb _. exact (Hgone path Hb).
  - intros _. unfold interrupted. cbn [snd]. rewrite Hexc. discriminate.
  - rewrite Hb. intros [= <-] _. exact Hex.
  - rewrite Hb. intros [= <-] _. exact Hex.
  - rewrite Hb. intros [= <-] _. exact Hex.
Qed.

(** A child that exits with a non-zero code: the launcher raises, with
    the message built from the [CalledProcessError] alone, and the
    temporary parameter file does not exist afterwards. *)
Lemma child_failure_raises_and_cleans (h : Host) (block : Block) (fs : FS)
    (rc : Z) :
  exit_status (trace (fst (launch h block fs))) = Some rc ->
  rc <> 0%Z ->
  exists rest cmd p,
    tempfile_rest h = inr rest
    /\ spawn h cmd = inr p
    /\ raised (launch h block fs)
       = Some (OtherError "Exception"
                 (lit "Error running MD simulation script: "
                  ++ str_of_exn (signal_name h)
                       (CalledProcessError rc cmd None)))
    /\ os_path_exists (getcwd h) (files (fst (launch h block fs)))
         (slash :: rest) = false.
Proof.
  intros Hexit Hrc.
  destruct (launch_outcome h block fs)
    as [msg _ Hr | msg s _ Hr _ Hq _
       | e s _ _ Hr Hq
       | rest cmd p s pre post _ Ht Hs _ Hr Htr Hq _ _ Hex
       | rest cmd p s pre _ _ _ _ _ _ Hr Htr Hq _ _
       | rest cmd p s pre _ _ _ _ _ _ Hr Htr Hq _ _];
    rewrite Hr in *; cbn [fst] in *.
  - discriminate.
  - rewrite (exit_status_quiet _ Hq) in Hexit. discriminate.
  - rewrite (exit_status_quiet _ Hq) in Hexit. discriminate.
  - rewrite Htr, (exit_status_waited _ _ _ Hq) in Hexit.
    injection Hexit as <-.
    exists rest, cmd, p. repeat split; assumption.
  - rewrite Htr, (exit_status_waited _ _ _ Hq) in Hexit.
    injection Hexit as <-. contradiction.
  - cbv zeta in Htr.
    rewrite Htr, (exit_status_waited _ _ _ Hq) in Hexit.
    injection Hexit as <-. contradiction.
Qed.

(** A protein path handed over as a [pathlib] object, which [json] has no
    encoding for. *)
Definition path_object_block : Block :=
  block_of (PyObject "PosixPath" (lit "/data/protein.pdb"))
           (PyStr (lit "/data/ligand.sdf")).

(** C1, on the path where it breaks. [json.dump] raises inside the
    [with] block, after [NamedTemporaryFile] has created the file and
    before [param_file_path] is bound: the handler finds no such local
    variable, skips the removal, and the launcher raises with the
    temporary parameter file still on disk. *)
Theorem dump_failure_leaves_file :
  let r := launch (plugin_host good_child) path_object_block [] in
  raised r
  = Some (OtherError "Exception"
            (lit "Error during MD simulation setup: Object of type PosixPath is not JSON serializable"))
  /\ trace (fst r)
     = [ Created (lit "/tmp/tmpk3x9ab.json");
         Print (lit "Error during MD simulation setup: Object of type PosixPath is not JSON serializable") ]
  /\ param_file_path (fst r) = None
  /\ os_path_exists (getcwd (plugin_host good_child)) (files (fst r))
       (lit "/tmp/tmpk3x9ab.json") = true.
Proof. vm_compute. repeat split. Qed.

(** C5, on a run where it breaks. The child prints its diagnosis and
    exits with code 1. The message of the failure names the command and
    the exit status; the [CalledProcessError] was built without output,
    so the branch that appends it is not taken and nothing the child
    printed is in the message. *)
Theorem failure_message_omits_output :
  let r := launch (plugin_host failing_child) plain_block [] in
  In (Print (lit "ERROR: Protein file not found: /data/protein.pdb"))
     (trace (fst r))
  /\ exists msg,
       raised r = Some (OtherError "Exception" msg)
       /\ msg = lit "Error running MD simulation script: Command '['/opt/homebrew/bin/micromamba', 'run', '-n', 'easymd', 'python', '-u', '/plugins/easy-md/Include/run_md_simulation.py', '/tmp/tmpk3x9ab.json']' returned non-zero exit status 1."
       /\ contains (lit "Protein file not found") msg = false
       /\ contains (lit "Script error output") msg = false.
Proof.
  vm_compute. split.
  - do 10 right. left. reflexivity.
  - eexists. repeat split.
Qed.

(** * The worker: properties *)

(** ** Paths *)

Lemma isabs_abspath (rest p : pystr) :
  isabs (abspath (slash :: rest) p) = true.
Proof.
  unfold abspath, path_join.
  destruct (isabs p) eqn:Hp; [exact Hp|].
  destruct (is_empty (slash :: rest) || endswith_slash (slash :: rest));
    reflexivity.
Qed.

Lemma abspath_absolute (cwd p : pystr) :
  isabs p = true -> abspath cwd p = p.
Proof. intros H. unfold abspath, path_join. rewrite H. reflexivity. Qed.

Lemma abspath_idem (rest p : pystr) :
  abspath (slash :: rest) (abspath (slash :: rest) p)
  = abspath (slash :: rest) p.
Proof. apply abspath_absolute, isabs_abspath. Qed.

Lemma isabs_nonempty (p : pystr) : isabs p = true -> is_empty p = false.
Proof. destruct p; [discriminate | reflexivity]. Qed.

(** An existing path exists under its absolute name too. *)
Lemma exists_abspath (rest : pystr) (fs : FS) (p : pystr) :
  os_path_exists (slash :: rest) fs p = true ->
  os_path_exists (slash :: rest) fs (abspath (slash :: rest) p) = true.
Proof.
  unfold os_path_exists. intros [_ H]%andb_prop.
  rewrite abspath_idem, H, (isabs_nonempty _ (isabs_abspath rest p)).
  reflexivity.
Qed.

Lemma exists_of_abspath (rest : pystr) (fs : FS) (p : pystr) :
  is_empty p = false ->
  os_path_exists (slash :: rest) fs (abspath (slash :: rest) p)
  = os_path_exists (slash :: rest) fs p.
Proof.
  intros Hp. unfold os_path_exists.
  rewrite abspath_idem, Hp, (isabs_nonempty _ (isabs_abspath rest p)).
  reflexivity.
Qed.

Lemma isabs_app (a b : pystr) :
  is_empty a = false -> isabs (a ++ b) = isabs a.
Proof. destruct a; [discriminate | reflexivity]. Qed.

Lemma endswith_slash_app (a b : pystr) :
  is_empty b = false -> endswith_slash (a ++ b) = endswith_slash b.
Proof.
  intros Hb. unfold endswith_slash.
  destruct b as [|c b] using rev_ind; [discriminate|].
  rewrite app_assoc, !last_snoc. reflexivity.
Qed.

Lemma endswith_slash_cons (c : N) (b : pystr) :
  is_empty b = false -> endswith_slash (c :: b) = endswith_slash b.
Proof. exact (endswith_slash_app [c] b). Qed.

Lemma endswith_slash_snoc (a : pystr) : endswith_slash (a ++ [slash]) = true.
Proof. unfold endswith_slash. rewrite last_snoc. reflexivity. Qed.

Lemma no_slash_relative (name : pystr) :
  existsb (N.eqb slash) name = false -> isabs name = false.
Proof.
  destruct name as [|c name]; [reflexivity|]. simpl.
  unfold isabs. simpl. rewrite andb_true_r.
  intros [H _]%orb_false_elim. exact H.
Qed.

(** The directory a scan reads, with its closing slash. *)
Definition scan_prefix (cwd dir : pystr) : pystr :=
  let dir := path_join cwd dir in
  if endswith_slash dir then dir else dir ++ [slash].

Lemma listdir_elem (cwd : pystr) (fs : FS) (dir name : pystr) :
  name ∈ listdir cwd fs dir ->
  is_empty name = false
  /\ isabs name = false
  /\ scan_prefix cwd dir ++ name ∈ fs.
Proof.
  unfold listdir. fold (scan_prefix cwd dir).
  intros (p & Hp & Hname)%list_elem_of_omap.
  destruct (strip_prefix (scan_prefix cwd dir) p) as [name'|] eqn:Hs;
    [|discriminate].
  apply strip_prefix_Some in Hs.
  destruct (is_empty name' || existsb (N.eqb slash) name') eqn:Hc;
    [discriminate|].
  injection Hname as <-.
  apply orb_false_elim in Hc as [He Hn].
  split; [exact He|]. split; [apply no_slash_relative, Hn|].
  rewrite <- Hs. exact Hp.
Qed.

Lemma glob1_listdir (cwd : pystr) (fs : FS) (dirname pattern name : pystr) :
  name ∈ glob1 cwd fs dirname pattern -> name ∈ listdir cwd fs dirname.
Proof.
  unfold glob1. intros [_ H]%list_elem_of_filter.
  destruct (ishidden pattern); [exact H|].
  apply list_elem_of_filter in H as [_ H]. exact H.
Qed.

Lemma path_join_relative (a b : pystr) :
  isabs b = false ->
  path_join a b
  = if is_empty a || endswith_slash a then a ++ b else a ++ [slash] ++ b.
Proof. intros H. unfold path_join. rewrite H. reflexivity. Qed.

Lemma path_join_absolute (a b : pystr) : isabs b = true -> path_join a b = b.
Proof. intros H. unfold path_join. rewrite H. reflexivity. Qed.

(** Joining a scanned directory and one of its names, as [glob] does,
    gives the path under which the name exists. *)
Lemma join_scanned (rest dirname name : pystr) :
  is_empty name = false ->
  isabs name = false ->
  abspath (slash :: rest)
    (if is_empty dirname then name else path_join dirname name)
  = scan_prefix (slash :: rest) dirname ++ name.
Proof.
  intros Hne Hrel. unfold abspath, scan_prefix.
  set (cwd := slash :: rest).
  destruct dirname as [|d dirname]; cbn [is_empty].
  - rewrite (path_join_relative cwd name Hrel).
    rewrite (path_join_relative cwd [] eq_refl).
    cbn [is_empty cwd orb]. fold cwd.
    destruct (endswith_slash cwd) eqn:Hc; rewrite app_nil_r.
    + rewrite Hc. reflexivity.
    + rewrite endswith_slash_snoc, <- app_assoc. reflexivity.
  - set (dir := d :: dirname).
    assert (Hd : is_empty dir = false) by reflexivity.
    rewrite (path_join_relative dir name Hrel). rewrite Hd. cbn [orb].
    destruct (isabs dir) eqn:Habs.
    + rewrite (path_join_absolute cwd dir Habs).
      destruct (endswith_slash dir).
      * apply path_join_absolute. rewrite isabs_app; assumption.
      * rewrite <- app_assoc.
        apply path_join_absolute. rewrite isabs_app; assumption.
    + rewrite (path_join_relative cwd dir Habs).
      cbn [is_empty cwd orb]. fold cwd.
      destruct (endswith_slash dir) eqn:Hc.
      * rewrite path_join_relative by (rewrite isabs_app; assumption).
        cbn [is_empty cwd orb]. fold cwd.
        destruct (endswith_slash cwd);
          rewrite ?endswith_slash_app, ?endswith_slash_cons, Hc
            by (exact Hd || reflexivity);
          rewrite <- ?app_assoc; reflexivity.
      * rewrite path_join_relative by (rewrite isabs_app; assumption).
        cbn [is_empty cwd orb]. fold cwd.
        destruct (endswith_slash cwd);
          rewrite ?endswith_slash_app, ?endswith_slash_cons, Hc
            by (exact Hd || reflexivity);
          rewrite <- ?app_assoc; reflexivity.
Qed.

(** What [glob] returns exists. *)
Lemma glob_exists (rest : pystr) (fs : FS) (pattern first : pystr) :
  first ∈ glob (slash :: rest) fs pattern ->
  os_path_exists (slash :: rest) fs first = true.
Proof.
  unfold glob. destruct (path_split pattern) as [dirname basename].
  destruct (has_magic pattern); cbn [negb].
  - assert (H : forall name,
               name ∈ glob1 (slash :: rest) fs dirname basename ->
               os_path_exists (slash :: rest) fs
                 (if is_empty dirname then name else path_join dirname name)
               = true).
    { intros name Hn.
      apply glob1_listdir, listdir_elem in Hn as (Hne & Hrel & Hin).
      unfold os_path_exists.
      rewrite (join_scanned rest dirname name Hne Hrel).
      rewrite (bool_decide_eq_true_2 _ Hin), andb_true_r.
      destruct dirname as [|d dirname]; cbn [is_empty];
        [rewrite Hne; reflexivity|].
      unfold path_join. rewrite Hrel. cbn [is_empty orb].
      destruct (endswith_slash (d :: dirname)); reflexivity. }
    destruct (is_empty dirname) eqn:Hd.
    + destruct dirname; [|discriminate]. intros Hf. exact (H first Hf).
    + intros (name & -> & Hn)%list_elem_of_fmap.
      exact (H name Hn).
  - destruct (os_path_exists (slash :: rest) fs pattern) eqn:He.
    + intros ->%list_elem_of_singleton. exact He.
    + intros H. inversion H.
Qed.

(** ** The worker, step by step *)

Ltac wstep := cbn [bind ret raise modify gets lift out exists_ fst snd].
Ltac wflat := cbn [wfiles wtrace wemit wemits set_wfiles].

Lemma wemits_nil (s : WState) : wemits [] s = s.
Proof. destruct s. unfold wemits. simpl. rewrite app_nil_r. reflexivity. Qed.

Lemma wemits_wemit (e : wevent) (es : list wevent) (s : WState) :
  wemits es (wemit e s) = wemits (e :: es) s.
Proof. unfold wemits, wemit. simpl. rewrite <- app_assoc. reflexivity. Qed.

Lemma wemit_wemits (e : wevent) (es : list wevent) (s : WState) :
  wemit e (wemits es s) = wemits (es ++ [e]) s.
Proof. unfold wemits, wemit. simpl. rewrite <- app_assoc. reflexivity. Qed.

Lemma wemits_wemits (es es' : list wevent) (s : WState) :
  wemits es' (wemits es s) = wemits (es ++ es') s.
Proof. unfold wemits. simpl. rewrite <- app_assoc. reflexivity. Qed.

Lemma wemit_as_wemits (e : wevent) (s : WState) : wemit e s = wemits [e] s.
Proof. reflexivity. Qed.

(** The simulation stage has returned. *)
Definition is_simulated (e : wevent) : bool :=
  match e with Return (run_simulation _) => true | _ => false end.

Definition simulated (tr : list wevent) : bool := existsb is_simulated tr.

Definition is_call (e : wevent) : bool :=
  match e with Call _ => true | _ => false end.

(** What the validation finds missing: the message of its error. *)
Definition missing_input (cwd : pystr) (fs : FS) (params : Params)
  : option pystr :=
  if negb (os_path_exists cwd fs (protein_file params)) then
    Some (lit "Protein file not found: " ++ protein_file params)
  else if negb (os_path_exists cwd fs (ligand_file params)) then
    Some (lit "Ligand file not found: " ++ ligand_file params)
  else if negb (is_empty (starting_state_path params))
          && negb (os_path_exists cwd fs (starting_state_path params)) then
    Some (lit "Starting state file not found: "
          ++ starting_state_path params)
  else None.

Lemma validate_run (m : Machine) (params : Params) (s : WState) :
  validate m params s
  = (s, match missing_input (wgetcwd m) (wfiles s) params with
        | Some text => inl (FileNotFoundError text)
        | None => inr tt
        end).
Proof.
  unfold validate, missing_input. wstep.
  destruct (os_path_exists _ _ (protein_file params)); cbn [negb];
    [|reflexivity].
  wstep.
  destruct (os_path_exists _ _ (ligand_file params)); cbn [negb];
    [|reflexivity].
  wstep.
  destruct (negb (is_empty (starting_state_path params))
            && negb (os_path_exists _ _ (starting_state_path params)));
    reflexivity.
Qed.

Lemma call_run (m : Machine) (stage : Stage) (s : WState) :
  call m stage s
  = match toolkit m stage (wfiles s) with
    | (lines, inl e) => (wemits (Call stage :: map Out lines) s, inl e)
    | (lines, inr fs') =>
        (wemit (Return stage)
           (set_wfiles fs' (wemits (Call stage :: map Out lines) s)),
         inr tt)
    end.
Proof.
  unfold call. wstep. wflat.
  destruct (toolkit m stage (wfiles s)) as [lines [e|fs']]; wstep;
    rewrite wemits_wemit; reflexivity.
Qed.

Lemma main_except_run (m : Machine) (e : exn) (s : WState) :
  exists tail,
    main_except m e s = (wemits tail s, inr 1%Z)
    /\ simulated tail = false
    /\ Forall (fun e => is_call e = false) tail.
Proof.
  destruct e; unfold main_except; wstep;
    rewrite !wemit_as_wemits, ?wemits_wemits; cbn [app];
    eexists; (split; [reflexivity|]); split;
    try reflexivity; repeat constructor.
Qed.

Lemma simulated_app (a b : list wevent) :
  simulated (a ++ b) = simulated a || simulated b.
Proof. apply existsb_app. Qed.

Lemma simulated_outs (lines : list pystr) : simulated (map Out lines) = false.
Proof. induction lines; [reflexivity | exact IHlines]. Qed.

Lemma simulated_outs_app (lines : list pystr) (tr : list wevent) :
  existsb is_simulated (map Out lines ++ tr) = existsb is_simulated tr.
Proof.
  change (simulated (map Out lines ++ tr) = simulated tr).
  rewrite simulated_app, simulated_outs. reflexivity.
Qed.

Lemma wemits_set_wfiles (es : list wevent) (fs : FS) (s : WState) :
  wemits es (set_wfiles fs s) = set_wfiles fs (wemits es s).
Proof. reflexivity. Qed.

Lemma set_wfiles_twice (fs fs' : FS) (s : WState) :
  set_wfiles fs (set_wfiles fs' s) = set_wfiles fs s.
Proof. reflexivity. Qed.

Ltac wnorm :=
  rewrite ?wemit_as_wemits;
  repeat first [ rewrite wemits_wemits | rewrite wemits_set_wfiles
               | rewrite set_wfiles_twice ];
  rewrite <- ?app_assoc; cbn [app];
  cbn [wfiles wtrace wemits set_wfiles].

Lemma existsb_outs (lines : list pystr) :
  existsb is_simulated (map Out lines) = false.
Proof. exact (simulated_outs lines). Qed.

Ltac wsim :=
  unfold simulated;
  repeat first
    [ progress cbn [existsb is_simulated orb]
    | match goal with
      | |- context [existsb is_simulated (map Out ?l ++ ?tr)] =>
          rewrite (simulated_outs_app l tr)
      | |- context [existsb is_simulated (map Out ?l)] =>
          rewrite (existsb_outs l)
      end ];
  try reflexivity.

Ltac one_call m :=
  wstep;
  lazymatch goal with |- context [bind (call m ?st) ?k ?s] =>
    let lines := fresh "lines" in
    let e := fresh "e" in
    let fs := fresh "fs" in
    let H := fresh "H" in
    let E := fresh "E" in
    pose proof (call_run m st s) as H;
    destruct (toolkit m st (wfiles s)) as [lines [e|fs]] eqn:E;
    [ rewrite (bind_err _ _ _ _ _ H); clear H
    | rewrite (bind_ok _ _ _ _ _ H); clear H ]
  end.

Ltac done_failed :=
  cbn [fst snd]; wnorm; eexists; eexists; split; [reflexivity | wsim].

(** A stage that raises ends the pipeline; when all five return, the
    simulation stage has returned. *)
Lemma pipeline_run (m : Machine) (params : Params) (s : WState) :
  exists fs' tail,
    fst (pipeline m params s)
    = {| wfiles := fs'; wtrace := wtrace s ++ tail |}
    /\ match snd (pipeline m params s) with
       | inl _ => simulated tail = false
       | inr _ => simulated tail = true
       end.
Proof.
  unfold pipeline.
  one_call m; [done_failed|].
  one_call m; [done_failed|].
  one_call m; [done_failed|].
  one_call m; [done_failed|].
  wstep.
  destruct (is_empty (starting_state_path params)); cbn [negb].
  - one_call m; [done_failed|]. wstep. done_failed.
  - one_call m; [done_failed|]. wstep. done_failed.
Qed.

(** ** Resolution of the output files *)

Definition is_out (e : wevent) : bool :=
  match e with Out _ => true | _ => false end.

Definition printed (tr : list wevent) : Prop :=
  Forall (fun e => is_out e = true) tr.

Lemma printed_simulated (tr : list wevent) :
  printed tr -> simulated tr = false.
Proof.
  induction 1 as [|e tr He _ IH]; [reflexivity|].
  destruct e; try discriminate. exact IH.
Qed.

Lemma printed_no_call (tr : list wevent) :
  printed tr -> Forall (fun e => is_call e = false) tr.
Proof.
  intros H. eapply Forall_impl; [exact H|].
  intros [] He; try discriminate; reflexivity.
Qed.

(** The first pattern with a match, and its first match. *)
Fixpoint first_match (cwd : pystr) (fs : FS) (patterns : list pystr)
  : option pystr :=
  match patterns with
  | [] => None
  | pattern :: rest =>
      match glob cwd fs pattern with
      | first :: _ => Some first
      | [] => first_match cwd fs rest
      end
  end.

(** The topology file the worker settles on: empty when none is found. *)
Definition found_topology (cwd : pystr) (fs : FS) : pystr :=
  let expected := abspath cwd (lit "output/emin.pdb") in
  if os_path_exists cwd fs expected then expected
  else match find (os_path_exists cwd fs) alt_topo_files with
       | Some alt_file => abspath cwd alt_file
       | None => []
       end.

Definition found_trajectory (cwd : pystr) (fs : FS) : pystr :=
  let expected := abspath cwd (lit "output/md_trajetory_id_0.dcd") in
  if os_path_exists cwd fs expected then expected
  else match first_match cwd fs traj_patterns with
       | Some first => abspath cwd first
       | None => []
       end.

Definition topology_line (value : pystr) : pystr :=
  if is_empty value
  then lit "TOPOLOGY_FILE:Not found - expected at output/emin.pdb"
  else lit "TOPOLOGY_FILE:" ++ value.

Definition trajectory_line (value : pystr) : pystr :=
  if is_empty value
  then lit "TRAJECTORY_FILE:Not found - expected at output/md_trajectory_id_0.dcd"
  else lit "TRAJECTORY_FILE:" ++ value.

Lemma wfiles_wemit (e : wevent) (s : WState) :
  wfiles (wemit e s) = wfiles s.
Proof. reflexivity. Qed.

Lemma wfiles_wemits (es : list wevent) (s : WState) :
  wfiles (wemits es s) = wfiles s.
Proof. reflexivity. Qed.

Lemma search_topology_run (m : Machine) (alts : list pystr) (s : WState) :
  search_topology m alts s
  = match find (os_path_exists (wgetcwd m) (wfiles s)) alts with
    | Some alt_file =>
        (wemits [Out (lit "Found topology file at: "
                      ++ abspath (wgetcwd m) alt_file)] s,
         inr (abspath (wgetcwd m) alt_file))
    | None => (s, inr [])
    end.
Proof.
  induction alts as [|alt_file rest IH]; [reflexivity|].
  cbn [search_topology find]. wstep.
  destruct (os_path_exists (wgetcwd m) (wfiles s) alt_file);
    [reflexivity | exact IH].
Qed.

Lemma search_trajectory_run (m : Machine) (patterns : list pystr)
      (s : WState) :
  search_trajectory m patterns s
  = match first_match (wgetcwd m) (wfiles s) patterns with
    | Some first =>
        (wemits [Out (lit "Found trajectory file at: "
                      ++ abspath (wgetcwd m) first)] s,
         inr (abspath (wgetcwd m) first))
    | None => (s, inr [])
    end.
Proof.
  induction patterns as [|pattern rest IH]; [reflexivity|].
  cbn [search_trajectory first_match]. wstep.
  destruct (glob (wgetcwd m) (wfiles s) pattern);
    [exact IH | reflexivity].
Qed.

Lemma resolve_topology_run (m : Machine) (s : WState) :
  exists tail,
    resolve_topology m s
    = (wemits tail s, inr (found_topology (wgetcwd m) (wfiles s)))
    /\ printed tail.
Proof.
  unfold resolve_topology, found_topology. wstep.
  destruct (os_path_exists _ _ (abspath _ (lit "output/emin.pdb"))).
  - exists []. rewrite wemits_nil. split; [reflexivity | constructor].
  - wstep. rewrite search_topology_run, wfiles_wemit.
    destruct (find _ alt_topo_files).
    + eexists. rewrite wemit_as_wemits, wemits_wemits. cbn [app].
      split; [reflexivity | repeat constructor].
    + eexists. rewrite wemit_as_wemits.
      split; [reflexivity | repeat constructor].
Qed.

Lemma resolve_trajectory_run (m : Machine) (s : WState) :
  exists tail,
    resolve_trajectory m s
    = (wemits tail s, inr (found_trajectory (wgetcwd m) (wfiles s)))
    /\ printed tail.
Proof.
  unfold resolve_trajectory, found_trajectory. wstep.
  destruct (os_path_exists _ _ (abspath _ (lit "output/md_trajetory_id_0.dcd"))).
  - exists []. rewrite wemits_nil. split; [reflexivity | constructor].
  - wstep. rewrite search_trajectory_run, wfiles_wemit.
    destruct (first_match _ _ traj_patterns).
    + eexists. rewrite wemit_as_wemits, wemits_wemits. cbn [app].
      split; [reflexivity | repeat constructor].
    + eexists. rewrite wemit_as_wemits.
      split; [reflexivity | repeat constructor].
Qed.

(** What the worker settles on exists, or is empty. *)
Lemma found_topology_exists (m : Machine) (fs : FS) :
  is_empty (found_topology (wgetcwd m) fs) = false ->
  os_path_exists (wgetcwd m) fs (found_topology (wgetcwd m) fs) = true.
Proof.
  unfold found_topology, wgetcwd.
  destruct (os_path_exists _ _ (abspath _ (lit "output/emin.pdb"))) eqn:He;
    [intros _; exact He|].
  destruct (find _ alt_topo_files) as [alt_file|] eqn:Hf; [|discriminate].
  intros _. apply exists_abspath.
  apply find_some in Hf as [_ Hf]. exact Hf.
Qed.

Lemma first_match_exists (rest : pystr) (fs : FS) (patterns : list pystr)
      (first : pystr) :
  first_match (slash :: rest) fs patterns = Some first ->
  os_path_exists (slash :: rest) fs first = true.
Proof.
  induction patterns as [|pattern more IH]; [discriminate|].
  cbn [first_match].
  destruct (glob (slash :: rest) fs pattern) as [|first' others] eqn:Hg;
    [exact IH|].
  intros [= <-]. apply (glob_exists rest fs pattern).
  rewrite Hg. left.
Qed.

Lemma found_trajectory_exists (m : Machine) (fs : FS) :
  is_empty (found_trajectory (wgetcwd m) fs) = false ->
  os_path_exists (wgetcwd m) fs (found_trajectory (wgetcwd m) fs) = true.
Proof.
  unfold found_trajectory, wgetcwd.
  destruct (os_path_exists _ _ (abspath _ (lit "output/md_trajetory_id_0.dcd")))
    eqn:He; [intros _; exact He|].
  destruct (first_match _ _ traj_patterns) as [first|] eqn:Hf;
    [|discriminate].
  intros _. apply exists_abspath, (first_match_exists _ _ _ _ Hf).
Qed.

Lemma report_run (m : Machine) (s : WState) :
  report m (found_topology (wgetcwd m) (wfiles s))
           (found_trajectory (wgetcwd m) (wfiles s)) s
  = (wemits [Out (topology_line (found_topology (wgetcwd m) (wfiles s)));
             Out (trajectory_line (found_trajectory (wgetcwd m) (wfiles s)))]
            s, inr tt).
Proof.
  unfold report, topology_line, trajectory_line. wstep.
  pose proof (found_topology_exists m (wfiles s)) as Ht.
  pose proof (found_trajectory_exists m (wfiles s)) as Hj.
  destruct (is_empty (found_topology _ _)); cbn [negb andb];
    [|rewrite (Ht eq_refl)]; wstep; rewrite wfiles_wemit;
    (destruct (is_empty (found_trajectory _ _)); cbn [negb andb];
     [|rewrite (Hj eq_refl)]; unfold out, modify;
     rewrite !wemit_as_wemits, wemits_wemits; reflexivity).
Qed.

(** ** [main] *)

Lemma printed_app (a b : list wevent) :
  printed a -> printed b -> printed (a ++ b).
Proof. apply Forall_app_2. Qed.

Lemma announce_run (params_file : pystr) (params : Params) (s : WState) :
  exists pre,
    announce params_file params s = (wemits pre s, inr tt) /\ printed pre.
Proof.
  unfold announce. wstep.
  destruct (is_empty (starting_state_path params)); cbn [negb]; wstep;
    unfold out, modify; rewrite !wemit_as_wemits, !wemits_wemits;
    cbn [app]; eexists; (split; [reflexivity | repeat constructor]).
Qed.

Lemma conclude_run (m : Machine) (s : WState) :
  exists before,
    conclude m s
    = (wemits
         (before
          ++ [Out (topology_line (found_topology (wgetcwd m) (wfiles s)));
              Out (trajectory_line
                     (found_trajectory (wgetcwd m) (wfiles s)))]) s,
       inr tt)
    /\ printed before.
Proof.
  unfold conclude.
  destruct (resolve_topology_run m s) as (t1 & H1 & P1).
  rewrite (bind_ok _ _ _ _ _ H1).
  destruct (resolve_trajectory_run m (wemits t1 s)) as (t2 & H2 & P2).
  rewrite wfiles_wemits in H2. rewrite (bind_ok _ _ _ _ _ H2).
  wstep. rewrite !wemit_as_wemits, !wemits_wemits.
  match goal with |- context [report m _ _ (wemits ?es s)] =>
    pose proof (report_run m (wemits es s)) as Hr;
    rewrite wfiles_wemits in Hr; rewrite Hr; clear Hr;
    exists es
  end.
  rewrite wemits_wemits. split; [reflexivity|].
  repeat apply printed_app; try assumption; repeat constructor.
Qed.

Lemma main_try_run (m : Machine) (params_file : pystr) (params : Params)
      (s : WState) :
  load_params m params_file = inr params ->
  exists pre,
    printed pre
    /\ match missing_input (wgetcwd m) (wfiles s) params with
       | Some text =>
           main_try m params_file s
           = (wemits pre s, inl (FileNotFoundError text))
       | None =>
           exists fs' tail,
             (exists e,
                 main_try m params_file s
                 = ({| wfiles := fs'; wtrace := wtrace s ++ tail |}, inl e)
                 /\ simulated tail = false)
             \/ (exists before,
                    main_try m params_file s
                    = ({| wfiles := fs';
                          wtrace :=
                            wtrace s ++ before
                            ++ [Out (topology_line
                                       (found_topology (wgetcwd m) fs'));
                                Out (trajectory_line
                                       (found_trajectory (wgetcwd m) fs'))]
                       |}, inr tt)
                    /\ tail = before /\ simulated before = true)
       end.
Proof.
  intros Hl. unfold main_try. rewrite Hl. wstep.
  destruct (announce_run params_file params s) as (pre & Ha & Ppre).
  rewrite (bind_ok _ _ _ _ _ Ha). exists pre. split; [exact Ppre|].
  pose proof (validate_run m params (wemits pre s)) as Hv.
  rewrite wfiles_wemits in Hv.
  destruct (missing_input (wgetcwd m) (wfiles s) params) as [text|].
  { rewrite (bind_err _ _ _ _ _ Hv). reflexivity. }
  rewrite (bind_ok _ _ _ _ _ Hv).
  destruct (pipeline_run m params (wemits pre s)) as (fs' & tail & Hf & Hs).
  destruct (pipeline m params (wemits pre s)) as [s1 [e|[]]] eqn:Hp;
    cbn [fst snd] in Hf, Hs; subst s1.
  - rewrite (bind_err _ _ _ _ _ Hp). exists fs', (pre ++ tail). left.
    exists e. split.
    + cbn [wtrace wemits]. rewrite app_assoc. reflexivity.
    + rewrite simulated_app, Hs, (printed_simulated _ Ppre). reflexivity.
  - rewrite (bind_ok _ _ _ _ _ Hp).
    match goal with |- context [conclude m ?s1] =>
      destruct (conclude_run m s1) as (before & Hc & Pb)
    end.
    rewrite Hc. unfold wemits. cbn [wfiles wtrace].
    exists fs', (pre ++ tail ++ before). right.
    exists (pre ++ tail ++ before). split; [|split; [reflexivity|]].
    + rewrite <- !app_assoc. reflexivity.
    + rewrite !simulated_app, Hs. rewrite orb_true_l, orb_true_r.
      reflexivity.
Qed.

(** The ways a run of the worker ends. *)
Inductive WOutcome (m : Machine) (fs : FS) : WState * (exn + Z) -> Prop :=
| bad_usage :
    (forall a0 params_file, argv m <> [a0; params_file]) ->
    WOutcome m fs
      ({| wfiles := fs;
          wtrace :=
            [Out (lit "Usage: python run_md_simulation.py <params_json_file>")]
       |}, inr 1%Z)
| unreadable (a0 params_file : pystr) (e : exn) (tr : list wevent) :
    argv m = [a0; params_file] ->
    load_params m params_file = inl e ->
    is_Exception e = true ->
    simulated tr = false ->
    Forall (fun e => is_call e = false) tr ->
    WOutcome m fs ({| wfiles := fs; wtrace := tr |}, inr 1%Z)
| passed_on (a0 params_file : pystr) (e : exn) (fs' : FS)
            (tr : list wevent) :
    argv m = [a0; params_file] ->
    is_Exception e = false ->
    simulated tr = false ->
    WOutcome m fs ({| wfiles := fs'; wtrace := tr |}, inl e)
| invalid (a0 params_file : pystr) (params : Params) (text : pystr)
          (pre : list wevent) :
    argv m = [a0; params_file] ->
    load_params m params_file = inr params ->
    missing_input (wgetcwd m) fs params = Some text ->
    printed pre ->
    WOutcome m fs
      ({| wfiles := fs; wtrace := pre ++ [Out (lit "ERROR: " ++ text)] |},
       inr 1%Z)
| stage_failed (a0 params_file : pystr) (params : Params) (fs' : FS)
               (tr : list wevent) :
    argv m = [a0; params_file] ->
    load_params m params_file = inr params ->
    missing_input (wgetcwd m) fs params = None ->
    simulated tr = false ->
    WOutcome m fs ({| wfiles := fs'; wtrace := tr |}, inr 1%Z)
| completed (a0 params_file : pystr) (params : Params) (fs' : FS)
            (before : list wevent) :
    argv m = [a0; params_file] ->
    load_params m params_file = inr params ->
    missing_input (wgetcwd m) fs params = None ->
    simulated before = true ->
    WOutcome m fs
      ({| wfiles := fs';
          wtrace :=
            before
            ++ [Out (topology_line (found_topology (wgetcwd m) fs'));
                Out (trajectory_line (found_trajectory (wgetcwd m) fs'))]
       |}, inr 0%Z).

Lemma try_except_ok {S A} (body : M S A) (handler : exn -> M S A)
      (s s' : S) (a : A) :
  body s = (s', inr a) -> try_except body handler s = (s', inr a).
Proof. intros H. unfold try_except. rewrite H. reflexivity. Qed.

Lemma try_except_err {S A} (body : M S A) (handler : exn -> M S A)
      (s s' : S) (e : exn) :
  body s = (s', inl e) -> is_Exception e = true ->
  try_except body handler s = handler e s'.
Proof. intros H He. unfold try_except. rewrite H, He. reflexivity. Qed.

Lemma try_except_pass {S A} (body : M S A) (handler : exn -> M S A)
      (s s' : S) (e : exn) :
  body s = (s', inl e) -> is_Exception e = false ->
  try_except body handler s = (s', inl e).
Proof. intros H He. unfold try_except. rewrite H, He. reflexivity. Qed.

Lemma worker_outcome (m : Machine) (fs : FS) :
  WOutcome m fs (run_worker m fs).
Proof.
  unfold run_worker, main.
  set (s0 := {| wfiles := fs; wtrace := [] |}).
  destruct (argv m) as [|a0 [|params_file [|x rest]]] eqn:Hargv;
    try (refine (bad_usage m fs _); intros; rewrite Hargv; discriminate).
  destruct (load_params m params_file) as [e|params] eqn:Hl.
  - assert (Hb : (main_try m params_file ;; ret 0%Z) s0 = (s0, inl e)).
    { unfold main_try. rewrite Hl. reflexivity. }
    destruct (is_Exception e) eqn:Hexc.
    + rewrite (try_except_err _ _ _ _ _ Hb Hexc).
      destruct (main_except_run m e s0) as (tail & H & Hs & Hc).
      rewrite H.
      exact (unreadable m fs a0 params_file e tail Hargv Hl Hexc Hs Hc).
    + rewrite (try_except_pass _ _ _ _ _ Hb Hexc).
      exact (passed_on m fs a0 params_file e fs [] Hargv Hexc eq_refl).
  - destruct (main_try_run m params_file params s0 Hl) as (pre & Ppre & H).
    cbn [wfiles s0] in H.
    destruct (missing_input (wgetcwd m) fs params) as [text|] eqn:Hm.
    + rewrite (try_except_err _ _ _ _ _ (bind_err _ _ _ _ _ H) eq_refl).
      unfold main_except. wstep. unfold out, modify.
      rewrite wemit_as_wemits, wemits_wemits.
      exact (invalid m fs a0 params_file params text pre Hargv Hl Hm Ppre).
    + destruct H as (fs' & tail & [(e & H & Hs)|(before & H & _ & Hs)]).
      * destruct (is_Exception e) eqn:Hexc.
        -- rewrite (try_except_err _ _ _ _ _ (bind_err _ _ _ _ _ H) Hexc).
           destruct (main_except_run m e {| wfiles := fs'; wtrace := tail |})
             as (tail' & H' & Hs' & _).
           cbn [wtrace s0 app]. rewrite H'.
           apply (stage_failed m fs a0 params_file params fs' (tail ++ tail')
                    Hargv Hl Hm).
           rewrite simulated_app, Hs, Hs'. reflexivity.
        -- rewrite (try_except_pass _ _ _ _ _ (bind_err _ _ _ _ _ H) Hexc).
           exact (passed_on m fs a0 params_file e fs' tail Hargv Hexc Hs).
      * rewrite (try_except_ok _ _ _ _ _ (bind_ok _ _ _ _ _ H)).
        exact (completed m fs a0 params_file params fs' before
                 Hargv Hl Hm Hs).
Qed.

(** The file system a run of the worker leaves. *)
Definition after (m : Machine) (fs : FS) : FS :=
  wfiles (fst (run_worker m fs)).

(** The simulation stage returned during the run: the five stages ran
    to their end, each being called when the one before has returned. *)
Definition pipeline_succeeded (m : Machine) (fs : FS) : bool :=
  simulated (wtrace (fst (run_worker m fs))).

(** The run ends with the two lines for the launcher, the first giving
    the topology file [p], or the second the trajectory file [p]. *)
Definition topology_resolves_to (m : Machine) (fs : FS) (p : pystr) : Prop :=
  exists before line,
    wtrace (fst (run_worker m fs))
    = before ++ [Out (lit "TOPOLOGY_FILE:" ++ p); Out line].

Definition trajectory_resolves_to (m : Machine) (fs : FS) (p : pystr)
  : Prop :=
  exists before line,
    wtrace (fst (run_worker m fs))
    = before ++ [Out line; Out (lit "TRAJECTORY_FILE:" ++ p)].

Lemma missing_input_some (cwd : pystr) (fs : FS) (params : Params) :
  os_path_exists cwd fs (protein_file params) = false
  \/ os_path_exists cwd fs (ligand_file params) = false
  \/ (is_empty (starting_state_path params) = false
      /\ os_path_exists cwd fs (starting_state_path params) = false) ->
  exists text, missing_input cwd fs params = Some text.
Proof.
  unfold missing_input. intros H.
  destruct (os_path_exists cwd fs (protein_file params)); cbn [negb];
    [|eexists; reflexivity].
  destruct (os_path_exists cwd fs (ligand_file params)); cbn [negb];
    [|eexists; reflexivity].
  destruct H as [H|[H|[He H]]]; try discriminate.
  rewrite He, H. eexists. reflexivity.
Qed.

Lemma succeeded_run (m : Machine) (fs : FS) :
  pipeline_succeeded m fs = true ->
  exists before,
    run_worker m fs
    = ({| wfiles := after m fs;
          wtrace :=
            before
            ++ [Out (topology_line (found_topology (wgetcwd m) (after m fs)));
                Out (trajectory_line
                       (found_trajectory (wgetcwd m) (after m fs)))] |},
       inr 0%Z).
Proof.
  unfold pipeline_succeeded, after.
  destruct (worker_outcome m fs)
    as [ Hu | a0 pf e tr Ha Hl He Hs Hc | a0 pf e fs' tr Ha He Hs
       | a0 pf params text pre Ha Hl Hm Hp
       | a0 pf params fs' tr Ha Hl Hm Hs | a0 pf params fs' before Ha Hl Hm Hs ];
    cbn [fst snd wfiles wtrace]; intros H.
  - discriminate.
  - congruence.
  - congruence.
  - rewrite simulated_app, (printed_simulated _ Hp) in H. discriminate.
  - congruence.
  - exists before. reflexivity.
Qed.

Lemma find_first (f : pystr -> bool) (pre : list pystr) (x : pystr)
      (post : list pystr) :
  Forall (fun a => f a = false) pre -> f x = true ->
  find f (pre ++ x :: post) = Some x.
Proof.
  intros Hpre Hx. induction Hpre as [|a pre Ha _ IH]; cbn [app find].
  - rewrite Hx. reflexivity.
  - rewrite Ha. exact IH.
Qed.

Lemma first_match_first (cwd : pystr) (fs : FS) (pre : list pystr)
      (pattern : pystr) (post : list pystr) (first : pystr)
      (others : list pystr) :
  Forall (fun p => glob cwd fs p = []) pre ->
  glob cwd fs pattern = first :: others ->
  first_match cwd fs (pre ++ pattern :: post) = Some first.
Proof.
  intros Hpre Hx. induction Hpre as [|a pre Ha _ IH]; cbn [app first_match].
  - rewrite Hx. reflexivity.
  - rewrite Ha. exact IH.
Qed.

Lemma abspath_nonempty (m : Machine) (p : pystr) :
  is_empty (abspath (wgetcwd m) p) = false.
Proof. apply isabs_nonempty, isabs_abspath. Qed.

Lemma found_topology_alt (m : Machine) (fs : FS) (pre : list pystr)
      (alt_file : pystr) (post : list pystr) :
  os_path_exists (wgetcwd m) fs (abspath (wgetcwd m) (lit "output/emin.pdb"))
  = false ->
  alt_topo_files = pre ++ alt_file :: post ->
  Forall (fun a => os_path_exists (wgetcwd m) fs a = false) pre ->
  os_path_exists (wgetcwd m) fs alt_file = true ->
  topology_line (found_topology (wgetcwd m) fs)
  = lit "TOPOLOGY_FILE:" ++ abspath (wgetcwd m) alt_file.
Proof.
  intros He Hl Hpre Halt. unfold found_topology, topology_line.
  rewrite He, Hl, (find_first _ pre alt_file post Hpre Halt).
  rewrite abspath_nonempty. reflexivity.
Qed.

Lemma found_trajectory_pattern (m : Machine) (fs : FS) (pre : list pystr)
      (pattern : pystr) (post : list pystr) (first : pystr)
      (others : list pystr) :
  os_path_exists (wgetcwd m) fs
    (abspath (wgetcwd m) (lit "output/md_trajetory_id_0.dcd")) = false ->
  traj_patterns = pre ++ pattern :: post ->
  Forall (fun p => glob (wgetcwd m) fs p = []) pre ->
  glob (wgetcwd m) fs pattern = first :: others ->
  trajectory_line (found_trajectory (wgetcwd m) fs)
  = lit "TRAJECTORY_FILE:" ++ abspath (wgetcwd m) first.
Proof.
  intros He Hl Hpre Hg. unfold found_trajectory, trajectory_line.
  rewrite He, Hl, (first_match_first _ _ pre pattern post first others Hpre Hg).
  rewrite abspath_nonempty. reflexivity.
Qed.

Lemma topology_resolved (m : Machine) (fs : FS) (p : pystr) :
  pipeline_succeeded m fs = true ->
  topology_resolves_to m fs p
  <-> topology_line (found_topology (wgetcwd m) (after m fs))
      = lit "TOPOLOGY_FILE:" ++ p.
Proof.
  intros (before & H)%succeeded_run. unfold topology_resolves_to.
  rewrite H. cbn [fst wtrace]. split.
  - intros (before' & line & Heq).
    apply app_inj_2 in Heq as [_ Heq]; [|reflexivity].
    congruence.
  - intros ->. eexists. eexists. reflexivity.
Qed.

Lemma trajectory_resolved (m : Machine) (fs : FS) (p : pystr) :
  pipeline_succeeded m fs = true ->
  trajectory_resolves_to m fs p
  <-> trajectory_line (found_trajectory (wgetcwd m) (after m fs))
      = lit "TRAJECTORY_FILE:" ++ p.
Proof.
  intros (before & H)%succeeded_run. unfold trajectory_resolves_to.
  rewrite H. cbn [fst wtrace]. split.
  - intros (before' & line & Heq).
    apply app_inj_2 in Heq as [_ Heq]; [|reflexivity].
    congruence.
  - intros ->. eexists. eexists. reflexivity.
Qed.

(** ** Concrete runs of the worker *)

Definition lab_params : Params :=
  {| protein_file := lit "/data/protein.pdb";
     ligand_file := lit "/data/ligand.sdf";
     md_steps := 1000;
     md_save_interval := 10;
     platform_name := lit "CPU";
     platform_precision := lit "mixed";
     starting_state_path := [] |}.

(** A machine in [/work] whose simulation stage leaves the files
    [produced] and whose other stages leave nothing. *)
Definition lab_machine (produced : list pystr) : Machine :=
  {| argv := [lit "run_md_simulation.py"; lit "/tmp/tmpk3x9ab.json"];
     wcwd_rest := lit "work";
     load_params := fun _ => inr lab_params;
     toolkit := fun stage fs =>
       match stage with
       | run_simulation _ => ([lit "Simulating"], inr (fs ++ produced))
       | _ => ([], inr fs)
       end;
     wsignal_name := fun _ => None |}.

Definition lab_inputs : FS :=
  [lit "/data/protein.pdb"; lit "/data/ligand.sdf"].

(** ** The worker: validation *)

(** C6: when the protein file, the ligand file or a non-empty
    starting-state path of the parameter file does not exist, the body
    of the worker raises [FileNotFoundError] with the message of the
    first missing one, the run prints only text, ending with the error,
    calls no stage of the toolkit, leaves the file system as it was and
    exits with code 1. *)
Theorem missing_file_fails_before_pipeline
        (m : Machine) (fs : FS) (a0 params_file : pystr) (params : Params) :
  argv m = [a0; params_file] ->
  load_params m params_file = inr params ->
  os_path_exists (wgetcwd m) fs (protein_file params) = false
  \/ os_path_exists (wgetcwd m) fs (ligand_file params) = false
  \/ (is_empty (starting_state_path params) = false
      /\ os_path_exists (wgetcwd m) fs (starting_state_path params) = false) ->
  exists text pre,
    missing_input (wgetcwd m) fs params = Some text
    /\ snd (main_try m params_file {| wfiles := fs; wtrace := [] |})
       = inl (FileNotFoundError text)
    /\ run_worker m fs
       = ({| wfiles := fs; wtrace := pre ++ [Out (lit "ERROR: " ++ text)] |},
          inr 1%Z)
    /\ printed pre
    /\ (forall stage, ~ In (Call stage) (wtrace (fst (run_worker m fs)))).
Proof.
  intros Hargv Hl Hmiss.
  destruct (missing_input_some _ _ _ Hmiss) as (text & Hm).
  set (s0 := {| wfiles := fs; wtrace := [] |}).
  destruct (main_try_run m params_file params s0 Hl) as (pre & Ppre & H).
  cbn [wfiles s0] in H. rewrite Hm in H.
  assert (Hrun : run_worker m fs
                 = ({| wfiles := fs;
                       wtrace := pre ++ [Out (lit "ERROR: " ++ text)] |},
                    inr 1%Z)).
  { unfold run_worker, main. rewrite Hargv. fold s0.
    rewrite (try_except_err _ _ _ _ _ (bind_err _ _ _ _ _ H) eq_refl).
    unfold main_except. wstep. unfold out, modify.
    rewrite wemit_as_wemits, wemits_wemits. reflexivity. }
  exists text, pre. split; [exact Hm|]. split; [rewrite H; reflexivity|].
  split; [exact Hrun|]. split; [exact Ppre|].
  intros stage Hin. rewrite Hrun in Hin. cbn [fst wtrace] in Hin.
  apply in_app_or in Hin as [Hin|[Hin|[]]]; [|discriminate].
  unfold printed in Ppre. rewrite List.Forall_forall in Ppre.
  specialize (Ppre _ Hin). discriminate.
Qed.

Lemma missing_file_fails_before_pipeline_witness :
  exists text pre,
    missing_input (wgetcwd (lab_machine [])) [lit "/data/protein.pdb"]
                  lab_params = Some text
    /\ snd (main_try (lab_machine []) (lit "/tmp/tmpk3x9ab.json")
              {| wfiles := [lit "/data/protein.pdb"]; wtrace := [] |})
       = inl (FileNotFoundError text)
    /\ run_worker (lab_machine []) [lit "/data/protein.pdb"]
       = ({| wfiles := [lit "/data/protein.pdb"];
             wtrace := pre ++ [Out (lit "ERROR: " ++ text)] |}, inr 1%Z)
    /\ printed pre
    /\ (forall stage,
           ~ In (Call stage)
               (wtrace (fst (run_worker (lab_machine [])
                                        [lit "/data/protein.pdb"])))).
Proof.
  apply (missing_file_fails_before_pipeline
           (lab_machine []) [lit "/data/protein.pdb"]
           (lit "run_md_simulation.py") (lit "/tmp/tmpk3x9ab.json")
           lab_params).
  - reflexivity.
  - reflexivity.
  - right. left. vm_compute. reflexivity.
Defined.

(** ** The worker: the two lines for the launcher *)

(** C7: when the pipeline has succeeded, the run of the worker ends
    with the line [TOPOLOGY_FILE:] and the line [TRAJECTORY_FILE:], each
    carrying the file the worker settled on, which exists, or the text
    [Not found - expected at ...] when it settled on none, and the exit
    code is 0 in every case. *)
Theorem success_prints_both_sentinels (m : Machine) (fs : FS) :
  pipeline_succeeded m fs = true ->
  exists before,
    run_worker m fs
    = ({| wfiles := after m fs;
          wtrace :=
            before
            ++ [Out (topology_line (found_topology (wgetcwd m) (after m fs)));
                Out (trajectory_line
                       (found_trajectory (wgetcwd m) (after m fs)))] |},
       inr 0%Z)
    /\ (is_empty (found_topology (wgetcwd m) (after m fs)) = false ->
        os_path_exists (wgetcwd m) (after m fs)
          (found_topology (wgetcwd m) (after m fs)) = true)
    /\ (is_empty (found_trajectory (wgetcwd m) (after m fs)) = false ->
        os_path_exists (wgetcwd m) (after m fs)
          (found_trajectory (wgetcwd m) (after m fs)) = true).
Proof.
  intros (before & H)%succeeded_run. exists before.
  split; [exact H|]. split.
  - apply found_topology_exists.
  - apply found_trajectory_exists.
Qed.

Lemma success_prints_both_sentinels_witness :
  exists before,
    run_worker (lab_machine [lit "/work/output/emin.pdb"]) lab_inputs
    = ({| wfiles := lab_inputs ++ [lit "/work/output/emin.pdb"];
          wtrace :=
            before
            ++ [Out (lit "TOPOLOGY_FILE:/work/output/emin.pdb");
                Out (lit "TRAJECTORY_FILE:Not found - expected at output/md_trajectory_id_0.dcd")] |},
       inr 0%Z).
Proof.
  destruct (success_prints_both_sentinels
              (lab_machine [lit "/work/output/emin.pdb"]) lab_inputs)
    as (before & H & _).
  - vm_compute. reflexivity.
  - exists before. rewrite H. vm_compute. reflexivity.
Defined.

(** ** The worker: the topology file *)

(** C8 as the code has it: after a successful pipeline that left no
    [output/emin.pdb], the worker settles on the absolute path of the
    first name of [alt_topo_files] that exists; [output/system.pdb] is
    the third of them, so it is settled on when it exists and
    [emin.pdb] of the working directory does not. *)
Theorem topology_falls_back_in_order (m : Machine) (fs : FS) :
  pipeline_succeeded m fs = true ->
  os_path_exists (wgetcwd m) (after m fs)
    (abspath (wgetcwd m) (lit "output/emin.pdb")) = false ->
  (forall pre alt_file post,
      alt_topo_files = pre ++ alt_file :: post ->
      Forall (fun a => os_path_exists (wgetcwd m) (after m fs) a = false)
             pre ->
      os_path_exists (wgetcwd m) (after m fs) alt_file = true ->
      topology_resolves_to m fs (abspath (wgetcwd m) alt_file))
  /\ (os_path_exists (wgetcwd m) (after m fs) (lit "emin.pdb") = false ->
      os_path_exists (wgetcwd m) (after m fs) (lit "output/system.pdb")
      = true ->
      topology_resolves_to m fs
        (abspath (wgetcwd m) (lit "output/system.pdb"))).
Proof.
  intros Hok He.
  assert (Hgen : forall pre alt_file post,
             alt_topo_files = pre ++ alt_file :: post ->
             Forall (fun a => os_path_exists (wgetcwd m) (after m fs) a
                              = false) pre ->
             os_path_exists (wgetcwd m) (after m fs) alt_file = true ->
             topology_resolves_to m fs (abspath (wgetcwd m) alt_file)).
  { intros pre alt_file post Hl Hpre Halt.
    apply (topology_resolved m fs _ Hok).
    exact (found_topology_alt m _ pre alt_file post He Hl Hpre Halt). }
  split; [exact Hgen|].
  intros Hemin Hsys.
  apply (Hgen [lit "output/emin.pdb"; lit "emin.pdb"]
              (lit "output/system.pdb") [lit "system.pdb"]);
    [reflexivity | | exact Hsys].
  repeat constructor; [|exact Hemin].
  exact (eq_trans
           (eq_sym (exists_of_abspath (wcwd_rest m) (after m fs)
                      (lit "output/emin.pdb") eq_refl)) He).
Qed.

Lemma topology_falls_back_in_order_witness :
  topology_resolves_to (lab_machine [lit "/work/output/system.pdb"])
    lab_inputs (lit "/work/output/system.pdb").
Proof.
  apply (topology_falls_back_in_order
           (lab_machine [lit "/work/output/system.pdb"]) lab_inputs).
  - vm_compute. reflexivity.
  - vm_compute. reflexivity.
  - vm_compute. reflexivity.
  - vm_compute. reflexivity.
Defined.

(** C8 as the specification words its example: an absent
    [output/emin.pdb] and an existing [output/system.pdb] are enough
    for the topology to be [output/system.pdb]. *)
Definition system_pdb_is_chosen : Prop :=
  forall (m : Machine) (fs : FS),
    pipeline_succeeded m fs = true ->
    os_path_exists (wgetcwd m) (after m fs)
      (abspath (wgetcwd m) (lit "output/emin.pdb")) = false ->
    os_path_exists (wgetcwd m) (after m fs) (lit "output/system.pdb")
    = true ->
    topology_resolves_to m fs
      (abspath (wgetcwd m) (lit "output/system.pdb")).

(** With [emin.pdb] in the working directory beside
    [output/system.pdb], the worker reports [emin.pdb]. *)
Lemma emin_pdb_beside_is_preferred : ~ system_pdb_is_chosen.
Proof.
  intros H.
  specialize (H (lab_machine [lit "/work/emin.pdb";
                              lit "/work/output/system.pdb"]) lab_inputs).
  assert (Hok : pipeline_succeeded
                  (lab_machine [lit "/work/emin.pdb";
                                lit "/work/output/system.pdb"]) lab_inputs
                = true) by (vm_compute; reflexivity).
  specialize (H Hok).
  apply (topology_resolved _ _ _ Hok) in H.
  - vm_compute in H. discriminate H.
  - vm_compute. reflexivity.
  - vm_compute. reflexivity.
Qed.

(** ** The worker: the trajectory file *)

(** C9 as the code has it: after a successful pipeline that left no
    [output/md_trajetory_id_0.dcd], the worker settles on the absolute
    path of the first match of the first pattern of [traj_patterns]
    that matches anything; [output/trajectory*.dcd] is the third
    pattern, so its match is settled on when neither
    [output/md_trajectory_id_*.dcd] nor [output/md_trajectory*.dcd]
    matches. *)
Theorem trajectory_falls_back_in_order (m : Machine) (fs : FS) :
  pipeline_succeeded m fs = true ->
  os_path_exists (wgetcwd m) (after m fs)
    (abspath (wgetcwd m) (lit "output/md_trajetory_id_0.dcd")) = false ->
  (forall pre pattern post first others,
      traj_patterns = pre ++ pattern :: post ->
      Forall (fun p => glob (wgetcwd m) (after m fs) p = []) pre ->
      glob (wgetcwd m) (after m fs) pattern = first :: others ->
      trajectory_resolves_to m fs (abspath (wgetcwd m) first))
  /\ (forall file,
         glob (wgetcwd m) (after m fs) (lit "output/md_trajectory_id_*.dcd")
         = [] ->
         glob (wgetcwd m) (after m fs) (lit "output/md_trajectory*.dcd")
         = [] ->
         glob (wgetcwd m) (after m fs) (lit "output/trajectory*.dcd")
         = [file] ->
         trajectory_resolves_to m fs (abspath (wgetcwd m) file)).
Proof.
  intros Hok He.
  assert (Hgen : forall pre pattern post first others,
             traj_patterns = pre ++ pattern :: post ->
             Forall (fun p => glob (wgetcwd m) (after m fs) p = []) pre ->
             glob (wgetcwd m) (after m fs) pattern = first :: others ->
             trajectory_resolves_to m fs (abspath (wgetcwd m) first)).
  { intros pre pattern post first others Hl Hpre Hg.
    apply (trajectory_resolved m fs _ Hok).
    exact (found_trajectory_pattern m _ pre pattern post first others
             He Hl Hpre Hg). }
  split; [exact Hgen|].
  intros file H1 H2 H3.
  apply (Hgen [lit "output/md_trajectory_id_*.dcd";
               lit "output/md_trajectory*.dcd"]
              (lit "output/trajectory*.dcd")
              [lit "md_trajectory_id_*.dcd"; lit "trajectory.dcd"]
              file []);
    [reflexivity | | exact H3].
  repeat constructor; assumption.
Qed.

Lemma trajectory_falls_back_in_order_witness :
  trajectory_resolves_to (lab_machine [lit "/work/output/trajectory1.dcd"])
    lab_inputs (lit "/work/output/trajectory1.dcd").
Proof.
  apply (proj2 (trajectory_falls_back_in_order
                  (lab_machine [lit "/work/output/trajectory1.dcd"])
                  lab_inputs
                  ltac:(vm_compute; reflexivity)
                  ltac:(vm_compute; reflexivity))
               (lit "output/trajectory1.dcd")).
  - vm_compute. reflexivity.
  - vm_compute. reflexivity.
  - vm_compute. reflexivity.
Defined.

(** C9 as the specification words its example: no match of
    [output/md_trajectory_id_*.dcd] and one match of
    [output/trajectory*.dcd] are enough for the trajectory to be that
    match. *)
Definition trajectory_match_is_chosen : Prop :=
  forall (m : Machine) (fs : FS) (file : pystr),
    pipeline_succeeded m fs = true ->
    os_path_exists (wgetcwd m) (after m fs)
      (abspath (wgetcwd m) (lit "output/md_trajetory_id_0.dcd")) = false ->
    glob (wgetcwd m) (after m fs) (lit "output/md_trajectory_id_*.dcd")
    = [] ->
    glob (wgetcwd m) (after m fs) (lit "output/trajectory*.dcd") = [file] ->
    trajectory_resolves_to m fs (abspath (wgetcwd m) file).

(** With [output/md_trajectory.dcd] beside [output/trajectory1.dcd],
    the second pattern matches and the worker reports its match. *)
Lemma second_pattern_is_preferred : ~ trajectory_match_is_chosen.
Proof.
  intros H.
  specialize (H (lab_machine [lit "/work/output/md_trajectory.dcd";
                              lit "/work/output/trajectory1.dcd"])
                lab_inputs (lit "output/trajectory1.dcd")).
  assert (Hok : pipeline_succeeded
                  (lab_machine [lit "/work/output/md_trajectory.dcd";
                                lit "/work/output/trajectory1.dcd"])
                  lab_inputs
                = true) by (vm_compute; reflexivity).
  specialize (H Hok).
  apply (trajectory_resolved _ _ _ Hok) in H.
  - vm_compute in H. discriminate H.
  - vm_compute. reflexivity.
  - vm_compute. reflexivity.
  - vm_compute. reflexivity.
Qed.

(** * Further properties of the worker *)

(** ** Arguments and parameters *)

(** Without exactly one argument the worker prints its usage and exits
    with code 1; it reads no parameter file, calls no stage and leaves
    the file system as it is. *)
Theorem wrong_argument_count_prints_usage (m : Machine) (fs : FS) :
  length (argv m) <> 2%nat ->
  run_worker m fs
  = ({| wfiles := fs;
        wtrace :=
          [Out (lit "Usage: python run_md_simulation.py <params_json_file>")]
     |}, inr 1%Z).
Proof.
  intros H. unfold run_worker, main.
  destruct (argv m) as [|a0 [|params_file [|x rest]]];
    try reflexivity.
  exfalso. apply H. reflexivity.
Qed.

(** A machine on which the worker is started without argument. *)
Definition bare_machine : Machine :=
  {| argv := [lit "run_md_simulation.py"];
     wcwd_rest := lit "work";
     load_params := fun _ => inr lab_params;
     toolkit := fun _ fs => ([], inr fs);
     wsignal_name := fun _ => None |}.

Lemma wrong_argument_count_prints_usage_witness :
  run_worker bare_machine lab_inputs
  = ({| wfiles := lab_inputs;
        wtrace :=
          [Out (lit "Usage: python run_md_simulation.py <params_json_file>")]
     |}, inr 1%Z).
Proof.
  apply wrong_argument_count_prints_usage. vm_compute. lia.
Defined.

(** The report of an exception by the two [except] clauses. *)
Definition error_report (m : Machine) (e : exn) : list wevent :=
  match e with
  | FileNotFoundError text => [Out (lit "ERROR: " ++ text)]
  | _ => [Out (lit "ERROR during MD simulation: "
               ++ str_of_exn (wsignal_name m) e);
          Traceback e]
  end.

Lemma main_except_report (m : Machine) (e : exn) (s : WState) :
  main_except m e s = (wemits (error_report m e) s, inr 1%Z).
Proof.
  destruct e; unfold main_except, error_report; wstep;
    unfold out, modify; rewrite ?wemit_as_wemits, ?wemits_wemits;
    reflexivity.
Qed.

Lemma unreadable_run
      (m : Machine) (fs : FS) (a0 params_file : pystr) (e : exn) :
  argv m = [a0; params_file] ->
  load_params m params_file = inl e ->
  run_worker m fs
  = if is_Exception e
    then ({| wfiles := fs; wtrace := error_report m e |}, inr 1%Z)
    else ({| wfiles := fs; wtrace := [] |}, inl e).
Proof.
  intros Hargv Hl. unfold run_worker, main. rewrite Hargv.
  set (s0 := {| wfiles := fs; wtrace := [] |}).
  assert (Hb : (main_try m params_file ;; ret 0%Z) s0 = (s0, inl e)).
  { unfold main_try. rewrite Hl. reflexivity. }
  destruct (is_Exception e) eqn:Hexc.
  - rewrite (try_except_err _ _ _ _ _ Hb Hexc), main_except_report.
    reflexivity.
  - exact (try_except_pass _ _ _ _ _ Hb Hexc).
Qed.

(** When the parameter file cannot be opened or parsed, the error being
    an [Exception], nothing is printed but the report of the error,
    without traceback when the file does not exist; no stage is called,
    the file system is untouched and the exit code is 1.  An exception
    that is no [Exception] leaves [main] as it came, nothing being
    printed. *)
Theorem unreadable_parameters_reported
        (m : Machine) (fs : FS) (a0 params_file : pystr) (e : exn) :
  argv m = [a0; params_file] ->
  load_params m params_file = inl e ->
  run_worker m fs
  = if is_Exception e
    then ({| wfiles := fs; wtrace := error_report m e |}, inr 1%Z)
    else ({| wfiles := fs; wtrace := [] |}, inl e).
Proof. apply unreadable_run. Qed.

(** A machine on which the parameter file is gone. *)
Definition gone_machine : Machine :=
  {| argv := [lit "run_md_simulation.py"; lit "/tmp/gone.json"];
     wcwd_rest := lit "work";
     load_params := fun p =>
       inl (FileNotFoundError
              (lit "[Errno 2] No such file or directory: " ++ repr_str p));
     toolkit := fun _ fs => ([], inr fs);
     wsignal_name := fun _ => None |}.

Lemma unreadable_parameters_reported_witness :
  run_worker gone_machine lab_inputs
  = ({| wfiles := lab_inputs;
        wtrace :=
          [Out (lit "ERROR: [Errno 2] No such file or directory: '/tmp/gone.json'")]
     |}, inr 1%Z).
Proof.
  rewrite (unreadable_parameters_reported gone_machine lab_inputs
             (lit "run_md_simulation.py") (lit "/tmp/gone.json")
             (FileNotFoundError
                (lit "[Errno 2] No such file or directory: "
                 ++ repr_str (lit "/tmp/gone.json")))
             eq_refl eq_refl).
  vm_compute. reflexivity.
Defined.

(** ** The exit code *)

(** Every [Exception] raised during a run is caught: unless an
    exception that is no [Exception] ([SystemExit], [KeyboardInterrupt])
    leaves [main], in which case the simulation stage has not returned,
    the run ends with exit code 0 or 1, and the code is 0 exactly when
    the simulation stage has returned. *)
Theorem exit_code_tells_success (m : Machine) (fs : FS) :
  (snd (run_worker m fs) = inr 0%Z /\ pipeline_succeeded m fs = true)
  \/ (snd (run_worker m fs) = inr 1%Z /\ pipeline_succeeded m fs = false)
  \/ (exists e,
         snd (run_worker m fs) = inl e
         /\ is_Exception e = false
         /\ pipeline_succeeded m fs = false).
Proof.
  unfold pipeline_succeeded.
  destruct (worker_outcome m fs)
    as [ Hu | a0 pf e tr Ha Hl He Hs Hc | a0 pf e fs' tr Ha He Hs
       | a0 pf params text pre Ha Hl Hm Hp
       | a0 pf params fs' tr Ha Hl Hm Hs | a0 pf params fs' before Ha Hl Hm Hs ];
    cbn [fst snd wtrace].
  - right. left. split; reflexivity.
  - right. left. split; [reflexivity | exact Hs].
  - right. right. exists e. split; [reflexivity|]. split; assumption.
  - right. left. split; [reflexivity|].
    rewrite simulated_app, (printed_simulated _ Hp). reflexivity.
  - right. left. split; [reflexivity | exact Hs].
  - left. split; [reflexivity|].
    rewrite simulated_app, Hs. reflexivity.
Qed.

(** ** The stages *)

(** The calls into the toolkit and their returns, in the order of the
    run. *)
Definition is_stage_event (e : wevent) : bool :=
  match e with Call _ | Return _ => true | _ => false end.

Definition stage_events (tr : list wevent) : list wevent :=
  filter (fun e => is_stage_event e = true) tr.

(** The five calls of a complete run, with their arguments. *)
Definition stages (params : Params) : list Stage :=
  [ create_config (protein_file params) (ligand_file params)
      (md_steps params) (md_save_interval params)
      (platform_name params) (platform_precision params);
    add_water;
    forcefield_parameterization;
    energy_minimization;
    run_simulation
      (if is_empty (starting_state_path params) then None
       else Some (starting_state_path params)) ].

(** Stages called one after the other, each returning before the next
    is called. *)
Definition completed_stages (done : list Stage) : list wevent :=
  flat_map (fun stage => [Call stage; Return stage]) done.

Lemma stage_events_app (a b : list wevent) :
  stage_events (a ++ b) = stage_events a ++ stage_events b.
Proof. apply filter_app. Qed.

Lemma stage_events_printed (tr : list wevent) :
  printed tr -> stage_events tr = [].
Proof.
  induction 1 as [|e tr He _ IH]; [reflexivity|].
  destruct e; try discriminate. exact IH.
Qed.

Lemma printed_outs (lines : list pystr) : printed (map Out lines).
Proof. induction lines; constructor; [reflexivity | assumption]. Qed.

Lemma stage_events_outs (lines : list pystr) (tr : list wevent) :
  stage_events (map Out lines ++ tr) = stage_events tr.
Proof.
  rewrite stage_events_app, (stage_events_printed _ (printed_outs lines)).
  reflexivity.
Qed.

Lemma stage_events_cons (e : wevent) (tr : list wevent) :
  stage_events (e :: tr)
  = if is_stage_event e then e :: stage_events tr else stage_events tr.
Proof. destruct e; reflexivity. Qed.

Lemma wfiles_set_wfiles (fs : FS) (s : WState) :
  wfiles (set_wfiles fs s) = fs.
Proof. reflexivity. Qed.

Ltac wstages :=
  repeat first
    [ rewrite stage_events_cons; cbn [is_stage_event]
    | rewrite stage_events_outs
    | rewrite (stage_events_printed _ (printed_outs _)) ];
  try reflexivity.

Section Stages.

Variable m : Machine.

(** A property of the file system that every stage keeps. *)
Variable P : FS -> Prop.
Hypothesis kept :
  forall stage fs lines fs',
    P fs -> toolkit m stage fs = (lines, inr fs') -> P fs'.

Ltac kept_call :=
  wstep;
  lazymatch goal with |- context [bind (call m ?st) ?k ?s] =>
    let lines := fresh "lines" in
    let e := fresh "e" in
    let fs := fresh "fs" in
    let H := fresh "H" in
    let E := fresh "E" in
    pose proof (call_run m st s) as H;
    destruct (toolkit m st (wfiles s)) as [lines [e|fs]] eqn:E;
    [ rewrite (bind_err _ _ _ _ _ H); clear H
    | rewrite (bind_ok _ _ _ _ _ H); clear H;
      rewrite ?wfiles_wemit, ?wfiles_wemits, ?wfiles_set_wfiles in E;
      match goal with HP : P _ |- _ => pose proof (kept _ _ _ _ HP E) end ]
  end.

Ltac stopped k :=
  cbn [fst snd]; wnorm; eexists; eexists; exists k;
  split; [reflexivity|]; split; [assumption|];
  eexists; split; [reflexivity | wstages].

Ltac finished :=
  cbn [fst snd]; wnorm; eexists; eexists; exists 5%nat;
  split; [reflexivity|]; split; [assumption|];
  split; [reflexivity | wstages].

Lemma pipeline_stages (params : Params) (s : WState) :
  P (wfiles s) ->
  exists fs' tail k,
    fst (pipeline m params s)
    = {| wfiles := fs'; wtrace := wtrace s ++ tail |}
    /\ P fs'
    /\ match snd (pipeline m params s) with
       | inl _ =>
           exists stage,
             stages params !! k = Some stage
             /\ stage_events tail
                = completed_stages (take k (stages params)) ++ [Call stage]
       | inr _ =>
           k = 5%nat
           /\ stage_events tail = completed_stages (stages params)
       end.
Proof.
  intros HP. unfold pipeline, stages.
  kept_call; [stopped 0%nat|].
  kept_call; [stopped 1%nat|].
  kept_call; [stopped 2%nat|].
  kept_call; [stopped 3%nat|].
  wstep.
  destruct (is_empty (starting_state_path params)); cbn [negb].
  - kept_call; [stopped 4%nat|]. wstep. finished.
  - kept_call; [stopped 4%nat|]. wstep. finished.
Qed.

Lemma stage_events_report (e : exn) : stage_events (error_report m e) = [].
Proof. destruct e; reflexivity. Qed.

(** A run with readable parameters: the file system it leaves and the
    stages it went through. *)
Lemma worker_stages (fs : FS) (a0 params_file : pystr) (params : Params) :
  argv m = [a0; params_file] ->
  load_params m params_file = inr params ->
  P fs ->
  P (after m fs)
  /\ ((snd (run_worker m fs) = inr 0%Z
       /\ stage_events (wtrace (fst (run_worker m fs)))
          = completed_stages (stages params))
      \/ (snd (run_worker m fs) = inr 1%Z
          /\ (stage_events (wtrace (fst (run_worker m fs))) = []
              \/ exists k stage,
                   stages params !! k = Some stage
                   /\ stage_events (wtrace (fst (run_worker m fs)))
                      = completed_stages (take k (stages params))
                        ++ [Call stage]))
      \/ (exists e k stage,
             snd (run_worker m fs) = inl e
             /\ is_Exception e = false
             /\ stages params !! k = Some stage
             /\ stage_events (wtrace (fst (run_worker m fs)))
                = completed_stages (take k (stages params))
                  ++ [Call stage])).
Proof.
  intros Hargv Hl HP. unfold after, run_worker, main. rewrite Hargv.
  set (s0 := {| wfiles := fs; wtrace := [] |}).
  destruct (announce_run params_file params s0) as (pre & Ha & Ppre).
  pose proof (validate_run m params (wemits pre s0)) as Hv.
  rewrite wfiles_wemits in Hv. cbn [wfiles s0] in Hv.
  destruct (missing_input (wgetcwd m) fs params) as [text|].
  - assert (Hb : (main_try m params_file ;; ret 0%Z) s0
                 = (wemits pre s0, inl (FileNotFoundError text))).
    { apply bind_err. unfold main_try. rewrite Hl. wstep.
      rewrite (bind_ok _ _ _ _ _ Ha). apply (bind_err _ _ _ _ _ Hv). }
    rewrite (try_except_err _ _ _ _ _ Hb eq_refl), main_except_report,
      wemits_wemits.
    cbn [fst snd wfiles wtrace wemits s0 app].
    rewrite stage_events_app, (stage_events_printed _ Ppre),
      stage_events_report.
    split; [exact HP|].
    right. left. split; [reflexivity|]. left. reflexivity.
  - destruct (pipeline_stages params (wemits pre s0) HP)
      as (fs' & tail & k & Hf & HP' & Hr).
    destruct (pipeline m params (wemits pre s0)) as [s1 [e|[]]] eqn:Hp;
      cbn [fst snd] in Hf, Hr; subst s1.
    + assert (Hb : (main_try m params_file ;; ret 0%Z) s0
                   = ({| wfiles := fs';
                         wtrace := wtrace (wemits pre s0) ++ tail |},
                      inl e)).
      { apply bind_err. unfold main_try. rewrite Hl. wstep.
        rewrite (bind_ok _ _ _ _ _ Ha), (bind_ok _ _ _ _ _ Hv).
        apply (bind_err _ _ _ _ _ Hp). }
      destruct Hr as (stage & Hk & Hr).
      destruct (is_Exception e) eqn:Hexc.
      * rewrite (try_except_err _ _ _ _ _ Hb Hexc), main_except_report.
        unfold wemits. cbn [fst snd wfiles wtrace s0 app].
        rewrite !stage_events_app, (stage_events_printed _ Ppre),
          stage_events_report, ?app_nil_r.
        split; [exact HP'|].
        right. left. split; [reflexivity|]. right. exists k, stage.
        split; [exact Hk | exact Hr].
      * rewrite (try_except_pass _ _ _ _ _ Hb Hexc).
        unfold wemits. cbn [fst snd wfiles wtrace s0 app].
        rewrite !stage_events_app, (stage_events_printed _ Ppre),
          ?app_nil_r.
        split; [exact HP'|].
        right. right. exists e, k, stage.
        split; [reflexivity|]. split; [exact Hexc|].
        split; [exact Hk | exact Hr].
    + match goal with |- context [try_except _ _ s0] =>
        destruct (conclude_run
                    m {| wfiles := fs';
                         wtrace := wtrace (wemits pre s0) ++ tail |})
          as (before & Hcon & Pb)
      end.
      assert (Hm : main_try m params_file s0
                   = (wemits
                        (before
                         ++ [Out (topology_line
                                    (found_topology (wgetcwd m) fs'));
                             Out (trajectory_line
                                    (found_trajectory (wgetcwd m) fs'))])
                        {| wfiles := fs';
                           wtrace := wtrace (wemits pre s0) ++ tail |},
                      inr tt)).
      { unfold main_try. rewrite Hl. wstep.
        rewrite (bind_ok _ _ _ _ _ Ha), (bind_ok _ _ _ _ _ Hv),
          (bind_ok _ _ _ _ _ Hp).
        exact Hcon. }
      pose proof (bind_ok _ (fun _ => ret 0%Z) _ _ _ Hm) as Hb.
      change (ret 0%Z ?s) with (s, @inr exn Z 0%Z) in Hb.
      rewrite (try_except_ok _ _ _ _ _ Hb).
      unfold wemits. cbn [fst snd wfiles wtrace s0 app].
      rewrite !stage_events_app, (stage_events_printed _ Ppre),
        (stage_events_printed _ Pb), ?app_nil_r.
      cbn [stage_events filter list_filter is_stage_event app].
      rewrite ?app_nil_r.
      destruct Hr as [_ Hr].
      split; [exact HP'|].
      left. split; [reflexivity | exact Hr].
Qed.

End Stages.

(** The stages of a run are called in the order of [stages], each
    after the one before has returned, and the first that raises is the
    last one called: with exit code 0 all five were called and
    returned; with exit code 1 either none was called or the stages
    before some stage returned and that stage was called and did not
    return; and when an exception that is no [Exception] leaves [main],
    the stages before some stage returned and that stage was called and
    did not return. *)
Theorem stages_run_in_order
        (m : Machine) (fs : FS) (a0 params_file : pystr) (params : Params) :
  argv m = [a0; params_file] ->
  load_params m params_file = inr params ->
  (snd (run_worker m fs) = inr 0%Z
   /\ stage_events (wtrace (fst (run_worker m fs)))
      = completed_stages (stages params))
  \/ (snd (run_worker m fs) = inr 1%Z
      /\ (stage_events (wtrace (fst (run_worker m fs))) = []
          \/ exists k stage,
               stages params !! k = Some stage
               /\ stage_events (wtrace (fst (run_worker m fs)))
                  = completed_stages (take k (stages params))
                    ++ [Call stage]))
  \/ (exists e k stage,
         snd (run_worker m fs) = inl e
         /\ is_Exception e = false
         /\ stages params !! k = Some stage
         /\ stage_events (wtrace (fst (run_worker m fs)))
            = completed_stages (take k (stages params)) ++ [Call stage]).
Proof.
  intros Hargv Hl.
  exact (proj2 (worker_stages m (fun _ => True) (fun _ _ _ _ _ _ => I)
                  fs a0 params_file params Hargv Hl I)).
Qed.

(** A machine whose minimization stage fails. *)
Definition broken_machine : Machine :=
  {| argv := [lit "run_md_simulation.py"; lit "/tmp/tmpk3x9ab.json"];
     wcwd_rest := lit "work";
     load_params := fun _ => inr lab_params;
     toolkit := fun stage fs =>
       match stage with
       | energy_minimization =>
           ([lit "Minimizing"],
            inl (OtherError "OpenMMException" (lit "Particle coordinate is NaN")))
       | _ => ([], inr fs)
       end;
     wsignal_name := fun _ => None |}.

Lemma stages_run_in_order_witness :
  snd (run_worker broken_machine lab_inputs) = inr 1%Z
  /\ stage_events (wtrace (fst (run_worker broken_machine lab_inputs)))
     = completed_stages (take 3 (stages lab_params))
       ++ [Call energy_minimization].
Proof.
  destruct (stages_run_in_order broken_machine lab_inputs
              (lit "run_md_simulation.py") (lit "/tmp/tmpk3x9ab.json")
              lab_params eq_refl eq_refl)
    as [[H _]|[[H _]|(e & k & stage & H & _)]].
  - vm_compute in H. discriminate H.
  - split; [exact H | vm_compute; reflexivity].
  - vm_compute in H. discriminate H.
Defined.

(** The worker itself creates and removes nothing: whatever every stage
    keeps true of the file system is true after the run if it was true
    before, however the run ends. *)
Theorem worker_keeps_what_stages_keep
        (m : Machine) (P : FS -> Prop) (fs : FS) :
  (forall stage fs0 lines fs1,
      P fs0 -> toolkit m stage fs0 = (lines, inr fs1) -> P fs1) ->
  P fs ->
  P (after m fs).
Proof.
  intros Hkept HP.
  destruct (argv m) as [|a0 [|params_file [|x rest]]] eqn:Hargv;
    try (unfold after, run_worker, main; rewrite Hargv; exact HP).
  destruct (load_params m params_file) as [e|params] eqn:Hl.
  - unfold after. rewrite (unreadable_run m fs a0 params_file e Hargv Hl).
    destruct (is_Exception e); exact HP.
  - exact (proj1 (worker_stages m P Hkept fs a0 params_file params
                    Hargv Hl HP)).
Qed.

Lemma worker_keeps_what_stages_keep_witness :
  In (lit "/data/protein.pdb")
     (after (lab_machine [lit "/work/output/emin.pdb"]) lab_inputs).
Proof.
  apply (worker_keeps_what_stages_keep
           (lab_machine [lit "/work/output/emin.pdb"])
           (fun fs => In (lit "/data/protein.pdb") fs)).
  - intros stage fs0 lines fs1 H0 E.
    destruct stage; cbn in E; injection E as _ <-; try exact H0.
    apply in_or_app. left. exact H0.
  - left. reflexivity.
Defined.

(** ** The expected files *)

(** After a successful pipeline, a file at the expected place is what
    the worker reports, whatever else the directories hold: no
    alternative name and no pattern is tried. *)
Theorem expected_file_is_preferred (m : Machine) (fs : FS) :
  pipeline_succeeded m fs = true ->
  (os_path_exists (wgetcwd m) (after m fs)
     (abspath (wgetcwd m) (lit "output/emin.pdb")) = true ->
   topology_resolves_to m fs (abspath (wgetcwd m) (lit "output/emin.pdb")))
  /\ (os_path_exists (wgetcwd m) (after m fs)
        (abspath (wgetcwd m) (lit "output/md_trajetory_id_0.dcd")) = true ->
      trajectory_resolves_to m fs
        (abspath (wgetcwd m) (lit "output/md_trajetory_id_0.dcd"))).
Proof.
  intros Hok. split; intros He.
  - apply (topology_resolved m fs _ Hok).
    unfold found_topology, topology_line. rewrite He, abspath_nonempty.
    reflexivity.
  - apply (trajectory_resolved m fs _ Hok).
    unfold found_trajectory, trajectory_line. rewrite He, abspath_nonempty.
    reflexivity.
Qed.

Lemma expected_file_is_preferred_witness :
  topology_resolves_to
    (lab_machine [lit "/work/emin.pdb"; lit "/work/output/emin.pdb"])
    lab_inputs (lit "/work/output/emin.pdb").
Proof.
  apply (proj1 (expected_file_is_preferred
                  (lab_machine [lit "/work/emin.pdb";
                                lit "/work/output/emin.pdb"])
                  lab_inputs ltac:(vm_compute; reflexivity))).
  vm_compute. reflexivity.
Defined.

(** ** What [glob] finds *)

Lemma glob_names (cwd : pystr) (fs : FS) (pattern first : pystr) :
  has_magic pattern = true ->
  is_empty (fst (path_split pattern)) = false ->
  first ∈ glob cwd fs pattern ->
  exists name,
    first = path_join (fst (path_split pattern)) name
    /\ fnmatch (snd (path_split pattern)) name = true.
Proof.
  unfold glob. destruct (path_split pattern) as [dirname basename].
  cbn [fst snd]. intros -> ->. cbn [negb].
  intros (name & -> & Hn)%list_elem_of_fmap.
  exists name. split; [reflexivity|].
  unfold glob1 in Hn. apply list_elem_of_filter in Hn as [Hm _]. exact Hm.
Qed.

Lemma listdir_finds (cwd : pystr) (fs : FS) (dir name : pystr) :
  scan_prefix cwd dir ++ name ∈ fs ->
  is_empty name = false ->
  existsb (N.eqb slash) name = false ->
  name ∈ listdir cwd fs dir.
Proof.
  intros Hin Hne Hns. unfold listdir. fold (scan_prefix cwd dir).
  apply list_elem_of_omap. exists (scan_prefix cwd dir ++ name).
  split; [exact Hin|].
  rewrite strip_prefix_app, Hne, Hns. reflexivity.
Qed.

Lemma glob_finds (cwd : pystr) (fs : FS) (pattern name : pystr) :
  has_magic pattern = true ->
  is_empty (fst (path_split pattern)) = false ->
  scan_prefix cwd (fst (path_split pattern)) ++ name ∈ fs ->
  is_empty name = false ->
  existsb (N.eqb slash) name = false ->
  ishidden name = false ->
  fnmatch (snd (path_split pattern)) name = true ->
  path_join (fst (path_split pattern)) name ∈ glob cwd fs pattern.
Proof.
  unfold glob. destruct (path_split pattern) as [dirname basename].
  cbn [fst snd]. intros -> -> Hin Hne Hns Hh Hm. cbn [negb].
  apply list_elem_of_fmap. exists name. split; [reflexivity|].
  unfold glob1. apply list_elem_of_filter. split; [exact Hm|].
  pose proof (listdir_finds cwd fs dirname name Hin Hne Hns) as Hl.
  destruct (ishidden basename); [exact Hl|].
  apply list_elem_of_filter. split; [exact Hh | exact Hl].
Qed.

Lemma scanned_output (m : Machine) (name : pystr) :
  abspath (wgetcwd m) (lit "output/" ++ name)
  = scan_prefix (wgetcwd m) (lit "output") ++ name.
Proof.
  unfold abspath, scan_prefix, wgetcwd.
  rewrite (path_join_relative _ (lit "output/" ++ name) eq_refl).
  rewrite (path_join_relative _ (lit "output") eq_refl).
  cbn [is_empty orb].
  destruct (endswith_slash (slash :: wcwd_rest m)).
  - rewrite endswith_slash_app by reflexivity.
    change (endswith_slash (lit "output")) with false. cbn iota.
    rewrite <- !app_assoc. reflexivity.
  - rewrite !endswith_slash_app by reflexivity.
    change (endswith_slash (lit "output")) with false. cbn iota.
    rewrite <- !app_assoc. reflexivity.
Qed.

(** The expected trajectory path is spelled [md_trajetory]; a
    simulation that writes [output/md_trajectory_id_0.dcd] is therefore
    never found at the expected place, but through the first pattern:
    the worker reports a file of [output] whose name matches
    [md_trajectory_id_*.dcd]. *)
Theorem misspelled_path_found_by_pattern (m : Machine) (fs : FS) :
  pipeline_succeeded m fs = true ->
  os_path_exists (wgetcwd m) (after m fs)
    (abspath (wgetcwd m) (lit "output/md_trajetory_id_0.dcd")) = false ->
  os_path_exists (wgetcwd m) (after m fs)
    (lit "output/md_trajectory_id_0.dcd") = true ->
  exists name,
    fnmatch (lit "md_trajectory_id_*.dcd") name = true
    /\ os_path_exists (wgetcwd m) (after m fs) (lit "output/" ++ name) = true
    /\ trajectory_resolves_to m fs
         (abspath (wgetcwd m) (lit "output/" ++ name)).
Proof.
  intros Hok He Hfile.
  set (pattern := lit "output/md_trajectory_id_*.dcd").
  assert (Hin : path_join (lit "output") (lit "md_trajectory_id_0.dcd")
                ∈ glob (wgetcwd m) (after m fs) pattern).
  { apply (glob_finds (wgetcwd m) (after m fs) pattern
             (lit "md_trajectory_id_0.dcd"));
      try reflexivity.
    change (fst (path_split pattern)) with (lit "output").
    rewrite <- scanned_output.
    unfold os_path_exists in Hfile.
    apply andb_prop in Hfile as [_ Hfile].
    apply bool_decide_eq_true in Hfile. exact Hfile. }
  destruct (glob (wgetcwd m) (after m fs) pattern) as [|first others] eqn:Hg.
  { inversion Hin. }
  assert (Hfirst : first ∈ glob (wgetcwd m) (after m fs) pattern)
    by (rewrite Hg; left).
  destruct (glob_names (wgetcwd m) (after m fs) pattern first
              eq_refl eq_refl Hfirst) as (name & Hname & Hm).
  change (fst (path_split pattern)) with (lit "output") in Hname.
  change (snd (path_split pattern)) with (lit "md_trajectory_id_*.dcd") in Hm.
  assert (Hrel : path_join (lit "output") name = lit "output/" ++ name).
  { unfold path_join.
    destruct (isabs name) eqn:Habs; [|reflexivity].
    exfalso. destruct name as [|c name]; [discriminate|].
    change (isabs (c :: name)) with ((slash =? c) && true) in Habs.
    rewrite andb_true_r in Habs. apply N.eqb_eq in Habs. subst c.
    vm_compute in Hm. discriminate Hm. }
  rewrite Hrel in Hname. subst first.
  exists name. split; [exact Hm|]. split.
  - apply (glob_exists (wcwd_rest m) (after m fs) pattern). exact Hfirst.
  - apply (trajectory_resolved m fs _ Hok).
    exact (found_trajectory_pattern m (after m fs) [] pattern
             (tl traj_patterns) _ others He eq_refl
             (List.Forall_nil _) Hg).
Qed.

Lemma misspelled_path_found_by_pattern_witness :
  exists name,
    fnmatch (lit "md_trajectory_id_*.dcd") name = true
    /\ os_path_exists (lit "/work")
         (lab_inputs ++ [lit "/work/output/md_trajectory_id_0.dcd"])
         (lit "output/" ++ name) = true
    /\ trajectory_resolves_to
         (lab_machine [lit "/work/output/md_trajectory_id_0.dcd"])
         lab_inputs (abspath (lit "/work") (lit "output/" ++ name)).
Proof.
  apply (misspelled_path_found_by_pattern
           (lab_machine [lit "/work/output/md_trajectory_id_0.dcd"])
           lab_inputs).
  - vm_compute. reflexivity.
  - vm_compute. reflexivity.
  - vm_compute. reflexivity.
Defined.

(** * Further properties of the launcher *)

(** ** Trimming *)

Lemma lstrip_keeps (a : pystr) (c : N) (b : pystr) :
  isspace c = false -> lstrip (a ++ c :: b) = lstrip a ++ c :: b.
Proof.
  intros Hc. induction a as [|x a IH]; cbn [app lstrip].
  - rewrite Hc. reflexivity.
  - destruct (isspace x); [exact IH | reflexivity].
Qed.

Lemma rstrip_keeps (a : pystr) (c : N) (b : pystr) :
  isspace c = false -> rstrip (a ++ c :: b) = a ++ c :: rstrip b.
Proof.
  intros Hc. unfold rstrip.
  rewrite rev_app_distr. cbn [rev]. rewrite <- app_assoc. cbn [app].
  rewrite (lstrip_keeps _ _ _ Hc), rev_app_distr. cbn [rev].
  rewrite rev_involutive, <- app_assoc. reflexivity.
Qed.

Lemma rstrip_newline (s : pystr) : rstrip (s ++ [10]) = rstrip s.
Proof. unfold rstrip. rewrite rev_app_distr. reflexivity. Qed.

Lemma lstrip_snoc (l : pystr) (c : N) :
  lstrip (l ++ [c])
  = match lstrip l with
    | [] => if isspace c then [] else [c]
    | r => r ++ [c]
    end.
Proof.
  induction l as [|x l IH]; cbn [app lstrip]; [reflexivity|].
  destruct (isspace x); [exact IH | reflexivity].
Qed.

Lemma rstrip_cons (c : N) (s : pystr) :
  rstrip (c :: s)
  = match rstrip s with
    | [] => if isspace c then [] else [c]
    | r => c :: r
    end.
Proof.
  unfold rstrip. cbn [rev]. rewrite lstrip_snoc.
  destruct (lstrip (rev s)) as [|y r].
  - destruct (isspace c); reflexivity.
  - rewrite rev_app_distr. cbn [rev app].
    destruct (rev r ++ [y]) eqn:E; [|reflexivity].
    destruct (rev r); discriminate E.
Qed.

(** What is left of a line after [rstrip] is nothing, or starts with
    the first character of the line. *)
Lemma rstrip_head (c : N) (s : pystr) :
  rstrip (c :: s) = [] \/ exists s', rstrip (c :: s) = c :: s'.
Proof.
  rewrite rstrip_cons. destruct (rstrip s) as [|y r].
  - destruct (isspace c); [left | right; eexists]; reflexivity.
  - right. eexists. reflexivity.
Qed.

(** ** The reading loop *)

Lemma sentinel_value_indented (key : pystr) (k c : N) (line : pystr) :
  isspace c = true -> isspace k = false ->
  sentinel_value (k :: key) (c :: line) = None.
Proof.
  intros Hc Hk. unfold sentinel_value.
  destruct (rstrip_head c line) as [->|[s' ->]]; [reflexivity|].
  cbn [strip_prefix].
  destruct (N.eqb_spec k c) as [->|]; [congruence | reflexivity].
Qed.

(** The sentinel must start the line: a line that begins with white
    space is echoed and changes neither value, even when a sentinel
    follows the white space (only trailing white space is trimmed
    before the test). *)
Theorem indented_sentinel_is_ignored
        (c : N) (line : pystr) (found : pystr * pystr) (s : LState) :
  isspace c = true ->
  read_line (c :: line) found s
  = (emit (Print (rstrip (c :: line))) s, inr found).
Proof.
  intros Hc. rewrite read_line_run.
  change (lit "TOPOLOGY_FILE:") with (84 :: lit "OPOLOGY_FILE:").
  change (lit "TRAJECTORY_FILE:") with (84 :: lit "RAJECTORY_FILE:").
  rewrite !(sentinel_value_indented _ 84 c line Hc eq_refl).
  destruct found. reflexivity.
Qed.

Lemma indented_sentinel_is_ignored_witness :
  read_line (lit "  TOPOLOGY_FILE:/a/emin.pdb") ([], []) (start [])
  = (emit (Print (lit "  TOPOLOGY_FILE:/a/emin.pdb")) (start []),
     inr ([], [])).
Proof.
  exact (indented_sentinel_is_ignored 32 (lit " TOPOLOGY_FILE:/a/emin.pdb")
           ([], []) (start []) eq_refl).
Defined.

Lemma sentinel_value_line (key : pystr) (value : pystr) :
  lstrip value = value -> rstrip value = value ->
  sentinel_value (key ++ [colon]) ((key ++ [colon]) ++ value ++ [10])
  = Some value.
Proof.
  intros Hl Hr. unfold sentinel_value.
  rewrite <- (app_assoc key [colon]). cbn [app].
  rewrite (rstrip_keeps key colon _ eq_refl), rstrip_newline, Hr.
  change (key ++ colon :: value) with (key ++ [colon] ++ value).
  rewrite (app_assoc key [colon]), strip_prefix_app.
  unfold strip. rewrite Hl, Hr. reflexivity.
Qed.

(** Two final lines [TOPOLOGY_FILE:<t>] and [TRAJECTORY_FILE:<j>], as
    the worker prints them, are read back as [<t>] and [<j>] whatever
    the lines before them carried, provided the two values neither
    start nor end with white space. *)
Theorem report_lines_are_read_back
        (before : list pystr) (topology trajectory : pystr)
        (found : pystr * pystr) (s : LState) :
  lstrip topology = topology -> rstrip topology = topology ->
  lstrip trajectory = trajectory -> rstrip trajectory = trajectory ->
  snd (read_lines
         (before ++ [lit "TOPOLOGY_FILE:" ++ topology ++ [10];
                     lit "TRAJECTORY_FILE:" ++ trajectory ++ [10]])
         found s)
  = inr (topology, trajectory).
Proof.
  intros Htl Htr Hjl Hjr. rewrite read_lines_run. cbn [snd].
  f_equal. f_equal.
  - apply last_value_last.
    + exact (sentinel_value_line (lit "TOPOLOGY_FILE") topology Htl Htr).
    + constructor; [|constructor]. unfold sentinel_value.
      change (lit "TRAJECTORY_FILE:" ++ trajectory ++ [10])
        with (lit "TRAJECTORY_FILE" ++ colon :: (trajectory ++ [10])).
      rewrite (rstrip_keeps _ colon _ eq_refl). reflexivity.
  - change (before ++ [lit "TOPOLOGY_FILE:" ++ topology ++ [10];
                       lit "TRAJECTORY_FILE:" ++ trajectory ++ [10]])
      with (before ++ [lit "TOPOLOGY_FILE:" ++ topology ++ [10]]
                   ++ [lit "TRAJECTORY_FILE:" ++ trajectory ++ [10]]).
    rewrite app_assoc. apply last_value_last; [|constructor].
    exact (sentinel_value_line (lit "TRAJECTORY_FILE") trajectory Hjl Hjr).
Qed.

Lemma report_lines_are_read_back_witness :
  snd (read_lines
         [lit "TOPOLOGY_FILE:/stale.pdb" ++ [10];
          lit "TOPOLOGY_FILE:/work/output/emin.pdb" ++ [10];
          lit "TRAJECTORY_FILE:Not found - expected at output/md_trajectory_id_0.dcd" ++ [10]]
         ([], []) (start []))
  = inr (lit "/work/output/emin.pdb",
         lit "Not found - expected at output/md_trajectory_id_0.dcd").
Proof.
  apply (report_lines_are_read_back
           [lit "TOPOLOGY_FILE:/stale.pdb" ++ [10]]
           (lit "/work/output/emin.pdb")
           (lit "Not found - expected at output/md_trajectory_id_0.dcd")
           ([], []) (start []));
    vm_compute; reflexivity.
Defined.

(** ** Preparing and starting the child *)

(** [conda_env], [script_path] and [cmd] of [runMDSimulation]. *)
Definition conda_env (block : Block) : pyval :=
  dict_get (variables block) "conda_env" (PyStr (lit "easymd")).

Definition script_path (h : Host) : pystr :=
  path_join (dirname (abspath (getcwd h) (module_file h)))
            (lit "run_md_simulation.py").

Definition command (h : Host) (env param_file : pystr) : list pystr :=
  [ lit "/opt/homebrew/bin/micromamba"; lit "run"; lit "-n"; env;
    lit "python"; lit "-u"; script_path h; param_file ].

(** The values of the parameter dictionary. *)
Definition md_params (block : Block) : list pyval :=
  [ protein_path block;
    ligand_path block;
    dict_get (variables block) "md_steps" (PyInt 1000);
    dict_get (variables block) "md_save_interval" (PyInt 10);
    dict_get (variables block) "platform_name" (PyStr (lit "CPU"));
    dict_get (variables block) "platform_precision" (PyStr (lit "mixed"));
    dict_get (variables block) "starting_state_path" (PyStr []) ].

(** The values [json] has an encoding for. *)
Definition encodable (v : pyval) : bool :=
  match v with PyObject _ _ => false | _ => true end.

Definition is_text (v : pyval) : bool :=
  match v with PyStr _ => true | _ => false end.

(** The command lines of the children started, oldest first. *)
Definition spawned (tr : list event) : list (list pystr) :=
  omap (fun e => match e with Spawned cmd => Some cmd | _ => None end) tr.

Lemma json_dump_encodable {S} (params : list (string * pyval)) (s : S) :
  forallb (fun kv => encodable (snd kv)) params = true ->
  json_dump params s = (s, inr tt).
Proof.
  induction params as [|[k v] params IH]; [reflexivity|].
  cbn [forallb snd]. intros [Hv Hr]%andb_prop.
  destruct v; try discriminate; exact (IH Hr).
Qed.

Lemma present (v : pyval) : v <> PyNone -> is_None v = false.
Proof.
  intros H. destruct v; try reflexivity. exfalso. apply H. reflexivity.
Qed.

Lemma spawned_app (a b : list event) :
  spawned (a ++ b) = spawned a ++ spawned b.
Proof. apply omap_app. Qed.

Lemma spawned_prints (lines : list pystr) (f : pystr -> pystr) :
  spawned (map (fun line => Print (f line)) lines) = [].
Proof. induction lines; [reflexivity | assumption]. Qed.

Lemma spawned_cleaned (h : Host) (s : LState) :
  spawned (trace (cleaned h s)) = spawned (trace s).
Proof.
  unfold cleaned. destruct (param_file_path s); [|reflexivity].
  destruct (os_path_exists _ _ _); [|reflexivity].
  cbn [trace emit set_files]. rewrite spawned_app. apply app_nil_r.
Qed.

(** When the temporary file cannot be created, the launcher raises
    with the message of the error after printing it; nothing else has
    happened and the file system is as it was.  What is raised there
    and is no [Exception] (an interrupt) leaves the call as it is, with
    nothing printed. *)
Theorem tempfile_failure_touches_nothing
        (h : Host) (block : Block) (fs : FS) (e : exn) :
  protein_path block <> PyNone ->
  ligand_path block <> PyNone ->
  tempfile_rest h = inl e ->
  launch h block fs
  = if is_Exception e
    then ({| files := fs; param_file_path := None;
             trace := [Print (error_message h e)] |},
          inl (OtherError "Exception" (error_message h e)))
    else ({| files := fs; param_file_path := None; trace := [] |}, inl e).
Proof.
  intros Hp%present Hl%present Ht.
  unfold launch, runMDSimulation.
  fold (protein_path block) (ligand_path block). rewrite Hp, Hl.
  unfold try_except, NamedTemporaryFile. rewrite Ht. step.
  destruct (is_Exception e); [|reflexivity].
  rewrite handler_run. reflexivity.
Qed.

(** A host on which no temporary file can be created. *)
Definition full_host : Host :=
  {| cwd_rest := lit "home/user";
     module_file := lit "/plugins/easy-md/Include/easymd.py";
     tempfile_rest :=
       inl (OtherError "OSError"
              (lit "[Errno 28] No space left on device"));
     spawn := fun _ => inr good_child;
     signal_name := fun _ => None |}.

Lemma tempfile_failure_touches_nothing_witness :
  launch full_host plain_block [lit "/data/protein.pdb"]
  = ({| files := [lit "/data/protein.pdb"]; param_file_path := None;
        trace :=
          [Print (lit "Error during MD simulation setup: [Errno 28] No space left on device")] |},
     inl (OtherError "Exception"
            (lit "Error during MD simulation setup: [Errno 28] No space left on device"))).
Proof.
  rewrite (tempfile_failure_touches_nothing full_host plain_block
             [lit "/data/protein.pdb"]
             (OtherError "OSError" (lit "[Errno 28] No space left on device")));
    [reflexivity | | | reflexivity].
  - vm_compute. discriminate.
  - vm_compute. discriminate.
Defined.

(** Up to the start of the child: the state in which [Popen] is called
    and the command it is called with. *)
Ltac prepare blk Hp Hl Ht Hj :=
  unfold launch, runMDSimulation;
  fold (protein_path blk) (ligand_path blk) (conda_env blk);
  rewrite Hp, Hl;
  unfold try_except, NamedTemporaryFile; rewrite Ht; step;
  rewrite (bind_ok _ _ _ _ _ (json_dump_encodable _ _ Hj)); step.

(** What has happened when [Popen] is about to be called: the file
    created and the lines printed. *)
Definition preparation_log (h : Host) (block : Block) (param_file : pystr)
  : list event :=
  [ Created param_file;
    Print (lit "Created configuration for protein: "
           ++ py_str (protein_path block));
    Print (lit "Ligand: " ++ py_str (ligand_path block));
    Print (lit "MD Steps: "
           ++ py_str (dict_get (variables block) "md_steps" (PyInt 1000))
           ++ lit ", Save Interval: "
           ++ py_str (dict_get (variables block) "md_save_interval"
                        (PyInt 10)));
    Print (lit "Platform: "
           ++ py_str (dict_get (variables block) "platform_name"
                        (PyStr (lit "CPU")))
           ++ lit ", Precision: "
           ++ py_str (dict_get (variables block) "platform_precision"
                        (PyStr (lit "mixed"))));
    Print (lit "Using conda environment: " ++ py_str (conda_env block));
    Print (lit "Starting MD simulation...") ].

Lemma encodable_params (block : Block) :
  forallb encodable (md_params block) = true ->
  forallb (fun kv : string * pyval => encodable (snd kv))
    [ ("protein_file"%string, protein_path block);
      ("ligand_file"%string, ligand_path block);
      ("md_steps"%string,
       dict_get (variables block) "md_steps" (PyInt 1000));
      ("md_save_interval"%string,
       dict_get (variables block) "md_save_interval" (PyInt 10));
      ("platform_name"%string,
       dict_get (variables block) "platform_name" (PyStr (lit "CPU")));
      ("platform_precision"%string,
       dict_get (variables block) "platform_precision"
         (PyStr (lit "mixed")));
      ("starting_state_path"%string,
       dict_get (variables block) "starting_state_path" (PyStr [])) ]
  = true.
Proof. intros H. exact H. Qed.

Lemma spawn_failure_run
      (h : Host) (block : Block) (fs : FS) (rest env : pystr) (e : exn) :
  is_None (protein_path block) = false ->
  is_None (ligand_path block) = false ->
  tempfile_rest h = inr rest ->
  forallb encodable (md_params block) = true ->
  conda_env block = PyStr env ->
  spawn h (command h env (slash :: rest)) = inl e ->
  launch h block fs
  = if is_Exception e
    then
      ({| files :=
            fs_remove (getcwd h) (fs_create (getcwd h) fs (slash :: rest))
              (slash :: rest);
          param_file_path := Some (slash :: rest);
          trace :=
            preparation_log h block (slash :: rest)
            ++ [ Print (lit "Command: "
                        ++ join (lit " ") (command h env (slash :: rest)));
                 Print (error_message h e);
                 Unlinked (slash :: rest) ] |},
       inl (OtherError "Exception" (error_message h e)))
    else
      ({| files := fs_create (getcwd h) fs (slash :: rest);
          param_file_path := Some (slash :: rest);
          trace :=
            preparation_log h block (slash :: rest)
            ++ [ Print (lit "Command: "
                        ++ join (lit " ") (command h env (slash :: rest))) ] |},
       inl e).
Proof.
  intros Hp Hl Ht Hj%encodable_params Henv Hs.
  prepare block Hp Hl Ht Hj.
  rewrite Henv. cbn [str_items]. step.
  fold (script_path h). fold (command h env (slash :: rest)).
  unfold Popen. rewrite Hs. step.
  destruct (is_Exception e).
  - rewrite handler_run. unfold cleaned. flat.
    rewrite exists_after_create by reflexivity.
    unfold preparation_log. rewrite Henv. reflexivity.
  - unfold preparation_log. rewrite Henv. reflexivity.
Qed.

(** When the child cannot be started (no [micromamba] at the fixed
    path, say), the launcher raises with the message of the error; the
    temporary parameter file has been removed, nothing was waited for
    and no output is set.  What is raised there and is no [Exception]
    (an interrupt) leaves the call as it is: no handler runs and the
    temporary parameter file stays. *)
Theorem spawn_failure_cleans_up
        (h : Host) (block : Block) (fs : FS) (rest env : pystr) (e : exn) :
  protein_path block <> PyNone ->
  ligand_path block <> PyNone ->
  tempfile_rest h = inr rest ->
  forallb encodable (md_params block) = true ->
  conda_env block = PyStr env ->
  spawn h (command h env (slash :: rest)) = inl e ->
  spawned (trace (fst (launch h block fs))) = []
  /\ exit_status (trace (fst (launch h block fs))) = None
  /\ outputs (trace (fst (launch h block fs))) = ∅
  /\ if is_Exception e
     then
       raised (launch h block fs)
       = Some (OtherError "Exception" (error_message h e))
       /\ In (Unlinked (slash :: rest)) (trace (fst (launch h block fs)))
       /\ os_path_exists (getcwd h) (files (fst (launch h block fs)))
            (slash :: rest) = false
     else
       raised (launch h block fs) = Some e
       /\ ~ In (Unlinked (slash :: rest)) (trace (fst (launch h block fs)))
       /\ os_path_exists (getcwd h) (files (fst (launch h block fs)))
            (slash :: rest) = true.
Proof.
  intros Hp%present Hl%present Ht Hj Henv Hs.
  rewrite (spawn_failure_run h block fs rest env e Hp Hl Ht Hj Henv Hs).
  destruct (is_Exception e); cbn [fst snd raised files trace].
  - repeat split.
    + do 9 right. left. reflexivity.
    + apply exists_after_remove.
  - repeat split.
    + intros Hin. cbn in Hin.
      repeat (destruct Hin as [Hin|Hin]; [discriminate Hin|]).
      exact Hin.
    + apply exists_after_create. reflexivity.
Qed.

(** A host without [micromamba]. *)
Definition bare_host : Host :=
  {| cwd_rest := lit "home/user";
     module_file := lit "/plugins/easy-md/Include/easymd.py";
     tempfile_rest := inr (lit "tmp/tmpk3x9ab.json");
     spawn := fun _ =>
       inl (FileNotFoundError
              (lit "[Errno 2] No such file or directory: '/opt/homebrew/bin/micromamba'"));
     signal_name := fun _ => None |}.

Lemma spawn_failure_cleans_up_witness :
  raised (launch bare_host plain_block [])
  = Some (OtherError "Exception"
            (lit "Error during MD simulation setup: [Errno 2] No such file or directory: '/opt/homebrew/bin/micromamba'"))
  /\ os_path_exists (getcwd bare_host)
       (files (fst (launch bare_host plain_block [])))
       (lit "/tmp/tmpk3x9ab.json") = false.
Proof.
  destruct (spawn_failure_cleans_up bare_host plain_block []
              (lit "tmp/tmpk3x9ab.json") (lit "easymd")
              (FileNotFoundError
                 (lit "[Errno 2] No such file or directory: '/opt/homebrew/bin/micromamba'")))
    as (_ & _ & _ & Hr & _ & Hx).
  - vm_compute. discriminate.
  - vm_compute. discriminate.
  - reflexivity.
  - vm_compute. reflexivity.
  - vm_compute. reflexivity.
  - reflexivity.
  - split; [exact Hr | exact Hx].
Defined.

Lemma text_failure_run
      (h : Host) (block : Block) (fs : FS) (rest : pystr) :
  is_None (protein_path block) = false ->
  is_None (ligand_path block) = false ->
  tempfile_rest h = inr rest ->
  forallb encodable (md_params block) = true ->
  is_text (conda_env block) = false ->
  launch h block fs
  = ({| files :=
          fs_remove (getcwd h) (fs_create (getcwd h) fs (slash :: rest))
            (slash :: rest);
        param_file_path := Some (slash :: rest);
        trace :=
          preparation_log h block (slash :: rest)
          ++ [ Print (lit "Error during MD simulation setup: sequence item 3: expected str instance, "
                      ++ lit (type_name (conda_env block)) ++ lit " found");
               Unlinked (slash :: rest) ] |},
     inl (OtherError "Exception"
            (lit "Error during MD simulation setup: sequence item 3: expected str instance, "
             ++ lit (type_name (conda_env block)) ++ lit " found"))).
Proof.
  intros Hp Hl Ht Hj%encodable_params Henv.
  prepare block Hp Hl Ht Hj. unfold preparation_log.
  destruct (conda_env block) as [| b | z | env | cls shown | cls shown];
    try discriminate Henv;
    cbn [str_items]; step; cbn [is_Exception];
    rewrite handler_run; unfold cleaned; flat;
    rewrite exists_after_create by reflexivity; reflexivity.
Qed.

(** The name of the environment goes into the command line as it is:
    when it is not a text (a number, [None], ...), joining the command
    for the log raises [TypeError] before any child is started; the
    launcher raises with that message and the temporary parameter file
    has been removed. *)
Theorem environment_name_must_be_text
        (h : Host) (block : Block) (fs : FS) (rest : pystr) :
  protein_path block <> PyNone ->
  ligand_path block <> PyNone ->
  tempfile_rest h = inr rest ->
  forallb encodable (md_params block) = true ->
  is_text (conda_env block) = false ->
  raised (launch h block fs)
  = Some (OtherError "Exception"
            (lit "Error during MD simulation setup: sequence item 3: expected str instance, "
             ++ lit (type_name (conda_env block)) ++ lit " found"))
  /\ spawned (trace (fst (launch h block fs))) = []
  /\ outputs (trace (fst (launch h block fs))) = ∅
  /\ os_path_exists (getcwd h) (files (fst (launch h block fs)))
       (slash :: rest) = false.
Proof.
  intros Hp%present Hl%present Ht Hj Henv.
  rewrite (text_failure_run h block fs rest Hp Hl Ht Hj Henv).
  cbn [fst snd raised files trace].
  repeat split. apply exists_after_remove.
Qed.

(** A block whose environment name is a number. *)
Definition numbered_block : Block :=
  {| inputs := {[ "protein_file"%string := PyStr (lit "/data/protein.pdb");
                  "ligand_file"%string := PyStr (lit "/data/ligand.sdf") ]};
     variables := {[ "conda_env"%string := PyInt 3 ]} |}.

Lemma environment_name_must_be_text_witness :
  raised (launch (plugin_host good_child) numbered_block [])
  = Some (OtherError "Exception"
            (lit "Error during MD simulation setup: sequence item 3: expected str instance, int found"))
  /\ spawned (trace (fst (launch (plugin_host good_child) numbered_block [])))
     = [].
Proof.
  destruct (environment_name_must_be_text (plugin_host good_child)
              numbered_block [] (lit "tmp/tmpk3x9ab.json"))
    as (Hr & Hs & _).
  - vm_compute. discriminate.
  - vm_compute. discriminate.
  - reflexivity.
  - vm_compute. reflexivity.
  - vm_compute. reflexivity.
  - split; [|exact Hs]. rewrite Hr. vm_compute. reflexivity.
Defined.

(** ** The command line *)

Lemma in_spawned (cmd : list pystr) (tr : list event) :
  In (Spawned cmd) tr -> In cmd (spawned tr).
Proof.
  induction tr as [|e tr IH]; [intros []|].
  intros [->|H].
  - left. reflexivity.
  - destruct e; try exact (IH H). right. exact (IH H).
Qed.

Ltac handled :=
  cbn [is_Exception];
  try match goal with |- context [if is_Exception ?e then _ else _] =>
        destruct (is_Exception e)
      end.

Ltac no_child :=
  handled; left; rewrite ?handler_run; cbn [fst]; rewrite ?spawned_cleaned;
  flat; reflexivity.

Ltac one_child :=
  handled; rewrite ?handler_run; cbn [fst]; rewrite ?spawned_cleaned; flat;
  rewrite ?spawned_app, ?spawned_prints; reflexivity.

Lemma launch_spawned (h : Host) (block : Block) (fs : FS) :
  spawned (trace (fst (launch h block fs))) = []
  \/ exists rest env p,
       tempfile_rest h = inr rest
       /\ conda_env block = PyStr env
       /\ spawn h (command h env (slash :: rest)) = inr p
       /\ spawned (trace (fst (launch h block fs)))
          = [command h env (slash :: rest)].
Proof.
  unfold launch, runMDSimulation.
  fold (protein_path block) (ligand_path block) (conda_env block).
  destruct (is_None (protein_path block)); [left; reflexivity|].
  destruct (is_None (ligand_path block)); [left; reflexivity|].
  unfold try_except, NamedTemporaryFile.
  destruct (tempfile_rest h) as [e|rest] eqn:Ht.
  { step. no_child. }
  step.
  match goal with |- context [bind (json_dump ?p) ?k ?s] =>
    destruct (json_dump_cases p s) as [Hj|[e Hj]];
    [rewrite (bind_ok _ _ _ _ _ Hj) | rewrite (bind_err _ _ _ _ _ Hj)]
  end.
  2:{ no_child. }
  step.
  destruct (conda_env block) as [| b | z | env | cls shown | cls shown]
    eqn:Henv;
    cbn [str_items]; step; try no_child.
  fold (script_path h). fold (command h env (slash :: rest)).
  unfold Popen.
  destruct (spawn h (command h env (slash :: rest))) as [e|p] eqn:Hs.
  { step. no_child. }
  step. right. exists rest, env, p.
  split; [reflexivity|]. split; [reflexivity|]. split; [exact Hs|].
  match goal with |- context [bind (read_stdout p) ?k ?s] =>
    pose proof (read_stdout_run p s) as Hrd end.
  destruct (read_error p) as [e|] eqn:Hr.
  { rewrite (bind_err _ _ _ _ _ Hrd). one_child. }
  rewrite (bind_ok _ _ _ _ _ Hrd). clear Hrd.
  step.
  destruct (Z.eqb_spec (child_returncode p) 0) as [Hrc|Hrc]; cbn [negb].
  - match goal with |- context [bind (os_unlink ?h' ?path) ?k ?s] =>
      destruct (os_path_exists (getcwd h') (files s) path) eqn:Hu;
      [ rewrite (bind_ok _ _ _ _ _ (os_unlink_run h' path s Hu))
      | rewrite (bind_err _ _ _ _ _ (os_unlink_gone h' path s Hu)) ]
    end.
    + step. one_child.
    + one_child.
  - step. one_child.
Qed.

(** A call starts at most one child, and the command is always
    [/opt/homebrew/bin/micromamba run -n <env> python -u <script>
    <parameter file>], with the environment name of the block
    ([easymd] unless set), [run_md_simulation.py] in the directory of
    the plugin module, and the temporary file just created. *)
Theorem child_command_line
        (h : Host) (block : Block) (fs : FS) (cmd : list pystr) :
  In (Spawned cmd) (trace (fst (launch h block fs))) ->
  exists rest env,
    tempfile_rest h = inr rest
    /\ conda_env block = PyStr env
    /\ cmd = command h env (slash :: rest)
    /\ spawned (trace (fst (launch h block fs))) = [cmd].
Proof.
  intros Hin%in_spawned.
  destruct (launch_spawned h block fs)
    as [Hnone|(rest & env & p & Ht & Henv & _ & Hone)].
  - rewrite Hnone in Hin. destruct Hin.
  - rewrite Hone in Hin. destruct Hin as [<-|[]].
    exists rest, env. repeat split; assumption.
Qed.

Lemma child_command_line_witness :
  spawned (trace (fst (launch (plugin_host good_child) plain_block [])))
  = [ [ lit "/opt/homebrew/bin/micromamba"; lit "run"; lit "-n";
        lit "easymd"; lit "python"; lit "-u";
        lit "/plugins/easy-md/Include/run_md_simulation.py";
        lit "/tmp/tmpk3x9ab.json" ] ].
Proof.
  destruct (child_command_line (plugin_host good_child) plain_block []
              [ lit "/opt/homebrew/bin/micromamba"; lit "run"; lit "-n";
                lit "easymd"; lit "python"; lit "-u";
                lit "/plugins/easy-md/Include/run_md_simulation.py";
                lit "/tmp/tmpk3x9ab.json" ])
    as (rest & env & _ & _ & _ & H).
  - vm_compute. do 8 right. left. reflexivity.
  - exact H.
Defined.

(** ** The temporary file *)

Lemma recorded_file_is_removed_witness :
  os_path_exists (getcwd (plugin_host failing_child))
    (files (fst (launch (plugin_host failing_child) plain_block [])))
    (lit "/tmp/tmpk3x9ab.json") = false.
Proof.
  apply (recorded_file_is_removed (plugin_host failing_child) plain_block []).
  - vm_compute. reflexivity.
  - vm_compute. reflexivity.
Defined.

Lemma child_failure_raises_and_cleans_witness :
  exists msg,
    raised (launch (plugin_host failing_child) plain_block [])
    = Some (OtherError "Exception" msg)
    /\ os_path_exists (getcwd (plugin_host failing_child))
         (files (fst (launch (plugin_host failing_child) plain_block [])))
         (lit "/tmp/tmpk3x9ab.json") = false.
Proof.
  destruct (child_failure_raises_and_cleans (plugin_host failing_child)
              plain_block [] 1%Z)
    as (rest & cmd & p & Ht & _ & Hr & Hx).
  - vm_compute. reflexivity.
  - discriminate.
  - injection Ht as <-. eexists. split; [exact Hr | exact Hx].
Defined.




Ltac kept rest Hfresh Hexc :=
  right; right; unfold interrupted; cbn [fst snd]; rewrite Hexc;
  split; [reflexivity|]; exists rest;
  split; [reflexivity|]; split; [reflexivity|];
  flat; unfold fs_create; rewrite (bool_decide_eq_false_2 _ Hfresh);
  reflexivity.




(** ** What no handler sees *)




(** ** A stage that raises *)

Lemma wtrace_wemits (es : list wevent) (s : WState) :
  wtrace (wemits es s) = wtrace s ++ es.
Proof. reflexivity. Qed.

Ltac raised_here E :=
  cbn [fst snd]; intros [= <-]; rewrite wtrace_wemits;
  eexists _, _, _, _;
  split; [| split; [exact E | reflexivity]];
  repeat first [left; reflexivity | right].

(** When the pipeline raises, the exception is that of one of the five
    stages, and the run so far ends with the call of that stage and
    what the stage printed. *)
Lemma pipeline_error (m : Machine) (params : Params) (s : WState) (e : exn) :
  snd (pipeline m params s) = inl e ->
  exists stage fs0 lines pre,
    In stage (stages params)
    /\ toolkit m stage fs0 = (lines, inl e)
    /\ wtrace (fst (pipeline m params s))
       = pre ++ Call stage :: map Out lines.
Proof.
  unfold pipeline, stages.
  one_call m; [raised_here E|].
  one_call m; [raised_here E0|].
  one_call m; [raised_here E1|].
  one_call m; [raised_here E2|].
  wstep.
  destruct (is_empty (starting_state_path params)); cbn [negb].
  - one_call m; [raised_here E3|]. wstep. discriminate.
  - one_call m; [raised_here E3|]. wstep. discriminate.
Qed.

(** A stage that raises ends the run with exit code 1; the output ends
    with what the stage printed and the report of its exception:
    [ERROR: ...] alone for a [FileNotFoundError], as for a missing input
    file, and [ERROR during MD simulation: ...] with a traceback for any
    other. *)
Theorem stage_failure_is_reported
        (m : Machine) (fs : FS) (a0 params_file : pystr) (params : Params) :
  argv m = [a0; params_file] ->
  load_params m params_file = inr params ->
  missing_input (wgetcwd m) fs params = None ->
  snd (run_worker m fs) = inr 1%Z ->
  exists stage fs0 lines e pre,
    In stage (stages params)
    /\ toolkit m stage fs0 = (lines, inl e)
    /\ wtrace (fst (run_worker m fs))
       = pre ++ (Call stage :: map Out lines) ++ error_report m e.
Proof.
  intros Hargv Hl Hm. unfold run_worker, main. rewrite Hargv.
  set (s0 := {| wfiles := fs; wtrace := [] |}).
  destruct (announce_run params_file params s0) as (pre & Ha & Ppre).
  pose proof (validate_run m params (wemits pre s0)) as Hv.
  rewrite wfiles_wemits in Hv. cbn [wfiles s0] in Hv. rewrite Hm in Hv.
  destruct (pipeline m params (wemits pre s0)) as [s1 [e|[]]] eqn:Hp.
  - assert (Hb : (main_try m params_file ;; ret 0%Z) s0 = (s1, inl e)).
    { apply bind_err. unfold main_try. rewrite Hl. wstep.
      rewrite (bind_ok _ _ _ _ _ Ha), (bind_ok _ _ _ _ _ Hv).
      apply (bind_err _ _ _ _ _ Hp). }
    destruct (is_Exception e) eqn:Hexc;
      [|rewrite (try_except_pass _ _ _ _ _ Hb Hexc); discriminate].
    rewrite (try_except_err _ _ _ _ _ Hb Hexc), main_except_report.
    intros _.
    destruct (pipeline_error m params (wemits pre s0) e)
      as (stage & fs0 & lines & before & Hin & Ht & Htr).
    { rewrite Hp. reflexivity. }
    rewrite Hp in Htr. cbn [fst] in Htr.
    exists stage, fs0, lines, e, before.
    split; [exact Hin|]. split; [exact Ht|].
    cbn [fst]. rewrite wtrace_wemits, Htr, <- app_assoc. reflexivity.
  - destruct (conclude_run m s1) as (before & Hcon & _).
    assert (Hmt : main_try m params_file s0
                  = (wemits
                       (before
                        ++ [Out (topology_line
                                   (found_topology (wgetcwd m) (wfiles s1)));
                            Out (trajectory_line
                                   (found_trajectory (wgetcwd m)
                                      (wfiles s1)))]) s1,
                     inr tt)).
    { unfold main_try. rewrite Hl. wstep.
      rewrite (bind_ok _ _ _ _ _ Ha), (bind_ok _ _ _ _ _ Hv),
        (bind_ok _ _ _ _ _ Hp).
      exact Hcon. }
    pose proof (bind_ok _ (fun _ => ret 0%Z) _ _ _ Hmt) as Hb.
    change (ret 0%Z ?s) with (s, @inr exn Z 0%Z) in Hb.
    rewrite (try_except_ok _ _ _ _ _ Hb). discriminate.
Qed.

Lemma stage_failure_is_reported_witness :
  exists stage fs0 lines e pre,
    In stage (stages lab_params)
    /\ toolkit broken_machine stage fs0 = (lines, inl e)
    /\ wtrace (fst (run_worker broken_machine lab_inputs))
       = pre ++ (Call stage :: map Out lines) ++ error_report broken_machine e.
Proof.
  apply (stage_failure_is_reported broken_machine lab_inputs
           (lit "run_md_simulation.py") (lit "/tmp/tmpk3x9ab.json")
           lab_params).
  - reflexivity.
  - reflexivity.
  - vm_compute. reflexivity.
  - vm_compute. reflexivity.
Defined.

(** * The worker and the launcher together *)

(** ** The last character of what the worker reports *)

Lemma fnmatch_last (pat : pystr) (c : N) (name : pystr) :
  (c =? star) = false -> (c =? 63) = false ->
  fnmatch (pat ++ [c]) name = true ->
  exists name', name = name' ++ [c].
Proof.
  intros Hstar Hany. revert name.
  induction pat as [|p pat IH]; intros name.
  - cbn [app fnmatch]. rewrite Hstar.
    destruct name as [|x name]; [discriminate|].
    rewrite Hany. cbn [orb].
    intros [Hx He]%andb_prop. apply N.eqb_eq in Hx. subst x.
    destruct name; [|discriminate]. exists []. reflexivity.
  - cbn [app fnmatch]. destruct (p =? star).
    + induction name as [|x name IHn].
      * rewrite orb_false_r. apply IH.
      * intros [H|H]%orb_prop.
        -- exact (IH _ H).
        -- destruct (IHn H) as (name' & ->). exists (x :: name').
           reflexivity.
    + destruct name as [|x name]; [discriminate|].
      intros [_ H]%andb_prop. destruct (IH _ H) as (name' & ->).
      exists (x :: name'). reflexivity.
Qed.

(** A text without white space at either end. *)
Definition trimmed (s : pystr) : Prop := lstrip s = s /\ rstrip s = s.

Lemma trimmed_ends (c : N) (mid : pystr) (d : N) :
  isspace c = false -> isspace d = false ->
  trimmed (c :: mid ++ [d]).
Proof.
  intros Hc Hd. split.
  - cbn [lstrip]. rewrite Hc. reflexivity.
  - change (c :: mid ++ [d]) with ((c :: mid) ++ d :: []).
    rewrite (rstrip_keeps _ d [] Hd). reflexivity.
Qed.

Lemma path_join_last (a b' : pystr) (d : N) :
  exists mid, path_join a (b' ++ [d]) = mid ++ [d].
Proof.
  unfold path_join. destruct (isabs (b' ++ [d])).
  - exists b'. reflexivity.
  - destruct (is_empty a || endswith_slash a).
    + exists (a ++ b'). rewrite app_assoc. reflexivity.
    + exists (a ++ [slash] ++ b'). rewrite <- !app_assoc. reflexivity.
Qed.

Lemma isabs_cons (c : N) (s : pystr) : isabs (c :: s) = (slash =? c).
Proof. unfold isabs. cbn [startswith]. apply andb_true_r. Qed.

(** An absolute path whose last character is not white space. *)
Lemma trimmed_abspath (rest p' : pystr) (d : N) :
  isspace d = false -> trimmed (abspath (slash :: rest) (p' ++ [d])).
Proof.
  intros Hd.
  pose proof (isabs_abspath rest (p' ++ [d])) as Habs.
  destruct (path_join_last (slash :: rest) p' d) as (mid & Hmid).
  unfold abspath in *. rewrite Hmid in *.
  destruct mid as [|c mid]; cbn [app] in *; rewrite isabs_cons in Habs;
    apply N.eqb_eq in Habs.
  - subst d. split; reflexivity.
  - subst c. apply trimmed_ends; [reflexivity | exact Hd].
Qed.

Lemma found_topology_trimmed (m : Machine) (fs : FS) :
  is_empty (found_topology (wgetcwd m) fs) = false ->
  trimmed (found_topology (wgetcwd m) fs).
Proof.
  unfold found_topology, wgetcwd.
  destruct (os_path_exists _ _ (abspath _ (lit "output/emin.pdb"))).
  { intros _. exact (trimmed_abspath _ (lit "output/emin.pd") 98 eq_refl). }
  destruct (find _ alt_topo_files) as [alt_file|] eqn:Hf; [|discriminate].
  intros _. apply find_some in Hf as [Hin _].
  destruct Hin as [<-|[<-|[<-|[<-|[]]]]].
  - exact (trimmed_abspath _ (lit "output/emin.pd") 98 eq_refl).
  - exact (trimmed_abspath _ (lit "emin.pd") 98 eq_refl).
  - exact (trimmed_abspath _ (lit "output/system.pd") 98 eq_refl).
  - exact (trimmed_abspath _ (lit "system.pd") 98 eq_refl).
Qed.

Lemma glob_last (cwd : pystr) (fs : FS) (pattern' : pystr) (d : N)
      (first : pystr) :
  (d =? star) = false -> (d =? 63) = false -> (d =? slash) = false ->
  first ∈ glob cwd fs (pattern' ++ [d]) ->
  exists first', first = first' ++ [d].
Proof.
  intros Hstar Hany Hslash. unfold glob.
  assert (Hb : exists base', snd (path_split (pattern' ++ [d])) = base' ++ [d]).
  { unfold path_split. rewrite rev_app_distr. cbn [rev app split_rev].
    rewrite Hslash. destruct (split_rev (rev pattern')) as [head tail].
    cbn [snd rev]. eexists. reflexivity. }
  destruct (path_split (pattern' ++ [d])) as [dirname basename].
  cbn [snd] in Hb. destruct Hb as (base' & ->).
  destruct (negb (has_magic (pattern' ++ [d]))).
  - destruct (os_path_exists cwd fs (pattern' ++ [d])).
    + intros ->%list_elem_of_singleton. exists pattern'. reflexivity.
    + intros H. inversion H.
  - assert (Hn : forall dir name,
               name ∈ glob1 cwd fs dir (base' ++ [d]) ->
               exists name', name = name' ++ [d]).
    { intros dir name Hn. unfold glob1 in Hn.
      apply list_elem_of_filter in Hn as [Hm _].
      exact (fnmatch_last base' d name Hstar Hany Hm). }
    destruct (is_empty dirname).
    + intros H. exact (Hn _ first H).
    + intros (name & -> & H)%list_elem_of_fmap.
      destruct (Hn _ name H) as (name' & ->).
      apply path_join_last.
Qed.

Lemma first_match_last (cwd : pystr) (fs : FS) (first : pystr) :
  first_match cwd fs traj_patterns = Some first ->
  exists first', first = first' ++ [100].
Proof.
  unfold traj_patterns. cbn [first_match].
  repeat
    match goal with
    | |- match glob cwd fs ?p with _ => _ end = Some first -> _ =>
        let E := fresh "E" in
        destruct (glob cwd fs p) as [|x others] eqn:E;
        [| intros [= ->];
           assert (Hin : first ∈ glob cwd fs p) by (rewrite E; left);
           clear E; revert Hin ]
    end;
    try discriminate.
  - exact (glob_last cwd fs (lit "trajectory.dc") 100 first
             eq_refl eq_refl eq_refl).
  - exact (glob_last cwd fs (lit "md_trajectory_id_*.dc") 100 first
             eq_refl eq_refl eq_refl).
  - exact (glob_last cwd fs (lit "output/trajectory*.dc") 100 first
             eq_refl eq_refl eq_refl).
  - exact (glob_last cwd fs (lit "output/md_trajectory*.dc") 100 first
             eq_refl eq_refl eq_refl).
  - exact (glob_last cwd fs (lit "output/md_trajectory_id_*.dc") 100 first
             eq_refl eq_refl eq_refl).
Qed.

Lemma found_trajectory_trimmed (m : Machine) (fs : FS) :
  is_empty (found_trajectory (wgetcwd m) fs) = false ->
  trimmed (found_trajectory (wgetcwd m) fs).
Proof.
  unfold found_trajectory, wgetcwd.
  destruct (os_path_exists _ _ (abspath _ (lit "output/md_trajetory_id_0.dcd"))).
  { intros _.
    exact (trimmed_abspath _ (lit "output/md_trajetory_id_0.dc") 100
             eq_refl). }
  destruct (first_match _ _ traj_patterns) as [first|] eqn:Hf;
    [|discriminate].
  intros _. destruct (first_match_last _ _ _ Hf) as (first' & ->).
  exact (trimmed_abspath _ first' 100 eq_refl).
Qed.

(** ** From the worker's last lines to the outputs of the block *)

(** What the launcher makes of a file the worker settled on: the path,
    or the text of the worker when it settled on none. *)
Definition shown_topology (value : pystr) : pystr :=
  if is_empty value then lit "Not found - expected at output/emin.pdb"
  else value.

Definition shown_trajectory (value : pystr) : pystr :=
  if is_empty value
  then lit "Not found - expected at output/md_trajectory_id_0.dcd"
  else value.

Lemma topology_line_shown (value : pystr) :
  topology_line value
  = (lit "TOPOLOGY_FILE" ++ [colon]) ++ shown_topology value.
Proof.
  unfold topology_line, shown_topology.
  destruct (is_empty value); reflexivity.
Qed.

Lemma trajectory_line_shown (value : pystr) :
  trajectory_line value
  = (lit "TRAJECTORY_FILE" ++ [colon]) ++ shown_trajectory value.
Proof.
  unfold trajectory_line, shown_trajectory.
  destruct (is_empty value); reflexivity.
Qed.

Lemma shown_topology_trimmed (m : Machine) (fs : FS) :
  trimmed (shown_topology (found_topology (wgetcwd m) fs)).
Proof.
  unfold shown_topology.
  destruct (is_empty (found_topology (wgetcwd m) fs)) eqn:He.
  - split; reflexivity.
  - exact (found_topology_trimmed m fs He).
Qed.

Lemma shown_trajectory_trimmed (m : Machine) (fs : FS) :
  trimmed (shown_trajectory (found_trajectory (wgetcwd m) fs)).
Proof.
  unfold shown_trajectory.
  destruct (is_empty (found_trajectory (wgetcwd m) fs)) eqn:He.
  - split; reflexivity.
  - exact (found_trajectory_trimmed m fs He).
Qed.

Lemma report_last_values (before : list pystr) (topology trajectory : pystr)
      (previous : pystr * pystr) :
  trimmed topology -> trimmed trajectory ->
  last_value (lit "TOPOLOGY_FILE:") (fst previous)
    (before ++ [(lit "TOPOLOGY_FILE" ++ [colon]) ++ topology ++ [10];
                (lit "TRAJECTORY_FILE" ++ [colon]) ++ trajectory ++ [10]])
  = topology
  /\ last_value (lit "TRAJECTORY_FILE:") (snd previous)
       (before ++ [(lit "TOPOLOGY_FILE" ++ [colon]) ++ topology ++ [10];
                   (lit "TRAJECTORY_FILE" ++ [colon]) ++ trajectory ++ [10]])
     = trajectory.
Proof.
  intros [Htl Htr] [Hjl Hjr]. split.
  - apply last_value_last.
    + exact (sentinel_value_line (lit "TOPOLOGY_FILE") topology Htl Htr).
    + constructor; [|constructor]. unfold sentinel_value.
      rewrite <- (app_assoc (lit "TRAJECTORY_FILE") [colon]). cbn [app].
      rewrite (rstrip_keeps _ colon _ eq_refl). reflexivity.
  - change (before ++ [?a; ?b]) with (before ++ [a] ++ [b]).
    rewrite app_assoc. apply last_value_last; [|constructor].
    exact (sentinel_value_line (lit "TRAJECTORY_FILE") trajectory Hjl Hjr).
Qed.

(** The worker and the launcher fit together: when the pipeline of the
    worker has succeeded, the output the launcher reads ends with the
    last two lines the worker printed, and the launcher returns (the
    child has exited with code 0 and the temporary parameter file was
    still there to remove), the outputs of the block are the two files
    the worker settled on; for a file it did not find, the output is the
    worker's text [Not found - expected at ...], not an empty path. *)
Theorem worker_report_reaches_launcher
        (m : Machine) (wfs : FS) (h : Host) (block : Block) (fs : FS) :
  pipeline_succeeded m wfs = true ->
  (forall cmd p,
      spawn h cmd = inr p ->
      exists printed_before read_before line1 line2,
        wtrace (fst (run_worker m wfs))
        = printed_before ++ [Out line1; Out line2]
        /\ child_stdout p = read_before ++ [line1 ++ [10]; line2 ++ [10]]) ->
  raised (launch h block fs) = None ->
  exit_status (trace (fst (launch h block fs))) = Some 0%Z
  /\ outputs (trace (fst (launch h block fs)))
     = <["trajectory_output"%string :=
           shown_trajectory (found_trajectory (wgetcwd m) (after m wfs))]>
         (<["topology_output"%string :=
              shown_topology (found_topology (wgetcwd m) (after m wfs))]> ∅).
Proof.
  intros Hok Hout Hret.
  destruct (succeeded_run m wfs Hok) as (before0 & Hrun).
  destruct (launch_outcome h block fs)
    as [msg _ Hr | msg s _ Hr _ _ _
       | e s _ _ Hr _
       | rest cmd p s pre post _ _ _ _ Hr _ _ _ _ _
       | rest cmd p s pre _ _ _ _ _ _ Hr _ _ _ _
       | rest cmd p s pre _ Ht Hs _ _ _ Hr Htr Hq _ Hex];
    rewrite Hr in *; cbn [fst] in *; try discriminate Hret.
  destruct (Hout cmd p Hs) as (pb & rb & line1 & line2 & Hw & Hc).
  rewrite Hrun in Hw. cbn [fst wtrace] in Hw.
  apply app_inj_2 in Hw as [_ Hw]; [|reflexivity].
  injection Hw as <- <-.
  rewrite topology_line_shown, trajectory_line_shown, <- !app_assoc in Hc.
  cbv zeta in Htr. rewrite Htr. split.
  { apply (exit_status_waited _ _ _ Hq). }
  rewrite (outputs_app_quiet _ _ Hq), Hc.
  destruct (report_last_values rb _ _ ([], [])
              (shown_topology_trimmed m (after m wfs))
              (shown_trajectory_trimmed m (after m wfs))) as [Et Ej].
  cbn [fst snd] in Et, Ej.
  rewrite <- !app_assoc in Et, Ej. rewrite Et, Ej. reflexivity.
Qed.

(** The lines a text stream yields for what was printed: each line
    with its newline. *)
Fixpoint stream_lines (line text : pystr) : list pystr :=
  match text with
  | [] => if is_empty line then [] else [line]
  | c :: text' =>
      if c =? 10 then (line ++ [10]) :: stream_lines [] text'
      else stream_lines (line ++ [c]) text'
  end.

(** The child a run of the worker is for the launcher.  Its exit code
    is that of [main], that of a [sys.exit] inside a stage, or, for an
    interrupt, the signal with which the interpreter then ends
    itself. *)
Definition worker_child (m : Machine) (wfs : FS) : Child :=
  {| child_stdout :=
       stream_lines []
         (concat (map (fun e => match e with
                                | Out line => line ++ [10]
                                | _ => []
                                end)
                      (wtrace (fst (run_worker m wfs)))));
     read_error := None;
     child_returncode :=
       match snd (run_worker m wfs) with
       | inr code | inl (SystemExit code) => code
       | inl KeyboardInterrupt => (-2)%Z
       | inl _ => 1%Z
       end;
     meanwhile := fun fs => fs
  |}.

(** A host whose child is the worker of [lab_machine] leaving
    [output/emin.pdb] and no trajectory. *)
Definition relay_host : Host :=
  {| cwd_rest := lit "home/user";
     module_file := lit "/plugins/easy-md/Include/easymd.py";
     tempfile_rest := inr (lit "tmp/tmpk3x9ab.json");
     spawn := fun _ =>
       inr (worker_child (lab_machine [lit "/work/output/emin.pdb"])
                         lab_inputs);
     signal_name := fun _ => None |}.

Lemma worker_report_reaches_launcher_witness :
  outputs (trace (fst (launch relay_host plain_block [])))
  = <["trajectory_output"%string :=
        lit "Not found - expected at output/md_trajectory_id_0.dcd"]>
      (<["topology_output"%string := lit "/work/output/emin.pdb"]> ∅).
Proof.
  apply (worker_report_reaches_launcher
           (lab_machine [lit "/work/output/emin.pdb"]) lab_inputs
           relay_host plain_block []).
  - vm_compute. reflexivity.
  - intros cmd p [= <-].
    eexists (firstn 35 (wtrace (fst (run_worker
                                       (lab_machine
                                          [lit "/work/output/emin.pdb"])
                                       lab_inputs)))),
            (firstn 30 (child_stdout
                          (worker_child
                             (lab_machine [lit "/work/output/emin.pdb"])
                             lab_inputs))),
            _, _.
    split; vm_compute; reflexivity.
  - vm_compute. reflexivity.
Defined.
